(** * gazebo/rendering/OculusCamera.cc: a shallow embedding

    The adapter class [OculusCamera] drives two engine cameras from the
    head-tracker of a head-mounted display.  Its arithmetic is done in
    IEEE-754 single precision ([float], [Ogre::Real]) with a few [double]
    sub-expressions; both are modelled with the standard library's
    executable specification of binary floating point, instantiated at
    (24, 128) and (53, 1024). *)

From Stdlib Require Import ZArith QArith Qpower Qabs Lia Lqa Bool.
From Stdlib Require Import Floats.SpecFloat.
From stdpp Require Import base option strings gmap.

Local Open Scope Z_scope.

(** ** [float] and [Ogre::Real]: binary32 *)

Module F32.
Definition prec : Z := 24.
Definition emax : Z := 128.

Definition add := SFadd prec emax.
Definition sub := SFsub prec emax.
Definition mul := SFmul prec emax.
Definition div := SFdiv prec emax.
Definition opp := SFopp.

(** A value of the type: every finite one has a canonical significand. *)
Definition valid (x : spec_float) : Prop := valid_binary prec emax x = true.

(** Conversion of an [int] (exact for the small integers used here). *)
Definition of_int (z : Z) : spec_float := binary_normalize prec emax z 0 false.

(** A decimal literal [n/d] written with the [f] suffix: the correctly
    rounded quotient, [n] and [d] being exactly representable. *)
Definition dec (n d : Z) : spec_float := div (of_int n) (of_int d).

(** Conversion of a [double] to [float] (rounds to nearest even). *)
Definition of_double (x : spec_float) : spec_float :=
  match x with
  | S754_finite s m e => binary_round prec emax s m e
  | _ => x
  end.

Definition zero : spec_float := S754_zero false.
Definition one : spec_float := Eval vm_compute in of_int 1.
Definition two : spec_float := Eval vm_compute in of_int 2.
Definition half : spec_float := Eval vm_compute in dec 5 10.

End F32.

(** ** [double]: binary64 *)

Module F64.
Definition prec : Z := 53.
Definition emax : Z := 1024.

Definition add := SFadd prec emax.
Definition sub := SFsub prec emax.
Definition mul := SFmul prec emax.
Definition div := SFdiv prec emax.
Definition opp := SFopp.

Definition valid (x : spec_float) : Prop := valid_binary prec emax x = true.

Definition of_int (z : Z) : spec_float := binary_normalize prec emax z 0 false.
Definition dec (n d : Z) : spec_float := div (of_int n) (of_int d).

(** Promotion of a [float] to [double]. *)
Definition of_float (x : spec_float) : spec_float :=
  match x with
  | S754_finite s m e => binary_round prec emax s m e
  | _ => x
  end.

Definition one : spec_float := Eval vm_compute in of_int 1.
Definition mone : spec_float := Eval vm_compute in of_int (-1).
End F64.

(** The rational number a finite float stands for (0 for the others). *)
Definition SF2Q (x : spec_float) : Q :=
  match x with
  | S754_finite s m e =>
      ((if s then -1 else 1) * inject_Z (Zpos m) * Qpower 2 e)%Q
  | _ => 0%Q
  end.

Definition is_finite (x : spec_float) : bool :=
  match x with
  | S754_finite _ _ _ | S754_zero _ => true
  | _ => false
  end.

(** ** Vectors, quaternions and matrices *)

(** [OVR::Quatf]: four [float] components. *)
Record Quatf := { ovr_x : spec_float; ovr_y : spec_float;
                  ovr_z : spec_float; ovr_w : spec_float }.

(** Four values of type [float]. *)
Definition Quatf_valid (q : Quatf) : Prop :=
  F32.valid (ovr_x q) /\ F32.valid (ovr_y q)
  /\ F32.valid (ovr_z q) /\ F32.valid (ovr_w q).

(** [gazebo::math::Quaternion]: four [double] components, stored by the
    constructor [Quaternion(w, x, y, z)] as given. *)
Record Quaternion := { quat_w : spec_float; quat_x : spec_float;
                       quat_y : spec_float; quat_z : spec_float }.

(** [gazebo::math::Vector3] ([double]) and [Ogre::Vector3] ([Real]) . *)
Record Vector3 := { vx : spec_float; vy : spec_float; vz : spec_float }.

(** [Ogre::Vector4]. *)
Record Vector4 := { v4x : spec_float; v4y : spec_float;
                    v4z : spec_float; v4w : spec_float }.

(** [Ogre::Matrix4]: [Real m[4][4]], row major. *)
Record Matrix4 := { row0 : Vector4; row1 : Vector4;
                    row2 : Vector4; row3 : Vector4 }.

(** Promotion to [double] pads the significand to 53 bits. *)
Definition pad64 (m : positive) : nat := Z.to_nat (53 - Zpos (digits2_pos m)).



Module Ogre.
Definition Vector3_UNIT_Z : Vector3 :=
  {| vx := F32.zero; vy := F32.zero; vz := F32.one |}.

Definition Matrix4_IDENTITY : Matrix4 :=
  {| row0 := Build_Vector4 F32.one F32.zero F32.zero F32.zero;
     row1 := Build_Vector4 F32.zero F32.one F32.zero F32.zero;
     row2 := Build_Vector4 F32.zero F32.zero F32.one F32.zero;
     row3 := Build_Vector4 F32.zero F32.zero F32.zero F32.one |}.

(** [Matrix4::setTrans]: overwrites the last column of the upper three
    rows. *)
Definition setTrans (v : Vector3) (m : Matrix4) : Matrix4 :=
  let put (r : Vector4) (t : spec_float) :=
    Build_Vector4 (v4x r) (v4y r) (v4z r) t in
  {| row0 := put (row0 m) (vx v); row1 := put (row1 m) (vy v);
     row2 := put (row2 m) (vz v); row3 := row3 m |}.

(** [Matrix4::operator*] (concatenate): the sixteen dot products, each
    summed from left to right in [Real]. *)
Definition dot4 (a b c d a' b' c' d' : spec_float) : spec_float :=
  F32.add (F32.add (F32.add (F32.mul a a') (F32.mul b b')) (F32.mul c c'))
          (F32.mul d d').

Definition mulrow (r : Vector4) (m2 : Matrix4) : Vector4 :=
  let col (f : Vector4 -> spec_float) :=
    dot4 (v4x r) (v4y r) (v4z r) (v4w r)
         (f (row0 m2)) (f (row1 m2)) (f (row2 m2)) (f (row3 m2)) in
  Build_Vector4 (col v4x) (col v4y) (col v4z) (col v4w).

Definition Matrix4_mul (m m2 : Matrix4) : Matrix4 :=
  {| row0 := mulrow (row0 m) m2; row1 := mulrow (row1 m) m2;
     row2 := mulrow (row2 m) m2; row3 := mulrow (row3 m) m2 |}.

(** The translation by [t] along x, as built in [Oculus()]: the identity
    with [setTrans (t, 0, 0)]. *)
Definition x_translation (t : spec_float) : Matrix4 :=
  setTrans (Build_Vector3 t (F32.of_int 0) (F32.of_int 0)) Matrix4_IDENTITY.

(** Calls on an [Ogre::Camera] whose effect on the orientation is left
    to the engine. *)
Inductive CameraCall :=
| pitch_Degree (d : Z)
| setFixedYawAxis (useFixed : bool) (axis : Vector3)
| setDirection (x y z : spec_float).

(** [Ogre::Camera]: the attributes this adapter sets. *)
Record Camera := {
  cam_name : string;
  cam_calls : list CameraCall;
  cam_autoAspectRatio : bool;
  cam_nearClipDistance : spec_float;
  cam_farClipDistance : spec_float;
  cam_position : Vector3;
  cam_aspectRatio : spec_float;
  cam_FOVy : spec_float;
  cam_customProjectionMatrix : option Matrix4
}.

(** A camera as [SceneManager::createCamera] returns it, with the
    engine's documented defaults (near 100, far 100000, aspect 4/3,
    vertical field of view pi/4). *)
Definition newCamera (name : string) : Camera :=
  {| cam_name := name; cam_calls := [];
     cam_autoAspectRatio := false;
     cam_nearClipDistance := F32.of_int 100;
     cam_farClipDistance := F32.of_int 100000;
     cam_position := Build_Vector3 F32.zero F32.zero F32.zero;
     cam_aspectRatio := F32.of_double (F64.dec 133333333333333 100000000000000);
     cam_FOVy := F32.div (F32.of_double (S754_finite false 7074237752028440 (-51)))
                         (F32.of_int 4);
     cam_customProjectionMatrix := None |}.

Definition call (k : CameraCall) (c : Camera) : Camera :=
  Build_Camera (cam_name c) (cam_calls c ++ [k]) (cam_autoAspectRatio c)
    (cam_nearClipDistance c) (cam_farClipDistance c) (cam_position c)
    (cam_aspectRatio c) (cam_FOVy c) (cam_customProjectionMatrix c).
Definition setAutoAspectRatio (b : bool) (c : Camera) : Camera :=
  Build_Camera (cam_name c) (cam_calls c) b
    (cam_nearClipDistance c) (cam_farClipDistance c) (cam_position c)
    (cam_aspectRatio c) (cam_FOVy c) (cam_customProjectionMatrix c).
Definition setNearClipDistance (n : spec_float) (c : Camera) : Camera :=
  Build_Camera (cam_name c) (cam_calls c) (cam_autoAspectRatio c)
    n (cam_farClipDistance c) (cam_position c)
    (cam_aspectRatio c) (cam_FOVy c) (cam_customProjectionMatrix c).
Definition setFarClipDistance (f : spec_float) (c : Camera) : Camera :=
  Build_Camera (cam_name c) (cam_calls c) (cam_autoAspectRatio c)
    (cam_nearClipDistance c) f (cam_position c)
    (cam_aspectRatio c) (cam_FOVy c) (cam_customProjectionMatrix c).
Definition setPosition (x y z : spec_float) (c : Camera) : Camera :=
  Build_Camera (cam_name c) (cam_calls c) (cam_autoAspectRatio c)
    (cam_nearClipDistance c) (cam_farClipDistance c) (Build_Vector3 x y z)
    (cam_aspectRatio c) (cam_FOVy c) (cam_customProjectionMatrix c).
Definition setAspectRatio (a : spec_float) (c : Camera) : Camera :=
  Build_Camera (cam_name c) (cam_calls c) (cam_autoAspectRatio c)
    (cam_nearClipDistance c) (cam_farClipDistance c) (cam_position c)
    a (cam_FOVy c) (cam_customProjectionMatrix c).
Definition setFOVy (f : spec_float) (c : Camera) : Camera :=
  Build_Camera (cam_name c) (cam_calls c) (cam_autoAspectRatio c)
    (cam_nearClipDistance c) (cam_farClipDistance c) (cam_position c)
    (cam_aspectRatio c) f (cam_customProjectionMatrix c).
(** [setCustomProjectionMatrix(true, m)]. *)
Definition setCustomProjectionMatrix (m : Matrix4) (c : Camera) : Camera :=
  Build_Camera (cam_name c) (cam_calls c) (cam_autoAspectRatio c)
    (cam_nearClipDistance c) (cam_farClipDistance c) (cam_position c)
    (cam_aspectRatio c) (cam_FOVy c) (Some m).

(** [Ogre::SceneNode]: the names of the objects attached to it. *)
Record SceneNode := { node_attached : list string }.
Definition attachObject (name : string) (n : SceneNode) : SceneNode :=
  {| node_attached := node_attached n ++ [name] |}.

(** [Ogre::Viewport], identified by the camera it shows. *)
Record Viewport := { vp_camera : string }.

(** A value given to [setNamedConstant]. *)
Inductive GpuConstant :=
| GpuVector4 (v : Vector4)
| GpuReal (r : spec_float).

(** A compositor definition: the material of its output pass. *)
Record Compositor := { comp_material : string }.

(** [Ogre::CompositorInstance]. *)
Record CompositorInstance := {
  ci_compositor : string; ci_viewport : Viewport; ci_enabled : bool }.

Inductive RenderPathType := NONE | VERTEX | FORWARD | DEFERRED.

(** The engine singletons the adapter talks to: the material manager
    (per material, the fragment-program constants of technique 0,
    pass 0), the compositor manager, the cameras of the scene manager and
    the render path of the render engine. *)
Record Root := {
  materials : gmap string (gmap string GpuConstant);
  compositorDefs : gmap string Compositor;
  sceneCameras : gset string;
  renderPathType : RenderPathType
}.

Definition with_materials (ms : gmap string (gmap string GpuConstant))
    (r : Root) : Root :=
  Build_Root ms (compositorDefs r) (sceneCameras r) (renderPathType r).
Definition with_compositorDefs (cs : gmap string Compositor) (r : Root) : Root :=
  Build_Root (materials r) cs (sceneCameras r) (renderPathType r).
Definition with_sceneCameras (cs : gset string) (r : Root) : Root :=
  Build_Root (materials r) (compositorDefs r) cs (renderPathType r).
End Ogre.

(** ** The interfaces the adapter is written against *)

(** The vendor SDK ([OVR.h]).  [StereoConfig] and [SensorFusion] are
    SDK classes; their methods are taken as given. *)
Class OVR := {
  HMDInfo : Type;
  StereoConfig : Type;
  SensorDevice : Type;
  SensorFusion : Type;
  (** [HMDInfo::ChromaAbCorrection], a [float[4]] *)
  ChromaAbCorrection : HMDInfo -> Vector4;
  SetHMDInfo : HMDInfo -> StereoConfig -> StereoConfig;
  GetHMDInfo : StereoConfig -> HMDInfo;
  GetDistortionK : StereoConfig -> Z -> spec_float;
  GetProjectionCenterOffset : StereoConfig -> spec_float;
  GetIPD : StereoConfig -> spec_float;
  GetEyeToScreenDistance : StereoConfig -> spec_float;
  GetAspect : StereoConfig -> spec_float;
  GetYFOVRadians : StereoConfig -> spec_float;
  AttachToSensor : option SensorDevice -> SensorFusion -> SensorFusion;
  SetPredictionEnabled : bool -> SensorFusion -> SensorFusion;
  GetPredictedOrientation : SensorFusion -> Quatf;
  Reset : SensorFusion -> SensorFusion
}.

(** The projection matrix the engine derives from a frustum
    ([Frustum::getProjectionMatrix] without a custom matrix); it depends on
    the render system. *)
Class Frustum := {
  perspective : forall (fovy aspect near far : spec_float), Matrix4
}.

(** [Frustum::getProjectionMatrix]: a custom matrix, once set, is returned
    as it is. *)
Definition getProjectionMatrix `{Frustum} (c : Ogre.Camera) : Matrix4 :=
  match Ogre.cam_customProjectionMatrix c with
  | Some m => m
  | None => perspective (Ogre.cam_FOVy c) (Ogre.cam_aspectRatio c)
              (Ogre.cam_nearClipDistance c) (Ogre.cam_farClipDistance c)
  end.

(** [OVR::HMDDevice] and [OVR::DeviceManager], by what their calls return:
    a null pointer is [None]. *)
Record HMDDevice `{OVR} := {
  GetDeviceInfo : HMDInfo;
  GetSensor : option SensorDevice
}.

Record DeviceManager `{OVR} := {
  (** [EnumerateDevices<OVR::HMDDevice>().CreateDevice()] *)
  EnumerateDevices_HMDDevice : option HMDDevice;
  (** [EnumerateDevices<OVR::SensorDevice>().CreateDevice()] *)
  EnumerateDevices_SensorDevice : option SensorDevice
}.

(** What the SDK hands out while the constructor runs. *)
Record OVREnv `{OVR} := {
  DeviceManager_Create : option DeviceManager;
  new_StereoConfig : option StereoConfig;
  new_SensorFusion : option SensorFusion
}.

(** ** The base class [gazebo::rendering::Camera] *)

(** The inherited members this file reads or writes. *)
Record Camera := {
  name : string;
  camera : option Ogre.Camera;
  sceneNode : option Ogre.SceneNode;
  viewport : option Ogre.Viewport;
  renderRate : spec_float;
  hfov : spec_float;
  clipNear : spec_float;
  clipFar : spec_float;
  worldPosition : Vector3;
  worldRotation : Quaternion
}.

Definition with_camera (oc : option Ogre.Camera) (b : Camera) : Camera :=
  Build_Camera (name b) oc (sceneNode b) (viewport b) (renderRate b)
    (hfov b) (clipNear b) (clipFar b) (worldPosition b) (worldRotation b).
Definition with_sceneNode (n : option Ogre.SceneNode) (b : Camera) : Camera :=
  Build_Camera (name b) (camera b) n (viewport b) (renderRate b)
    (hfov b) (clipNear b) (clipFar b) (worldPosition b) (worldRotation b).

(** The base-class methods whose bodies live in Camera.cc. *)
Class CameraBase := {
  (** [Camera::Camera(_name, _scene)] *)
  Camera_Camera : string -> Camera;
  (** [Camera::Init()], which creates the inherited camera and scene node *)
  Camera_Init : Ogre.Root * Camera -> Ogre.Root * Camera;
  (** [Camera::Update()] *)
  Camera_Update : Camera -> Camera
}.

(** Modelled from the spec: [Camera::SetRenderRate], not in this file; it
    records the rate. *)
Definition Camera_SetRenderRate (hz : spec_float) (b : Camera) : Camera :=
  Build_Camera (name b) (camera b) (sceneNode b) (viewport b) hz
    (hfov b) (clipNear b) (clipFar b) (worldPosition b) (worldRotation b).

(** Modelled from the spec: [Camera::SetHFOV], not in this file; it records
    the horizontal field of view. *)
Definition Camera_SetHFOV (radians : spec_float) (b : Camera) : Camera :=
  Build_Camera (name b) (camera b) (sceneNode b) (viewport b) (renderRate b)
    radians (clipNear b) (clipFar b) (worldPosition b) (worldRotation b).

(** Modelled from the spec: [Camera::SetClipDist], not in this file; it
    records the two distances and sets them on the inherited engine camera
    when there is one. *)
Definition Camera_SetClipDist (near far : spec_float) (b : Camera) : Camera :=
  Build_Camera (name b)
    (Ogre.setFarClipDistance far <$> (Ogre.setNearClipDistance near <$> camera b))
    (sceneNode b) (viewport b) (renderRate b)
    (hfov b) near far (worldPosition b) (worldRotation b).

(** Modelled from the spec: [Camera::SetWorldRotation], not in this file;
    it makes its argument the orientation of the camera's world pose and
    leaves the position alone. *)
Definition Camera_SetWorldRotation (q : Quaternion) (b : Camera) : Camera :=
  Build_Camera (name b) (camera b) (sceneNode b) (viewport b) (renderRate b)
    (hfov b) (clipNear b) (clipFar b) (worldPosition b) q.

(** [GZ_DTOR(d)], the macro [((d) * M_PI / 180)], in [double]. *)
Definition M_PI : spec_float := S754_finite false 7074237752028440 (-51).
Definition GZ_DTOR (d : Z) : spec_float :=
  F64.div (F64.mul (F64.of_int d) M_PI) (F64.of_int 180).

(** ** Messages: [msgs::WorldControl] and [msgs::WorldReset]

    Optional protobuf fields: [has_f] says whether the field is present and
    [f] returns it, or its default when it is absent. *)
Record WorldReset := {
  wr_all : option bool;
  wr_time_only : option bool;
  wr_model_only : option bool
}.

Record WorldControl := {
  wc_pause : option bool;
  wc_step : option bool;
  wc_multi_step : option Z;
  wc_reset : option WorldReset;
  wc_seed : option Z
}.

Definition has_all (r : WorldReset) : bool := bool_decide (is_Some (wr_all r)).
Definition all (r : WorldReset) : bool := default false (wr_all r).
Definition has_reset (m : WorldControl) : bool := bool_decide (is_Some (wc_reset m)).
Definition reset (m : WorldControl) : WorldReset :=
  default (Build_WorldReset None None None) (wc_reset m).

(** The condition of [OnControl]. *)
Definition asks_reset_all (d : WorldControl) : Prop :=
  has_reset d = true /\ has_all (reset d) = true /\ all (reset d) = true.

(** ** The adapter *)

Section Adapter.
Context `{sdk : OVR} `{fr : Frustum} `{cb : CameraBase}.

(** Pointers that the code dereferences. *)
Inductive Pointer :=
| p_deviceManager | p_stereoConfig | p_sensorFusion
| p_camera | p_rightCamera
| p_sceneNode | p_viewport | p_rightViewport
| p_matLeft | p_matRight | p_comp | p_compositors (i : Z).

(** Which alternative of a conditional in [Oculus()] ran. *)
Inductive Branch :=
| warp_from_config | warp_default
| chrom_from_config | chrom_default
| eye_from_config (i : Z) | eye_default (i : Z).

(** What an observer of the adapter sees, in order: the calls into the
    SDK and into the base class, the console messages and the branches
    taken. *)
Inductive Event :=
| call_Camera_SetRenderRate (hz : spec_float)
| call_Camera_Init
| call_Camera_SetHFOV (radians : spec_float)
| call_Camera_SetClipDist (near far : spec_float)
| call_Camera_Update
| call_Camera_SetWorldRotation (q : Quaternion)
| OVR_System_Init
| call_DeviceManager_Create
| call_new_StereoConfig
| call_GetProjectionCenterOffset
| call_EnumerateDevices_HMDDevice
| call_GetDeviceInfo
| call_SetHMDInfo
| call_GetSensor
| call_EnumerateDevices_SensorDevice
| call_new_SensorFusion
| call_AttachToSensor
| call_SetPredictionEnabled (b : bool)
| call_GetPredictedOrientation
| call_Reset
| call_Subscribe (topic : string)
| gzlog (msg : string)
| gzerr (msg : string)
| took (b : Branch).

(** The members of [OculusCamera]; a null pointer is [None].  [trace] is
    not a member: it records the events above. *)
Record OculusCamera := {
  base : Camera;
  deviceManager : option DeviceManager;
  stereoConfig : option StereoConfig;
  centerOffset : spec_float;
  hmd : option HMDDevice;
  sensor : option SensorDevice;
  sensorFusion : option SensorFusion;
  rightCamera : option Ogre.Camera;
  rightViewport : option Ogre.Viewport;
  compositors : option Ogre.CompositorInstance * option Ogre.CompositorInstance;
  controlSub : option string;
  trace : list Event
}.

Definition with_base (b : Camera) (c : OculusCamera) : OculusCamera :=
  Build_OculusCamera b (deviceManager c) (stereoConfig c) (centerOffset c)
    (hmd c) (sensor c) (sensorFusion c) (rightCamera c) (rightViewport c)
    (compositors c) (controlSub c) (trace c).
Definition with_deviceManager (d : option DeviceManager) (c : OculusCamera) :=
  Build_OculusCamera (base c) d (stereoConfig c) (centerOffset c)
    (hmd c) (sensor c) (sensorFusion c) (rightCamera c) (rightViewport c)
    (compositors c) (controlSub c) (trace c).
Definition with_stereoConfig (s : option StereoConfig) (c : OculusCamera) :=
  Build_OculusCamera (base c) (deviceManager c) s (centerOffset c)
    (hmd c) (sensor c) (sensorFusion c) (rightCamera c) (rightViewport c)
    (compositors c) (controlSub c) (trace c).
Definition with_centerOffset (o : spec_float) (c : OculusCamera) :=
  Build_OculusCamera (base c) (deviceManager c) (stereoConfig c) o
    (hmd c) (sensor c) (sensorFusion c) (rightCamera c) (rightViewport c)
    (compositors c) (controlSub c) (trace c).
Definition with_hmd (h : option HMDDevice) (c : OculusCamera) :=
  Build_OculusCamera (base c) (deviceManager c) (stereoConfig c) (centerOffset c)
    h (sensor c) (sensorFusion c) (rightCamera c) (rightViewport c)
    (compositors c) (controlSub c) (trace c).
Definition with_sensor (s : option SensorDevice) (c : OculusCamera) :=
  Build_OculusCamera (base c) (deviceManager c) (stereoConfig c) (centerOffset c)
    (hmd c) s (sensorFusion c) (rightCamera c) (rightViewport c)
    (compositors c) (controlSub c) (trace c).
Definition with_sensorFusion (s : option SensorFusion) (c : OculusCamera) :=
  Build_OculusCamera (base c) (deviceManager c) (stereoConfig c) (centerOffset c)
    (hmd c) (sensor c) s (rightCamera c) (rightViewport c)
    (compositors c) (controlSub c) (trace c).
Definition with_rightCamera (r : option Ogre.Camera) (c : OculusCamera) :=
  Build_OculusCamera (base c) (deviceManager c) (stereoConfig c) (centerOffset c)
    (hmd c) (sensor c) (sensorFusion c) r (rightViewport c)
    (compositors c) (controlSub c) (trace c).
Definition with_compositors
    (cs : option Ogre.CompositorInstance * option Ogre.CompositorInstance)
    (c : OculusCamera) :=
  Build_OculusCamera (base c) (deviceManager c) (stereoConfig c) (centerOffset c)
    (hmd c) (sensor c) (sensorFusion c) (rightCamera c) (rightViewport c)
    cs (controlSub c) (trace c).
Definition with_controlSub (t : option string) (c : OculusCamera) :=
  Build_OculusCamera (base c) (deviceManager c) (stereoConfig c) (centerOffset c)
    (hmd c) (sensor c) (sensorFusion c) (rightCamera c) (rightViewport c)
    (compositors c) t (trace c).
Definition with_trace (t : list Event) (c : OculusCamera) :=
  Build_OculusCamera (base c) (deviceManager c) (stereoConfig c) (centerOffset c)
    (hmd c) (sensor c) (sensorFusion c) (rightCamera c) (rightViewport c)
    (compositors c) (controlSub c) t.

(** The adapter together with the engine it drives. *)
Record Sim := { ogre : Ogre.Root; self : OculusCamera }.

(** *** Statements: state, C++ exceptions and null dereferences *)

Inductive Result (A : Type) :=
| Done (a : A)
| Throw (msg : string)
| Fault (p : Pointer).
Arguments Done {A} a.
Arguments Throw {A} msg.
Arguments Fault {A} p.

Definition M (S A : Type) : Type := S -> Result A * S.

#[local] Instance M_ret {S} : MRet (M S) := fun A a s => (Done a, s).
#[local] Instance M_bind {S} : MBind (M S) := fun A B f m s =>
  match m s with
  | (Done a, s') => f a s'
  | (Throw msg, s') => (Throw msg, s')
  | (Fault p, s') => (Fault p, s')
  end.

Definition get {S} : M S S := fun s => (Done s, s).
Definition modify {S} (f : S -> S) : M S unit := fun s => (Done tt, f s).
Definition gzthrow {S A} (msg : string) : M S A := fun s => (Throw msg, s).
(** [p->...]: the pointee, or a fault when [p] is null. *)
Definition deref {S A} (p : Pointer) (o : option A) : M S A :=
  fun s => match o with Some a => (Done a, s) | None => (Fault p, s) end.
(** A method of the adapter run from code that also holds the engine. *)
Definition on_self {A} (m : M OculusCamera A) : M Sim A := fun s =>
  let (r, c) := m (self s) in (r, Build_Sim (ogre s) c).
Definition on_ogre {A} (m : M Ogre.Root A) : M Sim A := fun s =>
  let (r, o) := m (ogre s) in (r, Build_Sim o (self s)).

Definition emit (e : Event) : M OculusCamera unit :=
  modify (fun c => with_trace (trace c ++ [e]) c).

Definition nl : string := String (Ascii.ascii_of_nat 10) EmptyString.

Definition read {S A} (f : S -> A) : M S A := fun s => (Done (f s), s).
Definition when {S} (b : bool) (m : M S unit) : M S unit :=
  if b then m else mret tt.
Definition is_null {A} (o : option A) : bool :=
  match o with None => true | Some _ => false end.

Fixpoint for_each {S} (l : list Z) (body : Z -> M S unit) : M S unit :=
  match l with
  | [] => mret tt
  | i :: l' => body i ;; for_each l' body
  end.

(** [this->camera->f(...)], [this->rightCamera->f(...)] and
    [this->sceneNode->f(...)]. *)
Definition via_camera (f : Ogre.Camera -> Ogre.Camera) : M OculusCamera unit :=
  cam ← read (fun c => camera (base c)) ≫= deref p_camera ;
  modify (fun c => with_base (with_camera (Some (f cam)) (base c)) c).
Definition via_rightCamera (f : Ogre.Camera -> Ogre.Camera) : M OculusCamera unit :=
  cam ← read rightCamera ≫= deref p_rightCamera ;
  modify (with_rightCamera (Some (f cam))).
Definition via_sceneNode (f : Ogre.SceneNode -> Ogre.SceneNode) : M OculusCamera unit :=
  n ← read (fun c => sceneNode (base c)) ≫= deref p_sceneNode ;
  modify (fun c => with_base (with_sceneNode (Some (f n)) (base c)) c).
(** A call of a base-class method on [this]. *)
Definition via_base (e : Event) (f : Camera -> Camera) : M OculusCamera unit :=
  emit e ;;
  modify (fun c => with_base (f (base c)) c).

(** *** The file-level constants *)

Definition g_defaultNearClip : spec_float := F32.dec 1 10.
Definition g_defaultFarClip : spec_float := F32.of_int 5000.
Definition g_defaultIPD : spec_float := F32.dec 64 1000.
Definition g_defautlProjectionCenterOffset : spec_float :=
  F32.dec 14529906 100000000.
Definition g_defaultDistortion (i : Z) : spec_float :=
  if i =? 0 then F32.of_int 1
  else if i =? 1 then F32.dec 22 100
  else if i =? 2 then F32.dec 24 100
  else F32.of_int 0.

(** *** [OculusCamera::OculusCamera] *)

Definition OculusCamera_body (env : OVREnv) : M OculusCamera unit :=
  via_base (call_Camera_SetRenderRate (F64.of_int 30))
           (Camera_SetRenderRate (F64.of_int 30)) ;;
  emit OVR_System_Init ;;
  emit call_DeviceManager_Create ;;
  modify (with_deviceManager (DeviceManager_Create env)) ;;
  dm0 ← read deviceManager ;
  when (is_null dm0)
    (gzthrow ("Oculus: Failed to create Device Manager" +:+ nl)) ;;
  emit (gzlog ("Oculus: Created Device Manager" +:+ nl)) ;;
  emit call_new_StereoConfig ;;
  modify (with_stereoConfig (new_StereoConfig env)) ;;
  sc0 ← read stereoConfig ;
  when (is_null sc0)
    (gzthrow ("Oculus: Failed to create StereoConfig" +:+ nl)) ;;
  emit (gzlog ("Oculus: Created StereoConfig" +:+ nl)) ;;
  cfg ← read stereoConfig ≫= deref p_stereoConfig ;
  emit call_GetProjectionCenterOffset ;;
  modify (with_centerOffset (GetProjectionCenterOffset cfg)) ;;
  h0 ← (dm ← read deviceManager ≫= deref p_deviceManager ;
        emit call_EnumerateDevices_HMDDevice ;;
        modify (with_hmd (EnumerateDevices_HMDDevice dm)) ;;
        read hmd) ;
  match h0 with
  | Some h =>
      emit call_GetDeviceInfo ;;
      let devinfo := GetDeviceInfo h in
      cfg ← read stereoConfig ≫= deref p_stereoConfig ;
      emit call_SetHMDInfo ;;
      modify (with_stereoConfig (Some (SetHMDInfo devinfo cfg))) ;;
      emit call_GetSensor ;;
      modify (with_sensor (GetSensor h))
  | None =>
      emit (gzlog ("Oculus: Failed to create HMD. Creating sensor manually."
                   +:+ nl)) ;;
      dm ← read deviceManager ≫= deref p_deviceManager ;
      emit call_EnumerateDevices_SensorDevice ;;
      modify (with_sensor (EnumerateDevices_SensorDevice dm))
  end ;;
  s0 ← read sensor ;
  when (is_null s0) (gzthrow ("Oculus: Failed to create sensor" +:+ nl)) ;;
  emit (gzlog ("Oculus: Created sensor" +:+ nl)) ;;
  emit call_new_SensorFusion ;;
  modify (with_sensorFusion (new_SensorFusion env)) ;;
  sf0 ← read sensorFusion ;
  if is_null sf0 then
    (* return *)
    emit (gzlog ("Oculus: Failed to create SensorFusion" +:+ nl))
  else
    emit (gzlog ("Oculus: Created SensorFusion" +:+ nl)) ;;
    sf ← read sensorFusion ≫= deref p_sensorFusion ;
    s ← read sensor ;
    emit call_AttachToSensor ;;
    modify (with_sensorFusion (Some (AttachToSensor s sf))) ;;
    sf ← read sensorFusion ≫= deref p_sensorFusion ;
    emit (call_SetPredictionEnabled true) ;;
    modify (with_sensorFusion (Some (SetPredictionEnabled true sf))) ;;
    emit (gzlog ("Oculus: Oculus setup completed successfully" +:+ nl)) ;;
    emit (call_Subscribe "~/world_control") ;;
    modify (with_controlSub (Some "~/world_control")).

(** The object before the constructor body runs: the base class is
    constructed, the pointer members are null. *)
Definition fresh (_name : string) : OculusCamera :=
  {| base := Camera_Camera _name;
     deviceManager := None; stereoConfig := None; centerOffset := F32.zero;
     hmd := None; sensor := None; sensorFusion := None;
     rightCamera := None; rightViewport := None;
     compositors := (None, None); controlSub := None; trace := [] |}.

(** A constructor that throws leaves no object behind. *)
Definition OculusCamera_OculusCamera (_name : string) (env : OVREnv)
  : Result OculusCamera :=
  match OculusCamera_body env (fresh _name) with
  | (Done _, c) => Done c
  | (Throw msg, _) => Throw msg
  | (Fault p, _) => Fault p
  end.

(** *** [OculusCamera::ResetSensor], [OnControl], [Update] *)

Definition ResetSensor : M OculusCamera unit :=
  sf ← read sensorFusion ≫= deref p_sensorFusion ;
  emit call_Reset ;;
  modify (with_sensorFusion (Some (Reset sf))).

Definition OnControl (_data : WorldControl) : M OculusCamera unit :=
  if has_reset _data && has_all (reset _data) && all (reset _data)
  then ResetSensor
  else mret tt.

(** The orientation handed to [SetWorldRotation]:
    [math::Quaternion quat(q.w, -q.z, -q.x, q.y)]. *)
Definition remap (q : Quatf) : Quaternion :=
  {| quat_w := F64.of_float (ovr_w q);
     quat_x := F64.of_float (SFopp (ovr_z q));
     quat_y := F64.of_float (SFopp (ovr_x q));
     quat_z := F64.of_float (ovr_y q) |}.

Definition Update : M OculusCamera unit :=
  via_base call_Camera_Update Camera_Update ;;
  sf ← read sensorFusion ≫= deref p_sensorFusion ;
  emit call_GetPredictedOrientation ;;
  let q := GetPredictedOrientation sf in
  let quat := remap q in
  via_base (call_Camera_SetWorldRotation quat) (Camera_SetWorldRotation quat).

(** *** [OculusCamera::Init] *)

(** [SceneManager::createCamera]: the engine refuses a name twice. *)
Definition createCamera (n : string) : M Ogre.Root Ogre.Camera :=
  o ← get ;
  if bool_decide (n ∈ Ogre.sceneCameras o)
  then gzthrow ("A camera with the name " +:+ n +:+ " already exists")
  else modify (Ogre.with_sceneCameras ({[n]} ∪ Ogre.sceneCameras o)) ;;
       mret (Ogre.newCamera n).

(** [this->SetClipDist(near, far)] *)
Definition SetClipDist (near far : spec_float) : M Sim unit :=
  on_self (via_base (call_Camera_SetClipDist near far)
                    (Camera_SetClipDist near far)).

Definition Init : M Sim unit :=
  (* Camera::Init() *)
  on_self (emit call_Camera_Init) ;;
  modify (fun s => let (o, b) := Camera_Init (ogre s, base (self s)) in
                   Build_Sim o (with_base b (self s))) ;;
  on_self (via_base (call_Camera_SetHFOV (GZ_DTOR 60))
                    (Camera_SetHFOV (GZ_DTOR 60))) ;;
  (* Oculus *)
  rc ← on_ogre (createCamera "UserRight") ;
  on_self (modify (with_rightCamera (Some rc))) ;;
  on_self (via_rightCamera (Ogre.call (Ogre.pitch_Degree 90))) ;;
  on_self (via_rightCamera
             (Ogre.call (Ogre.setFixedYawAxis true Ogre.Vector3_UNIT_Z))) ;;
  on_self (via_rightCamera
             (Ogre.call (Ogre.setDirection (F32.of_int 1) (F32.of_int 0)
                                           (F32.of_int 0)))) ;;
  rc ← on_self (read rightCamera ≫= deref p_rightCamera) ;
  on_self (via_sceneNode (Ogre.attachObject (Ogre.cam_name rc))) ;;
  on_self (via_rightCamera (Ogre.setAutoAspectRatio false)) ;;
  on_self (via_camera (Ogre.setAutoAspectRatio false)) ;;
  on_self (via_rightCamera (Ogre.setNearClipDistance g_defaultNearClip)) ;;
  on_self (via_rightCamera (Ogre.setFarClipDistance g_defaultFarClip)) ;;
  on_self (via_camera (Ogre.setNearClipDistance g_defaultNearClip)) ;;
  on_self (via_camera (Ogre.setFarClipDistance g_defaultFarClip)) ;;
  path ← read (fun s => Ogre.renderPathType (ogre s)) ;
  match path with
  | Ogre.VERTEX =>
      SetClipDist g_defaultNearClip g_defaultFarClip
  | Ogre.DEFERRED | Ogre.FORWARD =>
      SetClipDist g_defaultNearClip g_defaultFarClip
  | _ =>
      SetClipDist g_defaultNearClip g_defaultFarClip
  end.

(** *** [OculusCamera::Oculus] *)

(** [MaterialManager::getByName]: a handle on the material of that name,
    null when there is none. *)
Definition getByName (n : string) : M Ogre.Root (option string) :=
  o ← get ; mret ((fun _ => n) <$> Ogre.materials o !! n).

(** [mat->clone(newName)]: a copy registered under the new name, which
    must be free. *)
Definition clone (p : Pointer) (mat : option string) (newName : string)
  : M Ogre.Root (option string) :=
  n ← deref p mat ;
  o ← get ;
  if bool_decide (is_Some (Ogre.materials o !! newName))
  then gzthrow ("Resource with the name " +:+ newName +:+ " already exists.")
  else modify (Ogre.with_materials
                 (<[newName := default ∅ (Ogre.materials o !! n)]>
                    (Ogre.materials o))) ;;
       mret (Some newName).

(** [pParams->setNamedConstant(k, v)] on the constants of material [h]. *)
Definition setNamedConstant (h k : string) (v : Ogre.GpuConstant)
  : M Ogre.Root unit :=
  modify (fun o => Ogre.with_materials
                     (alter (fun ps => <[k := v]> ps) h (Ogre.materials o)) o).

(** [CompositorManager::addCompositor(vp, name)]: null when the compositor
    is unknown; the chain of the viewport is created otherwise. *)
Definition addCompositor (p : Pointer) (vp : option Ogre.Viewport)
    (n : string) : M Ogre.Root (option Ogre.CompositorInstance) :=
  o ← get ;
  match Ogre.compositorDefs o !! n with
  | None => mret None
  | Some _ =>
      v ← deref p vp ;
      mret (Some (Ogre.Build_CompositorInstance n v false))
  end.

Definition setEnabled (b : bool) (ci : Ogre.CompositorInstance) :=
  Ogre.Build_CompositorInstance (Ogre.ci_compositor ci) (Ogre.ci_viewport ci) b.

(** The body of [for(int i=0; i<2; ++i)]. *)
Definition Oculus_eye (i : Z) : M Sim unit :=
  (* cam = i == 0 ? this->camera : this->rightCamera *)
  let cam (f : Ogre.Camera -> Ogre.Camera) : M Sim unit :=
    on_self (if i =? 0 then via_camera f else via_rightCamera f) in
  let idx := i * 2 - 1 in
  sc ← on_self (read stereoConfig) ;
  match sc with
  | Some cfg =>
      on_self (emit (took (eye_from_config i))) ;;
      cam (Ogre.setNearClipDistance (GetEyeToScreenDistance cfg)) ;;
      cam (Ogre.setFarClipDistance g_defaultFarClip) ;;
      cam (Ogre.setPosition
             (F32.of_int 0)
             (F32.of_double
                (F64.mul
                   (F64.of_float
                      (F32.mul (F32.mul (F32.of_int idx) (GetIPD cfg)) F32.half))
                   F64.mone))
             (F32.of_int 0)) ;;
      cam (Ogre.setAspectRatio (GetAspect cfg)) ;;
      cam (Ogre.setFOVy (GetYFOVRadians cfg)) ;;
      let proj :=
        Ogre.setTrans
          (Build_Vector3
             (F32.mul (SFopp (GetProjectionCenterOffset cfg)) (F32.of_int idx))
             (F32.of_int 0) (F32.of_int 0))
          Ogre.Matrix4_IDENTITY in
      cam (fun c => Ogre.setCustomProjectionMatrix
                      (Ogre.Matrix4_mul proj (getProjectionMatrix c)) c)
  | None =>
      on_self (emit (took (eye_default i))) ;;
      cam (Ogre.setNearClipDistance g_defaultNearClip) ;;
      cam (Ogre.setFarClipDistance g_defaultFarClip) ;;
      cam (Ogre.setPosition
             (F32.mul (F32.mul (F32.of_int idx) g_defaultIPD) F32.half)
             (F32.of_int 0) (F32.of_int 0))
  end ;;
  if i =? 0 then
    vp ← read (fun s => viewport (base (self s))) ;
    ci ← on_ogre (addCompositor p_viewport vp "OculusLeft") ;
    on_self (modify (fun c => with_compositors (ci, snd (compositors c)) c)) ;;
    on_self (when (is_null ci) (emit (gzerr ("Invalid compositor" +:+ nl)))) ;;
    ci ← on_self (read (fun c => fst (compositors c)) ≫= deref (p_compositors i)) ;
    on_self (modify (fun c =>
               with_compositors (Some (setEnabled true ci), snd (compositors c)) c))
  else
    vp ← read (fun s => rightViewport (self s)) ;
    ci ← on_ogre (addCompositor p_rightViewport vp "OculusRight") ;
    on_self (modify (fun c => with_compositors (fst (compositors c), ci) c)) ;;
    ci ← on_self (read (fun c => snd (compositors c)) ≫= deref (p_compositors i)) ;
    on_self (modify (fun c =>
               with_compositors (fst (compositors c), Some (setEnabled true ci)) c)).

Definition Oculus : M Sim unit :=
  matLeft ← on_ogre (getByName "Ogre/Compositor/Oculus") ;
  matRight ← on_ogre (clone p_matLeft matLeft "Ogre/Compositor/Oculus/Right") ;
  pParamsLeft ← deref p_matLeft matLeft ;
  pParamsRight ← deref p_matRight matRight ;
  sc ← on_self (read stereoConfig) ;
  hmdwarp ←
    match sc with
    | Some cfg =>
        on_self (emit (took warp_from_config)) ;;
        mret (Build_Vector4 (GetDistortionK cfg 0) (GetDistortionK cfg 1)
                            (GetDistortionK cfg 2) (GetDistortionK cfg 3))
    | None =>
        on_self (emit (took warp_default)) ;;
        mret (Build_Vector4 (g_defaultDistortion 0) (g_defaultDistortion 1)
                            (g_defaultDistortion 2) (g_defaultDistortion 3))
    end ;
  on_ogre (setNamedConstant pParamsLeft "HmdWarpParam" (Ogre.GpuVector4 hmdwarp)) ;;
  on_ogre (setNamedConstant pParamsRight "HmdWarpParam" (Ogre.GpuVector4 hmdwarp)) ;;
  sc ← on_self (read stereoConfig) ;
  hmdchrom ←
    match sc with
    | Some cfg =>
        on_self (emit (took chrom_from_config)) ;;
        mret (ChromaAbCorrection (GetHMDInfo cfg))
    | None =>
        on_self (emit (took chrom_default)) ;;
        mret (Build_Vector4 (F32.of_double (F64.dec 996 1000))
                            (F32.of_double (SFopp (F64.dec 4 1000)))
                            (F32.of_double (F64.dec 1014 1000))
                            F32.zero)
    end ;
  on_ogre (setNamedConstant pParamsLeft "ChromAbParam" (Ogre.GpuVector4 hmdchrom)) ;;
  on_ogre (setNamedConstant pParamsRight "ChromAbParam" (Ogre.GpuVector4 hmdchrom)) ;;
  cfg ← on_self (read stereoConfig ≫= deref p_stereoConfig) ;
  on_ogre (setNamedConstant pParamsLeft "LensCenter"
             (Ogre.GpuReal (F32.add F32.half
                              (F32.div (GetProjectionCenterOffset cfg) F32.two)))) ;;
  cfg ← on_self (read stereoConfig ≫= deref p_stereoConfig) ;
  on_ogre (setNamedConstant pParamsRight "LensCenter"
             (Ogre.GpuReal (F32.sub F32.half
                              (F32.div (GetProjectionCenterOffset cfg) F32.two)))) ;;
  comp ← read (fun s => Ogre.compositorDefs (ogre s) !! "OculusRight") ;
  _ ← deref p_comp comp ;
  on_ogre (modify (fun o => Ogre.with_compositorDefs
                              (<["OculusRight" :=
                                   Ogre.Build_Compositor "Ogre/Compositor/Oculus/Right"]>
                                 (Ogre.compositorDefs o)) o)) ;;
  for_each [0; 1] Oculus_eye.

(** *** The life of an adapter after its construction

    The methods above are called in any order, against any engine state;
    the tracker thread refreshes the state of the sensor fusion; the rest
    of the class and its base ([SetRenderTarget], the view controls)
    change the inherited members and the right viewport. *)
Inductive later (c : OculusCamera) : OculusCamera -> Prop :=
| later_now : later c c
| later_Update c' : later c c' -> later c (snd (Update c'))
| later_OnControl c' d : later c c' -> later c (snd (OnControl d c'))
| later_ResetSensor c' : later c c' -> later c (snd (ResetSensor c'))
| later_Init c' o : later c c' -> later c (self (snd (Init (Build_Sim o c'))))
| later_Oculus c' o : later c c' -> later c (self (snd (Oculus (Build_Sim o c'))))
| later_tracker c' sf sf' :
    later c c' -> sensorFusion c' = Some sf ->
    later c (with_sensorFusion (Some sf') c')
| later_rest c' b rv :
    later c c' ->
    later c (Build_OculusCamera b (deviceManager c') (stereoConfig c')
               (centerOffset c') (hmd c') (sensor c') (sensorFusion c')
               (rightCamera c') rv (compositors c') (controlSub c') (trace c')).

(** The sensor the constructor ends up with: the one of the head-mounted
    display when there is one, a directly enumerated one otherwise. *)
Definition obtained_sensor (dm : DeviceManager) : option SensorDevice :=
  match EnumerateDevices_HMDDevice dm with
  | Some h => GetSensor h
  | None => EnumerateDevices_SensorDevice dm
  end.

(** [a] occurs before [b] in a trace. *)
Definition before (a b : Event) (l : list Event) : Prop :=
  exists i j : nat, l !! i = Some a /\ l !! j = Some b /\ (i < j)%nat.

(** The fallback alternatives of [Oculus()]. *)
Definition is_fallback (e : Event) : bool :=
  match e with
  | took warp_default | took chrom_default | took (eye_default _) => true
  | _ => false
  end.

(** *** Vocabulary of the facts *)

(** [wp m Q s]: started in [s], the statement [m] ends with a result and
    a state that satisfy [Q]. *)
Definition wp {S A} (m : M S A) (Q : Result A -> S -> Prop) (s : S) : Prop :=
  Q (fst (m s)) (snd (m s)).

(** No method reassigns [stereoConfig] or the subscription, and none
    makes [sensorFusion] null. *)
Definition kept (c c' : OculusCamera) : Prop :=
  stereoConfig c' = stereoConfig c /\ controlSub c' = controlSub c
  /\ (is_Some (sensorFusion c) -> is_Some (sensorFusion c')).

(** C5 as it is stated: the pose that Update() leaves, position and
    orientation, is determined by the motion-sensor data. *)
Definition pose_from_sensor_data : Prop :=
  exists f : Quatf -> Vector3 * Quaternion,
    forall (c : OculusCamera) (sf : SensorFusion),
      sensorFusion c = Some sf ->
      (worldPosition (base (snd (Update c))),
       worldRotation (base (snd (Update c))))
      = f (GetPredictedOrientation sf).

(** What [Oculus()] needs to run to its end: a stereo configuration, the
    warp material loaded and not yet cloned, the two compositors known,
    the two cameras and their viewports created. *)
Definition ready_for_Oculus (s : Sim) : Prop :=
  is_Some (stereoConfig (self s))
  /\ is_Some (Ogre.materials (ogre s) !! "Ogre/Compositor/Oculus")
  /\ Ogre.materials (ogre s) !! "Ogre/Compositor/Oculus/Right" = None
  /\ is_Some (Ogre.compositorDefs (ogre s) !! "OculusLeft")
  /\ is_Some (Ogre.compositorDefs (ogre s) !! "OculusRight")
  /\ is_Some (camera (base (self s)))
  /\ is_Some (rightCamera (self s))
  /\ is_Some (viewport (base (self s)))
  /\ is_Some (rightViewport (self s)).

(** What [Init()] needs: [Camera::Init()] creates the inherited camera and
    the scene node, and the scene has no camera named "UserRight" yet. *)
Definition ready_for_Init (s : Sim) : Prop :=
  let after := Camera_Init (ogre s, base (self s)) in
  is_Some (camera (snd after)) /\ is_Some (sceneNode (snd after))
  /\ ("UserRight" ∉ Ogre.sceneCameras (fst after)).

(** *** What [Oculus()] gives each eye *)

(** The y coordinate of eye [idx]: [idx * IPD * 0.5f * -1.0]. *)
Definition eye_y (cfg : StereoConfig) (idx : Z) : spec_float :=
  F32.of_double
    (F64.mul
       (F64.of_float (F32.mul (F32.mul (F32.of_int idx) (GetIPD cfg)) F32.half))
       F64.mone).

(** The x translation of the projection of eye [idx]:
    [-ProjectionCenterOffset * idx]. *)
Definition eye_shift (cfg : StereoConfig) (idx : Z) : spec_float :=
  F32.mul (SFopp (GetProjectionCenterOffset cfg)) (F32.of_int idx).

(** An eye camera after the five setters of the loop body. *)
Definition placed (cfg : StereoConfig) (idx : Z) (cam : Ogre.Camera)
  : Ogre.Camera :=
  Ogre.setFOVy (GetYFOVRadians cfg)
    (Ogre.setAspectRatio (GetAspect cfg)
       (Ogre.setPosition (F32.of_int 0) (eye_y cfg idx) (F32.of_int 0)
          (Ogre.setFarClipDistance g_defaultFarClip
             (Ogre.setNearClipDistance (GetEyeToScreenDistance cfg) cam)))).

(** An eye camera after its turn of the loop. *)
Definition eye_camera (cfg : StereoConfig) (idx : Z) (cam : Ogre.Camera)
  : Ogre.Camera :=
  Ogre.setCustomProjectionMatrix
    (Ogre.Matrix4_mul (Ogre.x_translation (eye_shift cfg idx))
                      (getProjectionMatrix (placed cfg idx cam)))
    (placed cfg idx cam).

(** The constants of a warp material after [Oculus()], [lens] being its
    lens centre. *)
Definition warp_constants (cfg : StereoConfig) (lens : spec_float)
    (ps : gmap string Ogre.GpuConstant) : gmap string Ogre.GpuConstant :=
  <["LensCenter" := Ogre.GpuReal lens]>
    (<["ChromAbParam" := Ogre.GpuVector4 (ChromaAbCorrection (GetHMDInfo cfg))]>
       (<["HmdWarpParam" :=
            Ogre.GpuVector4
              (Build_Vector4 (GetDistortionK cfg 0) (GetDistortionK cfg 1)
                             (GetDistortionK cfg 2) (GetDistortionK cfg 3))]>
          ps)).

(** The LensCenter constant of a warp material, and the positions of the
    two eye cameras. *)
Definition lens (s : Sim) (m : string) : option Ogre.GpuConstant :=
  Ogre.materials (ogre s) !! m ≫= fun ps => ps !! "LensCenter".


End Adapter.

Arguments Done {A} a.
Arguments Throw {A} msg.
Arguments Fault {A} p.

#[global] Existing Instance M_ret.
#[global] Existing Instance M_bind.

(** ** A concrete SDK, engine and base class

    Stand-ins on which the methods can be evaluated: a stereo
    configuration that stores what its getters return, a sensor fusion
    that stores its settings, its current predicted orientation and the
    number of resets, and a base class whose [Init] creates the inherited
    camera on a scene node of its own. *)

Module Sample.
Record Config := {
  cfg_info : Vector4;
  cfg_K : Vector4;
  cfg_offset : spec_float;
  cfg_ipd : spec_float;
  cfg_eyeToScreen : spec_float;
  cfg_aspect : spec_float;
  cfg_yfov : spec_float
}.

Record Fusion := {
  fu_sensor : option unit;
  fu_prediction : bool;
  fu_orientation : Quatf;
  fu_resets : nat
}.

#[export] Instance sdk : OVR := {|
  HMDInfo := Vector4;
  StereoConfig := Config;
  SensorDevice := unit;
  SensorFusion := Fusion;
  ChromaAbCorrection := fun h => h;
  SetHMDInfo := fun h c =>
    Build_Config h (cfg_K c) (cfg_offset c) (cfg_ipd c) (cfg_eyeToScreen c)
                 (cfg_aspect c) (cfg_yfov c);
  GetHMDInfo := cfg_info;
  GetDistortionK := fun c i =>
    if i =? 0 then v4x (cfg_K c) else if i =? 1 then v4y (cfg_K c)
    else if i =? 2 then v4z (cfg_K c) else v4w (cfg_K c);
  GetProjectionCenterOffset := cfg_offset;
  GetIPD := cfg_ipd;
  GetEyeToScreenDistance := cfg_eyeToScreen;
  GetAspect := cfg_aspect;
  GetYFOVRadians := cfg_yfov;
  AttachToSensor := fun s f =>
    Build_Fusion s (fu_prediction f) (fu_orientation f) (fu_resets f);
  SetPredictionEnabled := fun b f =>
    Build_Fusion (fu_sensor f) b (fu_orientation f) (fu_resets f);
  GetPredictedOrientation := fu_orientation;
  Reset := fun f =>
    Build_Fusion (fu_sensor f) (fu_prediction f) (fu_orientation f)
                 (S (fu_resets f))
|}.

#[export] Instance frustum : Frustum := {|
  perspective := fun fovy aspect near far =>
    {| row0 := Build_Vector4 aspect F32.zero F32.zero F32.zero;
       row1 := Build_Vector4 F32.zero fovy F32.zero F32.zero;
       row2 := Build_Vector4 F32.zero F32.zero far near;
       row3 := Build_Vector4 F32.zero F32.zero (SFopp F32.one) F32.zero |}
|}.

Definition origin : Vector3 := Build_Vector3 F32.zero F32.zero F32.zero.
Definition identity : Quaternion :=
  Build_Quaternion F64.one F32.zero F32.zero F32.zero.

#[export] Instance camera_base : CameraBase := {|
  Camera_Camera := fun n =>
    {| name := n; camera := None; sceneNode := None; viewport := None;
       renderRate := F32.zero; hfov := F32.zero;
       clipNear := F32.zero; clipFar := F32.zero;
       worldPosition := origin; worldRotation := identity |};
  Camera_Init := fun '(o, b) =>
    (Ogre.with_sceneCameras ({[name b]} ∪ Ogre.sceneCameras o) o,
     with_sceneNode (Some (Ogre.Build_SceneNode [name b]))
       (with_camera (Some (Ogre.newCamera (name b))) b));
  Camera_Update := fun b => b
|}.

(** The stereo configuration of the first development kit: 64 mm between
    the eyes, a projection centre offset of 0.151976. *)
Definition config : Config :=
  {| cfg_info := Build_Vector4 (F32.dec 996 1000) (SFopp (F32.dec 4 1000))
                               (F32.dec 1014 1000) F32.zero;
     cfg_K := Build_Vector4 F32.one (F32.dec 22 100) (F32.dec 24 100) F32.zero;
     cfg_offset := F32.dec 151976 1000000;
     cfg_ipd := F32.dec 64 1000;
     cfg_eyeToScreen := F32.dec 41 1000;
     cfg_aspect := F32.dec 8 10;
     cfg_yfov := F32.dec 19 10 |}.

Definition fusion (q : Quatf) : Fusion :=
  {| fu_sensor := None; fu_prediction := false; fu_orientation := q;
     fu_resets := 0 |}.

Definition q0 : Quatf :=
  {| ovr_x := F32.dec 1 10; ovr_y := F32.dec 2 10;
     ovr_z := F32.dec 3 10; ovr_w := F32.dec 9 10 |}.

(** A head-mounted display with its sensor is plugged in. *)
Definition env : OVREnv :=
  {| DeviceManager_Create :=
       Some {| EnumerateDevices_HMDDevice :=
                 Some {| GetDeviceInfo := cfg_info config;
                         GetSensor := Some tt |};
               EnumerateDevices_SensorDevice := Some tt |};
     new_StereoConfig := Some config;
     new_SensorFusion := Some (fusion q0) |}.

(** An engine with the two compositors and the warp material loaded. *)
Definition root : Ogre.Root :=
  {| Ogre.materials := {["Ogre/Compositor/Oculus" := ∅]};
     Ogre.compositorDefs :=
       {["OculusLeft" := Ogre.Build_Compositor "Ogre/Compositor/Oculus";
         "OculusRight" := Ogre.Build_Compositor "Ogre/Compositor/Oculus"]};
     Ogre.sceneCameras := ∅;
     Ogre.renderPathType := Ogre.FORWARD |}.

(** The adapter after the constructor, [Init()] and the part of
    [SetRenderTarget] that creates the two viewports. *)
Definition with_viewports (s : Sim) : Sim :=
  let c := self s in
  let b := base c in
  Build_Sim (ogre s)
    (Build_OculusCamera
       (Build_Camera (name b) (camera b) (sceneNode b)
          (Some (Ogre.Build_Viewport (name b))) (renderRate b) (hfov b)
          (clipNear b) (clipFar b) (worldPosition b) (worldRotation b))
       (deviceManager c) (stereoConfig c) (centerOffset c) (hmd c) (sensor c)
       (sensorFusion c) (rightCamera c)
       (Some (Ogre.Build_Viewport "UserRight"))
       (compositors c) (controlSub c) (trace c)).

Definition constructed : OculusCamera :=
  match OculusCamera_OculusCamera "user" env with
  | Done c => c
  | _ => fresh "user"
  end.

Definition initialised : Sim :=
  with_viewports (snd (Init (Build_Sim root constructed))).

(** The same, with another stereo configuration, or none. *)
Definition staged (sc : option Config) : Sim :=
  with_viewports (snd (Init (Build_Sim root (with_stereoConfig sc constructed)))).

Definition set_offset (x : spec_float) (c : Config) : Config :=
  Build_Config (cfg_info c) (cfg_K c) x (cfg_ipd c) (cfg_eyeToScreen c)
               (cfg_aspect c) (cfg_yfov c).

(** The sensor fusion of the constructed adapter. *)
Definition sample_fusion : Fusion :=
  SetPredictionEnabled true (AttachToSensor (Some tt) (fusion q0)).

(** The message [reset { all: true }]. *)
Definition reset_all_message : WorldControl :=
  {| wc_pause := None; wc_step := None; wc_multi_step := None;
     wc_reset := Some {| wr_all := Some true; wr_time_only := None;
                         wr_model_only := None |};
     wc_seed := None |}.

(** The constructed adapter, moved to (1, 2, 3). *)
Definition moved : OculusCamera :=
  let b := base constructed in
  with_base
    (Build_Camera (name b) (camera b) (sceneNode b) (viewport b) (renderRate b)
       (hfov b) (clipNear b) (clipFar b)
       (Build_Vector3 (F64.of_int 1) (F64.of_int 2) (F64.of_int 3))
       (worldRotation b))
    constructed.
End Sample.

(** ** Beyond one call: sequences of messages, and what a life keeps *)

Section Delivery.
Context `{sdk : OVR} `{fr : Frustum} `{cb : CameraBase}.

(** The test of [OnControl], as the code writes it. *)
Definition resets (d : WorldControl) : bool :=
  has_reset d && has_all (reset d) && all (reset d).

(** The transport layer hands the messages of the topic to [OnControl]
    one after the other. *)
Fixpoint deliver (ds : list WorldControl) : M OculusCamera unit :=
  match ds with
  | [] => mret tt
  | d :: ds' => OnControl d ;; deliver ds'
  end.

(** The device handles and the cached offset are as they were, and the
    record of events has only grown. *)
Definition devices_kept (c c' : OculusCamera) : Prop :=
  deviceManager c' = deviceManager c /\ hmd c' = hmd c
  /\ sensor c' = sensor c /\ centerOffset c' = centerOffset c
  /\ exists evs, trace c' = trace c ++ evs.


(** The events of a construction that completes, by what the SDK hands
    out: a head-mounted display or not, a sensor fusion or not. *)
Definition construction (with_hmd with_fusion : bool)
  : list Event :=
  [call_Camera_SetRenderRate (F64.of_int 30); OVR_System_Init;
   call_DeviceManager_Create;
   gzlog ("Oculus: Created Device Manager" +:+ nl);
   call_new_StereoConfig;
   gzlog ("Oculus: Created StereoConfig" +:+ nl);
   call_GetProjectionCenterOffset; call_EnumerateDevices_HMDDevice]
  ++ (if with_hmd
      then [call_GetDeviceInfo; call_SetHMDInfo; call_GetSensor]
      else [gzlog ("Oculus: Failed to create HMD. Creating sensor manually."
                   +:+ nl);
            call_EnumerateDevices_SensorDevice])
  ++ [gzlog ("Oculus: Created sensor" +:+ nl); call_new_SensorFusion]
  ++ (if with_fusion
      then [gzlog ("Oculus: Created SensorFusion" +:+ nl);
            call_AttachToSensor; call_SetPredictionEnabled true;
            gzlog ("Oculus: Oculus setup completed successfully" +:+ nl);
            call_Subscribe "~/world_control"]
      else [gzlog ("Oculus: Failed to create SensorFusion" +:+ nl)]).

End Delivery.

(** ** The rest of the class: window, visuals and camera animation *)

(** [<cmath>] and [<algorithm>] on [double]: [fabs], [sqrt] (correctly
    rounded) and [std::max], which returns its second argument when the
    first is less. *)
Module Cmath.
Definition fabs (x : spec_float) : spec_float := SFabs x.
Definition sqrt (x : spec_float) : spec_float := SFsqrt F64.prec F64.emax x.
Definition max (a b : spec_float) : spec_float := if SFltb a b then b else a.
End Cmath.

(** [math::Pose] and [math::Box]; a [rendering::Visual], by what this
    file asks of it. *)
Record Pose := { pose_pos : Vector3; pose_rot : Quaternion }.
Record Box := { box_min : Vector3; box_max : Vector3 }.
Record Visual := { vis_WorldPose : Pose; vis_BoundingBox : Box }.

(** [Ogre::RenderTarget] and its viewports. *)
Module Render.
(** An [Ogre::Viewport]: the camera it shows, its place in the target as
    fractions of the target's size, and the attributes this class sets. *)
Record ViewportState := {
  vs_camera : string;
  vs_left : spec_float;
  vs_top : spec_float;
  vs_width : spec_float;
  vs_height : spec_float;
  vs_backgroundColour : Vector4;
  vs_visibilityMask : Z;
  (** registered with the run-time shader system *)
  vs_shaders : bool
}.

(** A viewport as the engine creates it: black background, every
    visibility flag set. *)
Definition newViewport (cam : string) (l t w h : spec_float) : ViewportState :=
  {| vs_camera := cam; vs_left := l; vs_top := t; vs_width := w;
     vs_height := h;
     vs_backgroundColour := Build_Vector4 F32.zero F32.zero F32.zero F32.one;
     vs_visibilityMask := 4294967295;
     vs_shaders := false |}.

Definition setDimensions (l t w h : spec_float) (v : ViewportState) :=
  Build_ViewportState (vs_camera v) l t w h (vs_backgroundColour v)
    (vs_visibilityMask v) (vs_shaders v).
Definition setBackgroundColour (c : Vector4) (v : ViewportState) :=
  Build_ViewportState (vs_camera v) (vs_left v) (vs_top v) (vs_width v)
    (vs_height v) c (vs_visibilityMask v) (vs_shaders v).
Definition setVisibilityMask (m : Z) (v : ViewportState) :=
  Build_ViewportState (vs_camera v) (vs_left v) (vs_top v) (vs_width v)
    (vs_height v) (vs_backgroundColour v) m (vs_shaders v).
(** [RTShaderSystem::AttachViewport] *)
Definition AttachViewport (v : ViewportState) :=
  Build_ViewportState (vs_camera v) (vs_left v) (vs_top v) (vs_width v)
    (vs_height v) (vs_backgroundColour v) (vs_visibilityMask v) true.

(** The viewports of a target, by Z-order. *)
Record Target := { viewports : gmap Z ViewportState }.

(** The viewport a handle points to: handles name the camera shown. *)
Definition shows (h : Ogre.Viewport) (v : ViewportState) : bool :=
  bool_decide (vs_camera v = Ogre.vp_camera h).

(** [h->f(...)] for a viewport handle [h] of the target. *)
Definition on_viewport (h : Ogre.Viewport)
    (f : ViewportState -> ViewportState) (t : Target) : Target :=
  {| viewports := (fun v => if shows h v then f v else v) <$> viewports t |}.

(** [RenderTarget::addViewport(cam, ZOrder, left, top, width, height)]:
    the engine refuses a Z-order twice.  A null camera is accepted; the
    handle of such a viewport carries the empty name. *)
Definition addViewport (cam : option Ogre.Camera) (ZOrder : Z)
    (l t w h : spec_float) : M Target Ogre.Viewport :=
  tg ← get ;
  if bool_decide (is_Some (viewports tg !! ZOrder))
  then gzthrow "Can't create another viewport with this Z-order"
  else
    let n := default "" (Ogre.cam_name <$> cam) in
    modify (fun tg => {| viewports := <[ZOrder := newViewport n l t w h]>
                                        (viewports tg) |}) ;;
    mret (Ogre.Build_Viewport n).
End Render.

(** The animations of the scene manager. *)
Module Anim.
Inductive InterpolationMode := IM_LINEAR | IM_SPLINE.

(** [Ogre::TransformKeyFrame]; a new one translates by zero and rotates
    by the identity. *)
Record KeyFrame := {
  kf_time : spec_float;
  kf_translate : Vector3;
  kf_rotation : Quaternion
}.
Definition newKeyFrame (t : spec_float) : KeyFrame :=
  {| kf_time := t;
     kf_translate := Build_Vector3 F32.zero F32.zero F32.zero;
     kf_rotation := Build_Quaternion F32.one F32.zero F32.zero F32.zero |}.
Definition setTranslate (v : Vector3) (k : KeyFrame) : KeyFrame :=
  Build_KeyFrame (kf_time k) v (kf_rotation k).
Definition setRotation (q : Quaternion) (k : KeyFrame) : KeyFrame :=
  Build_KeyFrame (kf_time k) (kf_translate k) q.

(** [Ogre::NodeAnimationTrack]: the node it moves and its key frames, in
    the order of their creation. *)
Record NodeTrack := {
  nt_node : option Ogre.SceneNode;
  nt_keys : list KeyFrame
}.

Record Animation := {
  an_length : spec_float;
  an_mode : InterpolationMode;
  an_tracks : gmap Z NodeTrack
}.

Definition setInterpolationMode (m : InterpolationMode) (a : Animation) :=
  Build_Animation (an_length a) m (an_tracks a).
(** [anim->createNodeTrack(handle, node)], for a handle that is free. *)
Definition createNodeTrack (handle : Z) (node : option Ogre.SceneNode)
    (a : Animation) :=
  Build_Animation (an_length a) (an_mode a)
    (<[handle := Build_NodeTrack node []]> (an_tracks a)).
(** [key = track->createNodeKeyFrame(t)] for the track [handle], and
    [key->f(...)] on that key frame, the last one of the track. *)
Definition createNodeKeyFrame (handle : Z) (t : spec_float) (a : Animation) :=
  Build_Animation (an_length a) (an_mode a)
    (alter (fun tr => Build_NodeTrack (nt_node tr)
                        (nt_keys tr ++ [newKeyFrame t]))
           handle (an_tracks a)).
Fixpoint on_last {A} (f : A -> A) (l : list A) : list A :=
  match l with
  | [] => []
  | [x] => [f x]
  | x :: l' => x :: on_last f l'
  end.
Definition on_key (handle : Z) (f : KeyFrame -> KeyFrame) (a : Animation) :=
  Build_Animation (an_length a) (an_mode a)
    (alter (fun tr => Build_NodeTrack (nt_node tr) (on_last f (nt_keys tr)))
           handle (an_tracks a)).

(** [Ogre::AnimationState]; a new one is disabled, loops and is at
    time 0. *)
Record State := {
  st_timePosition : spec_float;
  st_length : spec_float;
  st_enabled : bool;
  st_loop : bool
}.
Definition setTimePosition (t : spec_float) (s : State) :=
  Build_State t (st_length s) (st_enabled s) (st_loop s).
Definition setEnabled (b : bool) (s : State) :=
  Build_State (st_timePosition s) (st_length s) b (st_loop s).
Definition setLoop (b : bool) (s : State) :=
  Build_State (st_timePosition s) (st_length s) (st_enabled s) b.
End Anim.

(** The gazebo math library, the trigonometry of [<cmath>] and the
    orientation of a scene node, as far as this file calls them. *)
Class MathLib := {
  (** [math::Vector3]: [Correct], [Normalize], [Distance] and the
      operators [+], [-] and [* double] *)
  Vector3_Correct : Vector3 -> Vector3;
  Vector3_Normalize : Vector3 -> Vector3;
  Vector3_Distance : Vector3 -> Vector3 -> spec_float;
  Vector3_plus : Vector3 -> Vector3 -> Vector3;
  Vector3_minus : Vector3 -> Vector3 -> Vector3;
  Vector3_times : Vector3 -> spec_float -> Vector3;
  Box_GetSize : Box -> Vector3;
  Box_GetCenter : Box -> Vector3;
  Quaternion_GetAsEuler : Quaternion -> Vector3;
  acos : spec_float -> spec_float;
  tan : spec_float -> spec_float;
  atan2 : spec_float -> spec_float -> spec_float;
  (** [Ogre::Quaternion(Ogre::Radian(a), axis)] *)
  Quaternion_angle_axis : spec_float -> Vector3 -> Quaternion;
  (** [sceneNode->getOrientation()] *)
  getOrientation : Ogre.SceneNode -> Quaternion
}.

(** More of the base class, of [Conversions] and of the constants of
    other headers. *)
Class CameraViews := {
  (** [Camera::SetRenderTarget(_target)] for a target that is not null:
      the target and the base class after it *)
  Camera_SetRenderTarget : Render.Target -> Camera -> Render.Target * Camera;
  Camera_AttachToVisualImpl : option Visual -> bool -> Camera -> bool * Camera;
  Camera_TrackVisualImpl : option Visual -> Camera -> bool * Camera;
  Camera_RotateYaw : spec_float -> Camera -> Camera;
  Camera_RotatePitch : spec_float -> Camera -> Camera;
  Camera_GetWorldPose : Camera -> Pose;
  (** [GetHFOV()], in radians *)
  Camera_GetHFOV : Camera -> spec_float;
  Conversions_Convert : Vector4 -> Vector4;
  GZ_VISIBILITY_ALL : Z;
  OrbitViewController_GetTypeString : string;
  FPSViewController_GetTypeString : string;
  (** [common::MouseEvent] *)
  MouseEvent : Type
}.

Section Rest.
Context `{sdk : OVR} `{fr : Frustum} `{cb : CameraBase}.
Context `{ml : MathLib} `{cv : CameraViews}.

Definition with_rightViewport (v : option Ogre.Viewport) (c : OculusCamera) :=
  Build_OculusCamera (base c) (deviceManager c) (stereoConfig c) (centerOffset c)
    (hmd c) (sensor c) (sensorFusion c) (rightCamera c) v
    (compositors c) (controlSub c) (trace c).

(** The adapter and the engine, with the members the base class keeps
    for the window ([renderTarget], the target it points to once
    [SetRenderTarget] has set it, [saveFrameBuffer], [initialized]), the
    scene (background colour, visuals, animations and their states) and
    the members of the camera animation. *)
Record World := {
  sim : Sim;
  renderTarget : Render.Target;
  saveFrameBuffer : option (list Z);
  initialized : bool;
  backgroundColor : Vector4;
  visuals : gmap string Visual;
  animations : gmap string Anim.Animation;
  animationStates : gmap string Anim.State;
  animState : option string;
  prevAnimTime : Z
}.

Definition with_sim (s : Sim) (w : World) : World :=
  Build_World s (renderTarget w) (saveFrameBuffer w) (initialized w)
    (backgroundColor w) (visuals w) (animations w) (animationStates w)
    (animState w) (prevAnimTime w).
Definition with_renderTarget (t : Render.Target) (w : World) : World :=
  Build_World (sim w) t (saveFrameBuffer w) (initialized w)
    (backgroundColor w) (visuals w) (animations w) (animationStates w)
    (animState w) (prevAnimTime w).
Definition with_saveFrameBuffer (b : option (list Z)) (w : World) : World :=
  Build_World (sim w) (renderTarget w) b (initialized w)
    (backgroundColor w) (visuals w) (animations w) (animationStates w)
    (animState w) (prevAnimTime w).
Definition with_initialized (b : bool) (w : World) : World :=
  Build_World (sim w) (renderTarget w) (saveFrameBuffer w) b
    (backgroundColor w) (visuals w) (animations w) (animationStates w)
    (animState w) (prevAnimTime w).
Definition with_animations (a : gmap string Anim.Animation) (w : World) :=
  Build_World (sim w) (renderTarget w) (saveFrameBuffer w) (initialized w)
    (backgroundColor w) (visuals w) a (animationStates w)
    (animState w) (prevAnimTime w).
Definition with_animationStates (a : gmap string Anim.State) (w : World) :=
  Build_World (sim w) (renderTarget w) (saveFrameBuffer w) (initialized w)
    (backgroundColor w) (visuals w) (animations w) a
    (animState w) (prevAnimTime w).
Definition with_animState (a : option string) (w : World) :=
  Build_World (sim w) (renderTarget w) (saveFrameBuffer w) (initialized w)
    (backgroundColor w) (visuals w) (animations w) (animationStates w)
    a (prevAnimTime w).
Definition with_prevAnimTime (t : Z) (w : World) :=
  Build_World (sim w) (renderTarget w) (saveFrameBuffer w) (initialized w)
    (backgroundColor w) (visuals w) (animations w) (animationStates w)
    (animState w) t.

(** The base class and the adapter inside a world. *)
Definition base_of (w : World) : Camera := base (self (sim w)).
Definition set_base (b : Camera) (w : World) : World :=
  with_sim (Build_Sim (ogre (sim w)) (with_base b (self (sim w)))) w.

Definition on_sim {A} (m : M Sim A) : M World A := fun w =>
  let (r, s) := m (sim w) in (r, with_sim s w).
Definition on_target {A} (m : M Render.Target A) : M World A := fun w =>
  let (r, t) := m (renderTarget w) in (r, with_renderTarget t w).

(** *** [OculusCamera::Resize]: the arguments are not used *)


(** *** [OculusCamera::SetRenderTarget], for a target that is not null *)

Definition SetRenderTarget (_target : Render.Target) : M World unit :=
  (* Camera::SetRenderTarget(_target) *)
  modify (fun w => let (t, b) := Camera_SetRenderTarget _target (base_of w) in
                   with_renderTarget t (set_base b w)) ;;
  rc ← read (fun w => rightCamera (self (sim w))) ;
  rv ← on_target (Render.addViewport rc 1 (F32.dec 5 10) (F32.of_int 0)
                    (F32.dec 5 10) (F32.dec 10 10)) ;
  on_sim (on_self (modify (with_rightViewport (Some rv)))) ;;
  bg ← read backgroundColor ;
  rv ← read (fun w => rightViewport (self (sim w))) ≫= deref p_rightViewport ;
  on_target (modify (Render.on_viewport rv
               (Render.setBackgroundColour (Conversions_Convert bg)))) ;;
  on_target (modify (Render.on_viewport rv Render.AttachViewport)) ;;
  v ← read (fun w => viewport (base_of w)) ≫= deref p_viewport ;
  on_target (modify (Render.on_viewport v
               (Render.setVisibilityMask GZ_VISIBILITY_ALL))) ;;
  rv ← read (fun w => rightViewport (self (sim w))) ≫= deref p_rightViewport ;
  on_target (modify (Render.on_viewport rv
               (Render.setVisibilityMask GZ_VISIBILITY_ALL))) ;;
  modify (with_initialized true) ;;
  on_sim Oculus.


(** The world in which [SetRenderTarget] calls [Oculus()], [v] being the
    viewport the base class has created. *)
Definition before_Oculus (_target : Render.Target) (w : World)
    (v : Ogre.Viewport) : World :=
  let tb := Camera_SetRenderTarget _target (base_of w) in
  let n := default "" (Ogre.cam_name <$> rightCamera (self (sim w))) in
  let rv := Ogre.Build_Viewport n in
  let t :=
    Render.on_viewport rv (Render.setVisibilityMask GZ_VISIBILITY_ALL)
      (Render.on_viewport v (Render.setVisibilityMask GZ_VISIBILITY_ALL)
         (Render.on_viewport rv Render.AttachViewport
            (Render.on_viewport rv
               (Render.setBackgroundColour
                  (Conversions_Convert (backgroundColor w)))
               {| Render.viewports :=
                    <[1 := Render.newViewport n (F32.dec 5 10) (F32.of_int 0)
                             (F32.dec 5 10) (F32.dec 10 10)]>
                      (Render.viewports (fst tb)) |}))) in
  with_initialized true
    (with_renderTarget t
       (with_sim (Build_Sim (ogre (sim w))
                    (with_rightViewport (Some rv)
                       (with_base (snd tb) (self (sim w))))) w)).

(** *** Following a visual *)

(** [SetViewController(_type)], [SetViewController(_type, _pos)]: empty
    bodies. *)
Definition SetViewController (_type : string) : M World unit := mret tt.
Definition SetViewController_pos (_type : string) (_pos : Vector3)
  : M World unit := mret tt.




(** [SceneManager::hasAnimation], [destroyAnimation] (which destroys the
    state of the animation with it), [createAnimation] and
    [createAnimationState]; the engine refuses to destroy what does not
    exist and to create what exists. *)
Definition hasAnimation (n : string) : M World bool :=
  read (fun w => bool_decide (is_Some (animations w !! n))).
Definition destroyAnimation (n : string) : M World unit :=
  modify (fun w => with_animationStates (delete n (animationStates w)) w) ;;
  has ← hasAnimation n ;
  if has : bool
  then modify (fun w => with_animations (delete n (animations w)) w)
  else gzthrow ("Cannot find animation with name " +:+ n).
Definition createAnimation (n : string) (length : spec_float) : M World unit :=
  has ← hasAnimation n ;
  if has : bool
  then gzthrow ("An animation with the name " +:+ n +:+ " already exists")
  else modify (fun w => with_animations
                 (<[n := Anim.Build_Animation length Anim.IM_LINEAR ∅]>
                    (animations w)) w).
Definition createAnimationState (n : string) : M World unit :=
  an ← read (fun w => animations w !! n) ;
  match an with
  | None => gzthrow ("Cannot find animation with name " +:+ n)
  | Some a =>
      st ← read (fun w => animationStates w !! n) ;
      match st with
      | Some _ => gzthrow ("State for animation named '" +:+ n +:+ "' already exists.")
      | None =>
          modify (fun w => with_animationStates
                    (<[n := Anim.Build_State F32.zero (Anim.an_length a) false true]>
                       (animationStates w)) w)
      end
  end.

(** [anim->f(...)] and [animState->f(...)] for the animation and the
    state just created. *)
Definition on_animation (n : string) (f : Anim.Animation -> Anim.Animation)
  : M World unit :=
  modify (fun w => with_animations (alter f n (animations w)) w).
Definition on_animState (f : Anim.State -> Anim.State) : M World unit :=
  modify (fun w => match animState w with
                   | Some n => with_animationStates
                                 (alter f n (animationStates w)) w
                   | None => w
                   end).

Definition to_Ogre (v : Vector3) : Vector3 :=
  Build_Vector3 (F32.of_double (vx v)) (F32.of_double (vy v))
                (F32.of_double (vz v)).

(** [MoveToVisual(VisualPtr)]; [wall] is what [common::Time::GetWallTime]
    returns at its end. *)
Definition MoveToVisual (_visual : option Visual) (wall : Z) : M World unit :=
  match _visual with
  | None => mret tt
  | Some v =>
      has ← hasAnimation "cameratrack" ;
      when has (destroyAnimation "cameratrack") ;;
      let box := vis_BoundingBox v in
      let size := Box_GetSize box in
      let maxSize := Cmath.max (Cmath.max (vx size) (vy size)) (vz size) in
      start ← read (fun w => pose_pos (Camera_GetWorldPose (base_of w))) ;
      let start := Vector3_Correct start in
      let end_ := Vector3_Correct
                    (Vector3_plus (Box_GetCenter box)
                                  (pose_pos (vis_WorldPose v))) in
      let dir := Vector3_Normalize
                   (Vector3_Correct (Vector3_minus end_ start)) in
      let dist := F64.sub (Vector3_Distance start end_) maxSize in
      let mid := Vector3_plus start
                   (Vector3_times dir (F64.mul dist (F64.dec 5 10))) in
      let mid := Build_Vector3 (vx mid) (vy mid)
                   (F64.add (F64.add (vz (Box_GetCenter box))
                                     (vz (Box_GetSize box)))
                            (F64.of_int 2)) in
      let dir := Vector3_Correct (Vector3_minus end_ mid) in
      let dist := F64.sub (Vector3_Distance mid end_) maxSize in
      let yawAngle := atan2 (vy dir) (vx dir) in
      let pitchAngle :=
        atan2 (SFopp (vz dir))
              (Cmath.sqrt (F64.add (F64.mul (vx dir) (vx dir))
                                   (F64.mul (vy dir) (vy dir)))) in
      let yawFinal :=
        Quaternion_angle_axis (F32.of_double yawAngle)
          (Build_Vector3 (F32.of_int 0) (F32.of_int 0) (F32.of_int 1)) in
      let pitchFinal :=
        Quaternion_angle_axis (F32.of_double pitchAngle)
          (Build_Vector3 (F32.of_int 0) (F32.of_int 1) (F32.of_int 0)) in
      let dir := Vector3_Normalize dir in
      hfov ← read (fun w => Camera_GetHFOV (base_of w)) ;
      let scale := F64.div maxSize (tan (F64.div hfov (F64.of_int 2))) in
      let end_ := Vector3_plus mid (Vector3_times dir (F64.sub dist scale)) in
      let time := F64.dec 5 10 in
      createAnimation "cameratrack" (F32.of_double time) ;;
      on_animation "cameratrack"
        (Anim.setInterpolationMode Anim.IM_SPLINE) ;;
      node ← read (fun w => sceneNode (base_of w)) ;
      on_animation "cameratrack" (Anim.createNodeTrack 0 node) ;;
      on_animation "cameratrack" (Anim.createNodeTrack 1 node) ;;
      (* strack, at 0 *)
      on_animation "cameratrack" (Anim.createNodeKeyFrame 0 (F32.of_int 0)) ;;
      on_animation "cameratrack"
        (Anim.on_key 0 (Anim.setTranslate (to_Ogre start))) ;;
      n ← read (fun w => sceneNode (base_of w)) ≫= deref p_sceneNode ;
      on_animation "cameratrack"
        (Anim.on_key 0 (Anim.setRotation (getOrientation n))) ;;
      (* ptrack, at 0 *)
      on_animation "cameratrack" (Anim.createNodeKeyFrame 1 (F32.of_int 0)) ;;
      n ← read (fun w => sceneNode (base_of w)) ≫= deref p_sceneNode ;
      on_animation "cameratrack"
        (Anim.on_key 1 (Anim.setRotation (getOrientation n))) ;;
      (* strack, at time *)
      on_animation "cameratrack"
        (Anim.createNodeKeyFrame 0 (F32.of_double time)) ;;
      on_animation "cameratrack"
        (Anim.on_key 0 (Anim.setTranslate (to_Ogre end_))) ;;
      on_animation "cameratrack" (Anim.on_key 0 (Anim.setRotation yawFinal)) ;;
      (* ptrack, at time *)
      on_animation "cameratrack"
        (Anim.createNodeKeyFrame 1 (F32.of_double time)) ;;
      on_animation "cameratrack" (Anim.on_key 1 (Anim.setRotation pitchFinal)) ;;
      createAnimationState "cameratrack" ;;
      modify (with_animState (Some "cameratrack")) ;;
      on_animState (Anim.setTimePosition (F32.of_int 0)) ;;
      on_animState (Anim.setEnabled true) ;;
      on_animState (Anim.setLoop false) ;;
      modify (with_prevAnimTime wall)
  end.

(** [MoveToVisual(const std::string &)] *)
Definition MoveToVisual_name (_name : string) (wall : Z) : M World unit :=
  visualPtr ← read (fun w => visuals w !! _name) ;
  match visualPtr with
  | Some _ => MoveToVisual visualPtr wall
  | None => on_sim (on_self (emit (gzerr ("MoveTo Unknown visual[" +:+ _name
                                           +:+ "]" +:+ nl))))
  end.

(** *** The members with an empty body, and the queries that answer
    nothing *)

Definition HandleMouseEvent (_evt : MouseEvent) : M World unit := mret tt.
Definition HandleKeyPressEvent (_key : string) : M World unit := mret tt.
Definition HandleKeyReleaseEvent (_key : string) : M World unit := mret tt.
Definition SetViewportDimensions (_x _y _w _h : spec_float) : M World unit :=
  mret tt.
Definition ToggleShowVisual : M World unit := mret tt.
Definition ShowVisual (_s : bool) : M World unit := mret tt.
Definition EnableViewController (_value : bool) : M World unit := mret tt.
Definition SetFocalPoint (_pt : Vector3) : M World unit := mret tt.
Definition GetVisual (_mousePos : Z * Z) : M World (option Visual) := mret None.

(** What a user interface sends to the camera. *)
Inductive Input :=
| mouse (_evt : MouseEvent)
| key_press (_key : string)
| key_release (_key : string)
| view_controller (_type : string)
| view_controller_at (_type : string) (_pos : Vector3)
| enable_view_controller (_value : bool)
| focal_point (_pt : Vector3)
| viewport_dimensions (_x _y _w _h : spec_float)
| toggle_show_visual
| show_visual (_s : bool)
| pick (_mousePos : Z * Z).

Definition handle (i : Input) : M World unit :=
  match i with
  | mouse e => HandleMouseEvent e
  | key_press k => HandleKeyPressEvent k
  | key_release k => HandleKeyReleaseEvent k
  | view_controller t => SetViewController t
  | view_controller_at t p => SetViewController_pos t p
  | enable_view_controller b => EnableViewController b
  | focal_point p => SetFocalPoint p
  | viewport_dimensions x y w h => SetViewportDimensions x y w h
  | toggle_show_visual => ToggleShowVisual
  | show_visual b => ShowVisual b
  | pick p => _ ← GetVisual p ; mret tt
  end.

(** The part of the target a viewport covers: from [x0] to [x1] of its
    width, and all of its height. *)
Definition covers (v : Render.ViewportState) (x0 x1 : Q) : Prop :=
  (SF2Q (Render.vs_left v) == x0
   /\ SF2Q (Render.vs_left v) + SF2Q (Render.vs_width v) == x1
   /\ SF2Q (Render.vs_top v) == 0
   /\ SF2Q (Render.vs_height v) == 1)%Q.

(** The two placements of [Resize]. *)
Definition left_half : Render.ViewportState -> Render.ViewportState :=
  Render.setDimensions (F32.of_int 0) (F32.of_int 0)
    (F32.of_double (F64.dec 5 10)) (F32.of_int 1).
Definition right_half : Render.ViewportState -> Render.ViewportState :=
  Render.setDimensions (F32.of_double (F64.dec 5 10)) (F32.of_int 0)
    (F32.of_double (F64.dec 5 10)) (F32.of_int 1).


End Rest.

(** ** A concrete window, scene and math library

    Stand-ins, like those of [Sample], on which the rest of the class can
    be evaluated: names are given to their parts only; vectors add
    componentwise, the boxes are measured from corner to corner, the
    trigonometric functions are replaced by the identity, and the base
    class shows the inherited camera in a viewport at Z-order 0 and
    answers [false] to every request. *)

Module Stage.
#[local] Existing Instance Sample.sdk.
#[local] Existing Instance Sample.frustum.
#[local] Existing Instance Sample.camera_base.

Definition plus (p q : Vector3) : Vector3 :=
  Build_Vector3 (F64.add (vx p) (vx q)) (F64.add (vy p) (vy q))
                (F64.add (vz p) (vz q)).
Definition minus (p q : Vector3) : Vector3 :=
  Build_Vector3 (F64.sub (vx p) (vx q)) (F64.sub (vy p) (vy q))
                (F64.sub (vz p) (vz q)).

#[export] Instance math : MathLib := {|
  Vector3_Correct := fun v => v;
  Vector3_Normalize := fun v => v;
  Vector3_Distance := fun p q => Cmath.fabs (F64.sub (vz p) (vz q));
  Vector3_plus := plus;
  Vector3_minus := minus;
  Vector3_times := fun p k =>
    Build_Vector3 (F64.mul (vx p) k) (F64.mul (vy p) k) (F64.mul (vz p) k);
  Box_GetSize := fun b => minus (box_max b) (box_min b);
  Box_GetCenter := fun b => box_min b;
  Quaternion_GetAsEuler := fun q =>
    Build_Vector3 (quat_x q) (quat_y q) (quat_z q);
  acos := fun x => x;
  tan := fun x => x;
  atan2 := fun y x => y;
  Quaternion_angle_axis := fun a axis =>
    Build_Quaternion a (vx axis) (vy axis) (vz axis);
  getOrientation := fun _ => Sample.identity
|}.

Definition turn (q : Quaternion) (b : Camera) : Camera :=
  Build_Camera (name b) (camera b) (sceneNode b) (viewport b) (renderRate b)
    (hfov b) (clipNear b) (clipFar b) (worldPosition b) q.

#[export] Instance camera_views : CameraViews := {|
  Camera_SetRenderTarget := fun t b =>
    ({| Render.viewports :=
          <[0 := Render.newViewport (name b) F32.zero F32.zero F32.one F32.one]>
            (Render.viewports t) |},
     Build_Camera (name b) (camera b) (sceneNode b)
       (Some (Ogre.Build_Viewport (name b))) (renderRate b) (hfov b)
       (clipNear b) (clipFar b) (worldPosition b) (worldRotation b));
  Camera_AttachToVisualImpl := fun _ _ b => (false, b);
  Camera_TrackVisualImpl := fun _ b => (false, b);
  Camera_RotateYaw := fun a b =>
    turn (Build_Quaternion (quat_w (worldRotation b)) (quat_x (worldRotation b))
                           (quat_y (worldRotation b)) a) b;
  Camera_RotatePitch := fun a b =>
    turn (Build_Quaternion (quat_w (worldRotation b)) (quat_x (worldRotation b))
                           a (quat_z (worldRotation b))) b;
  Camera_GetWorldPose := fun b => Build_Pose (worldPosition b) (worldRotation b);
  Camera_GetHFOV := hfov;
  Conversions_Convert := fun c => c;
  GZ_VISIBILITY_ALL := 268435455;
  OrbitViewController_GetTypeString := "orbit";
  FPSViewController_GetTypeString := "fps";
  MouseEvent := Z * Z
|}.

(** A unit box standing at (4, 0, 0). *)
Definition box : Visual :=
  {| vis_WorldPose :=
       {| pose_pos := Build_Vector3 (F64.of_int 4) (F64.of_int 0) (F64.of_int 0);
          pose_rot := Sample.identity |};
     vis_BoundingBox :=
       {| box_min := Build_Vector3 (F64.of_int 0) (F64.of_int 0) (F64.of_int 0);
          box_max := Build_Vector3 (F64.of_int 1) (F64.of_int 1) (F64.of_int 1) |}
  |}.

Definition window : Render.Target := {| Render.viewports := ∅ |}.

(** A world around an adapter and an engine: an empty window, a grey
    scene with the box in it, no animation. *)
Definition world (s : Sim) : World :=
  {| sim := s; renderTarget := window;
     saveFrameBuffer := Some [0; 0; 0];
     initialized := false;
     backgroundColor := Build_Vector4 F32.half F32.half F32.half F32.one;
     visuals := {["box" := box]};
     animations := ∅; animationStates := ∅;
     animState := None; prevAnimTime := 0 |}.

(** After the constructor; after [Init()]; after [SetRenderTarget]. *)
Definition built : World := world (Build_Sim Sample.root Sample.constructed).
Definition ready : World :=
  world (snd (Init (Build_Sim Sample.root Sample.constructed))).
Definition shown : World := snd (SetRenderTarget window ready).

(** An engine without the warp material, and one without a compositor. *)
Definition bare : Ogre.Root := Ogre.with_materials ∅ Sample.root.
Definition without (n : string) (s : Sim) : Sim :=
  Build_Sim (Ogre.with_compositorDefs (delete n (Ogre.compositorDefs (ogre s)))
               (ogre s)) (self s).


(** A window whose Z-order 1 is taken. *)
Definition taken : Render.Target :=
  {| Render.viewports :=
       {[1 := Render.newViewport "other" F32.zero F32.zero F32.one F32.one]} |}.

(** What the SDK hands out with no device manager, no stereo
    configuration, no sensor, or no sensor fusion. *)
Definition manager : DeviceManager :=
  {| EnumerateDevices_HMDDevice :=
       Some {| GetDeviceInfo := Sample.cfg_info Sample.config;
               GetSensor := Some tt |};
     EnumerateDevices_SensorDevice := Some tt |}.
Definition no_manager : OVREnv :=
  {| DeviceManager_Create := None;
     new_StereoConfig := Some Sample.config;
     new_SensorFusion := Some (Sample.fusion Sample.q0) |}.
Definition no_config : OVREnv :=
  {| DeviceManager_Create := Some manager;
     new_StereoConfig := None;
     new_SensorFusion := Some (Sample.fusion Sample.q0) |}.
Definition no_sensor : OVREnv :=
  {| DeviceManager_Create :=
       Some {| EnumerateDevices_HMDDevice := None;
               EnumerateDevices_SensorDevice := None |};
     new_StereoConfig := Some Sample.config;
     new_SensorFusion := Some (Sample.fusion Sample.q0) |}.
Definition no_fusion : OVREnv :=
  {| DeviceManager_Create := Some manager;
     new_StereoConfig := Some Sample.config;
     new_SensorFusion := None |}.

(** A message that only pauses the world. *)
Definition pause_message : WorldControl :=
  {| wc_pause := Some true; wc_step := None; wc_multi_step := None;
     wc_reset := None; wc_seed := None |}.
End Stage.

(** * Facts

    ** IEEE-754 rounding *)

Module IEEE.

Section Format.
Variables prec emax : Z.

(** Facts about the shift loop of the rounding function. *)

Lemma iter_pos_nat {A} (f : A -> A) (p : positive) (x : A) :
  SpecFloat.iter_pos f p x = Nat.iter (Pos.to_nat p) f x.
Proof.
  revert x; induction p as [p IH | p IH | ]; intros x;
    cbn [SpecFloat.iter_pos].
  - rewrite !IH, Pos2Nat.inj_xI.
    replace (S (2 * Pos.to_nat p))%nat
      with (Pos.to_nat p + (Pos.to_nat p + 1))%nat by lia.
    rewrite !Nat.iter_add. reflexivity.
  - rewrite !IH, Pos2Nat.inj_xO.
    replace (2 * Pos.to_nat p)%nat
      with (Pos.to_nat p + Pos.to_nat p)%nat by lia.
    rewrite Nat.iter_add. reflexivity.
  - reflexivity.
Qed.

Lemma shr_1_shiftl (m : positive) (k : nat) :
  Nat.iter k shr_1 (Build_shr_record (Zpos (Pos.shiftl_nat m k)) false false)
  = Build_shr_record (Zpos m) false false.
Proof.
  induction k as [ | k IH]; [reflexivity | ].
  rewrite Nat.iter_succ_r. simpl. exact IH.
Qed.

Lemma digits2_shiftl (m : positive) (k : nat) :
  Zpos (digits2_pos (Pos.shiftl_nat m k)) = Zpos (digits2_pos m) + Z.of_nat k.
Proof.
  induction k as [ | k IH]; [simpl; lia | ].
  change (Pos.shiftl_nat m (S k)) with (xO (Pos.shiftl_nat m k)).
  cbn [digits2_pos]. rewrite Pos2Z.inj_succ, IH. lia.
Qed.

Lemma iter_xO_shiftl (m d : positive) :
  Pos.iter xO m d = Pos.shiftl_nat m (Pos.to_nat d).
Proof. rewrite Pos2Nat.inj_iter. reflexivity. Qed.

Lemma shr_exact (m : positive) (e : Z) (k : nat) :
  shr (Build_shr_record (Zpos (Pos.shiftl_nat m k)) false false)
      (e - Z.of_nat k) (Z.of_nat k)
  = (Build_shr_record (Zpos m) false false, e).
Proof.
  destruct k as [ | k].
  - simpl. f_equal. lia.
  - change (Z.of_nat (S k)) with (Zpos (Pos.of_succ_nat k)).
    unfold shr. rewrite iter_pos_nat, SuccNat2Pos.id_succ, shr_1_shiftl.
    f_equal. lia.
Qed.

(** Rounding a number that is a member of the format, given with [k]
    extra low-order zero bits, gives that member back. *)
Lemma binary_round_aux_exact (s : bool) (m : positive) (e : Z) (k : nat) :
  bounded prec emax m e = true ->
  binary_round_aux prec emax s (Zpos (Pos.shiftl_nat m k))
                   (e - Z.of_nat k) loc_Exact
  = S754_finite s m e.
Proof.
  intros Hb. unfold bounded, canonical_mantissa in Hb.
  apply andb_prop in Hb as [Hc He].
  apply Z.eqb_eq in Hc.
  unfold binary_round_aux, shr_fexp.
  cbn [Zdigits2 shr_record_of_loc]. rewrite digits2_shiftl.
  replace (Zpos (digits2_pos m) + Z.of_nat k + (e - Z.of_nat k))
    with (Zpos (digits2_pos m) + e) by lia.
  rewrite Hc.
  replace (e - (e - Z.of_nat k)) with (Z.of_nat k) by lia.
  rewrite shr_exact.
  cbn [shr_m loc_of_shr_record round_nearest_even Zdigits2 shr_record_of_loc].
  rewrite Hc, Z.sub_diag. cbn [shr shr_m].
  rewrite He. reflexivity.
Qed.






End Format.

End IEEE.


Section FloatFacts.

Lemma F32_bounded_inv (m : positive) (e : Z) :
  bounded F32.prec F32.emax m e = true ->
  -149 <= e <= 104 /\ 1 <= Zpos (digits2_pos m) <= 24
  /\ Z.max (Zpos (digits2_pos m) + e - 24) (-149) = e.
Proof.
  unfold bounded, canonical_mantissa, fexp, emin, F32.prec, F32.emax.
  intros H. apply andb_prop in H as [Hc He].
  apply Z.eqb_eq in Hc. apply Z.leb_le in He.
  pose proof (Pos2Z.is_pos (digits2_pos m)). lia.
Qed.







Lemma F64_of_float_finite (s : bool) (m : positive) (e : Z) :
  bounded F32.prec F32.emax m e = true ->
  F64.of_float (S754_finite s m e)
  = S754_finite s (Pos.shiftl_nat m (pad64 m)) (e - Z.of_nat (pad64 m))
  /\ bounded F64.prec F64.emax (Pos.shiftl_nat m (pad64 m))
             (e - Z.of_nat (pad64 m)) = true.
Proof.
  intros Hb. destruct (F32_bounded_inv _ _ Hb) as (He & Hd & Hc).
  assert (Hpad : Z.of_nat (pad64 m) = 53 - Zpos (digits2_pos m))
    by (unfold pad64; lia).
  assert (Hb64 : bounded F64.prec F64.emax (Pos.shiftl_nat m (pad64 m))
                   (e - Z.of_nat (pad64 m)) = true).
  { unfold bounded, canonical_mantissa, fexp, emin, F64.prec, F64.emax.
    rewrite IEEE.digits2_shiftl. apply andb_true_intro; split.
    - apply Z.eqb_eq. lia.
    - apply Z.leb_le. lia. }
  split; [ | exact Hb64].
  unfold F64.of_float, binary_round, shl_align.
  assert (Hf : fexp F64.prec F64.emax (Zpos (digits2_pos m) + e)
               = e - Z.of_nat (pad64 m))
    by (unfold fexp, emin, F64.prec, F64.emax; lia).
  rewrite Hf.
  destruct (e - Z.of_nat (pad64 m) - e) as [ | d | d] eqn:Hd'; try lia.
  rewrite IEEE.iter_xO_shiftl.
  replace (Pos.to_nat d) with (pad64 m) by lia.
  pose proof (IEEE.binary_round_aux_exact F64.prec F64.emax s _ _ 0 Hb64) as H.
  cbn [Pos.shiftl_nat nat_rect Z.of_nat] in H. rewrite Z.sub_0_r in H.
  exact H.
Qed.

Lemma F32_of_double_padded (s : bool) (m : positive) (e : Z) :
  bounded F32.prec F32.emax m e = true ->
  F32.of_double
    (S754_finite s (Pos.shiftl_nat m (pad64 m)) (e - Z.of_nat (pad64 m)))
  = S754_finite s m e.
Proof.
  intros Hb. destruct (F32_bounded_inv _ _ Hb) as (He & Hd & Hc).
  assert (Hpad : Z.of_nat (pad64 m) = 53 - Zpos (digits2_pos m))
    by (unfold pad64; lia).
  unfold F32.of_double, binary_round, shl_align.
  rewrite IEEE.digits2_shiftl.
  assert (Hf : fexp F32.prec F32.emax
                 (Zpos (digits2_pos m) + Z.of_nat (pad64 m)
                  + (e - Z.of_nat (pad64 m))) = e)
    by (unfold fexp, emin, F32.prec, F32.emax; lia).
  rewrite Hf.
  destruct (e - (e - Z.of_nat (pad64 m))) as [ | d | d] eqn:Hd'; try lia;
    apply IEEE.binary_round_aux_exact; exact Hb.
Qed.


Lemma F32_round_trip (x : spec_float) :
  F32.valid x -> F32.of_double (F64.of_float x) = x.
Proof.
  destruct x as [s | s | | s m e]; try reflexivity.
  intros Hv. destruct (F64_of_float_finite s m e Hv) as [-> _].
  apply F32_of_double_padded. exact Hv.
Qed.







Lemma SF2Q_opp (x : spec_float) : (SF2Q (SFopp x) == - SF2Q x)%Q.
Proof.
  destruct x as [s | s | | s m e]; cbn [SFopp SF2Q]; try reflexivity.
  destruct s; cbn [negb]; ring.
Qed.


(** Promotion to [double] keeps the value. *)
Lemma SF2Q_of_float (x : spec_float) :
  F32.valid x -> (SF2Q (F64.of_float x) == SF2Q x)%Q.
Proof.
  destruct x as [s | s | | s m e]; try reflexivity.
  intros Hv. destruct (F64_of_float_finite s m e Hv) as [-> _].
  cbn [SF2Q]. generalize (pad64 m) as k. intros k.
  induction k as [ | k IH].
  - cbn [Pos.shiftl_nat nat_rect Z.of_nat]. rewrite Z.sub_0_r. reflexivity.
  - change (Pos.shiftl_nat m (S k)) with (xO (Pos.shiftl_nat m k)).
    rewrite <- IH.
    replace (e - Z.of_nat (S k)) with (e - Z.of_nat k + -1) by lia.
    rewrite Qpower_plus by (intros H; discriminate H).
    change (Qpower 2 (-1)) with (/ 2)%Q.
    rewrite (Pos2Z.inj_xO (Pos.shiftl_nat m k)), inject_Z_mult.
    destruct s; field.
Qed.

End FloatFacts.


(** ** Running a method: weakest preconditions *)

Section Logic.
Context `{sdk : OVR} `{fr : Frustum} `{cb : CameraBase}.

Lemma wp_bind {S A B} (m : M S A) (k : A -> M S B) Q s :
  wp m (fun r s' => match r with
                    | Done a => wp (k a) Q s'
                    | Throw e => Q (Throw e) s'
                    | Fault p => Q (Fault p) s'
                    end) s ->
  wp (m ≫= k) Q s.
Proof.
  unfold wp, mbind, M_bind. destruct (m s) as [[a | e | p] s']; simpl; auto.
Qed.

Lemma wp_ret {S A} (a : A) Q (s : S) : Q (Done a) s -> wp (mret a) Q s.
Proof. exact (fun H => H). Qed.

Lemma wp_read {S A} (f : S -> A) Q (s : S) :
  Q (Done (f s)) s -> wp (read f) Q s.
Proof. exact (fun H => H). Qed.

Lemma wp_get {S} Q (s : S) : Q (Done s) s -> wp get Q s.
Proof. exact (fun H => H). Qed.

Lemma wp_modify {S} (f : S -> S) Q (s : S) :
  Q (Done tt) (f s) -> wp (modify f) Q s.
Proof. exact (fun H => H). Qed.

Lemma wp_throw {S A} msg (Q : Result A -> S -> Prop) (s : S) :
  Q (Throw msg) s -> wp (gzthrow msg) Q s.
Proof. exact (fun H => H). Qed.

Lemma wp_deref_Some {S A} p (a : A) Q (s : S) :
  Q (Done a) s -> wp (deref p (Some a)) Q s.
Proof. exact (fun H => H). Qed.

Lemma wp_deref_None {S A} p (Q : Result A -> S -> Prop) (s : S) :
  Q (Fault p) s -> wp (deref p None) Q s.
Proof. exact (fun H => H). Qed.

Lemma wp_on_self {A} (m : M OculusCamera A) Q (s : Sim) :
  wp m (fun r c => Q r (Build_Sim (ogre s) c)) (self s) -> wp (on_self m) Q s.
Proof. unfold wp, on_self. destruct (m (self s)); exact (fun H => H). Qed.

Lemma wp_on_ogre {A} (m : M Ogre.Root A) Q (s : Sim) :
  wp m (fun r o => Q r (Build_Sim o (self s))) (ogre s) -> wp (on_ogre m) Q s.
Proof. unfold wp, on_ogre. destruct (m (ogre s)); exact (fun H => H). Qed.

Lemma wp_run {S A} (m : M S A) Q (s : S) :
  wp m Q s -> Q (fst (m s)) (snd (m s)).
Proof. exact (fun H => H). Qed.

End Logic.

Ltac wp_simpl :=
  cbv beta iota zeta delta
      [self ogre base rightCamera rightViewport
       stereoConfig compositors trace sensorFusion sensor deviceManager hmd
       controlSub centerOffset
       with_base with_rightCamera with_compositors
       with_trace with_deviceManager with_stereoConfig with_centerOffset
       with_hmd with_sensor with_sensorFusion with_controlSub
       Ogre.materials Ogre.compositorDefs Ogre.sceneCameras Ogre.renderPathType
       Ogre.with_materials Ogre.with_compositorDefs Ogre.with_sceneCameras
       fst snd];
  cbn [is_null when for_each app fmap option_fmap option_map
       name camera sceneNode viewport with_camera with_sceneNode
       Camera_SetRenderRate Camera_SetHFOV Camera_SetClipDist
       Camera_SetWorldRotation
       DeviceManager_Create new_StereoConfig new_SensorFusion
       EnumerateDevices_HMDDevice EnumerateDevices_SensorDevice
       GetDeviceInfo GetSensor];
  change (0 =? 0) with true; change (1 =? 0) with false;
  change (0 * 2 - 1) with (-1); change (1 * 2 - 1) with 1;
  cbv beta iota.

(** Name the parts of a state so that projections compute. *)
Ltac open_base b :=
  let n := fresh "n" in let cam := fresh "cam" in let node := fresh "node" in
  let vp := fresh "vp" in let rate := fresh "rate" in let fov := fresh "fov" in
  let cn := fresh "cn" in let cf := fresh "cf" in let pos := fresh "pos" in
  let rot := fresh "rot" in
  destruct b as [n cam node vp rate fov cn cf pos rot].
Ltac open_camera c :=
  let b := fresh "b" in let dm := fresh "dm" in let sc := fresh "sc" in
  let off := fresh "off" in let h := fresh "h" in let sn := fresh "sn" in
  let sf := fresh "sf" in let rc := fresh "rc" in let rv := fresh "rv" in
  let cs := fresh "cs" in let sub := fresh "sub" in let tr := fresh "tr" in
  destruct c as [b dm sc off h sn sf rc rv cs sub tr]; open_base b.
Ltac open_root o :=
  let ms := fresh "ms" in let cds := fresh "cds" in let scs := fresh "scs" in
  let rp := fresh "rp" in
  destruct o as [ms cds scs rp].
Ltac open_sim s :=
  let o := fresh "o" in let c := fresh "c" in
  destruct s as [o c]; open_root o; open_camera c.

(** What [Camera::Init()] returns, part by part. *)
Ltac open_Camera_Init :=
  match goal with
  | H : Camera_Init ?x = _ |- context [Camera_Init ?x] => rewrite H; wp_simpl
  | |- context [Camera_Init ?x] =>
      let E := fresh "HInit" in
      let o := fresh "o" in let b := fresh "b" in
      destruct (Camera_Init x) as [o b] eqn:E; open_root o; open_base b;
      wp_simpl
  end.

(** One statement forward.  A null pointer, an absent table entry or an
    undecided test splits the run. *)
Ltac wp_step :=
  lazymatch goal with
  | |- wp (mbind _ _) _ _ => apply wp_bind
  | |- wp (mret (fmap _ ?o)) _ _ => destruct o eqn:?
  | |- wp (mret _) _ _ => apply wp_ret
  | |- wp (on_self _) _ _ => apply wp_on_self
  | |- wp (on_ogre _) _ _ => apply wp_on_ogre
  | |- wp (read _) _ _ => apply wp_read
  | |- wp get _ _ => apply wp_get
  | |- wp (modify _) _ _ => apply wp_modify
  | |- wp (emit _) _ _ => unfold emit
  | |- wp (gzthrow _) _ _ => apply wp_throw
  | |- wp (deref _ (Some _)) _ _ => apply wp_deref_Some
  | |- wp (deref _ None) _ _ => apply wp_deref_None
  | |- wp (deref _ ?o) _ _ => destruct o eqn:?
  | |- wp (via_camera _) _ _ => unfold via_camera
  | |- wp (via_rightCamera _) _ _ => unfold via_rightCamera
  | |- wp (via_sceneNode _) _ _ => unfold via_sceneNode
  | |- wp (via_base _ _) _ _ => unfold via_base
  | |- wp (SetClipDist _ _) _ _ => unfold SetClipDist
  | |- wp (getByName _) _ _ => unfold getByName
  | |- wp (clone _ _ _) _ _ => unfold clone
  | |- wp (createCamera _) _ _ => unfold createCamera
  | |- wp (setNamedConstant _ _ _) _ _ => unfold setNamedConstant
  | |- wp (addCompositor _ _ _) _ _ => unfold addCompositor
  | |- wp (Oculus_eye _) _ _ => unfold Oculus_eye
  | |- wp ResetSensor _ _ => unfold ResetSensor
  | |- wp (when (is_null ?o) _) _ _ => destruct o eqn:?
  | |- wp (if is_null ?o then _ else _) _ _ => destruct o eqn:?
  | |- wp (match ?x with _ => _ end) _ _ => destruct x eqn:?
  | |- wp (if ?b then _ else _) _ _ => destruct b eqn:?
  end; wp_simpl; try open_Camera_Init.

Ltac wp_run := repeat wp_step.

(** Lookups in a map built by [alter] and insertion. *)
Ltac map_lookup :=
  repeat first [ rewrite lookup_alter_eq | rewrite lookup_alter_ne by done
               | rewrite lookup_insert_eq | rewrite lookup_insert_ne by done ].

(** Facts at the end of a run that exclude one another. *)
Ltac clash :=
  repeat match goal with
         | H : is_Some _ |- _ => destruct H as [? H]
         | H : bool_decide _ = true |- _ => apply bool_decide_eq_true in H
         | H : bool_decide _ = false |- _ => apply bool_decide_eq_false in H
         | H : context [<[_:=_]> _ !! _] |- _ =>
             first [ rewrite lookup_insert_eq in H
                   | rewrite lookup_insert_ne in H by done ]
         end;
  try congruence.

(** Membership in an explicit trace. *)
Ltac not_in_trace :=
  let H := fresh in
  intros H;
  repeat (apply elem_of_cons in H as [H | H]; [discriminate H | ]);
  apply elem_of_nil in H; exact H.

Ltac in_trace :=
  repeat first [apply list_elem_of_here | apply list_elem_of_further].

(** ** The constructor, [Update] and [OnControl] *)

Section Methods.
Context `{sdk : OVR} `{fr : Frustum} `{cb : CameraBase}.

Lemma ResetSensor_run (c : OculusCamera) (sf : SensorFusion) :
  sensorFusion c = Some sf ->
  ResetSensor c
  = (Done tt, with_sensorFusion (Some (Reset sf))
                (with_trace (trace c ++ [call_Reset]) c)).
Proof. open_camera c. cbn [sensorFusion]. intros ->. reflexivity. Qed.

Lemma Update_run (c : OculusCamera) (sf : SensorFusion) :
  sensorFusion c = Some sf ->
  let quat := remap (GetPredictedOrientation sf) in
  Update c
  = (Done tt,
     with_base (Camera_SetWorldRotation quat (Camera_Update (base c)))
       (with_trace (trace c ++ [call_Camera_Update; call_GetPredictedOrientation;
                                call_Camera_SetWorldRotation quat]) c)).
Proof.
  open_camera c. cbn [sensorFusion]. intros ->. cbv zeta.
  unfold Update, via_base, emit, modify, read, deref, mbind, M_bind.
  cbn [trace with_trace with_base base sensorFusion]. 
  rewrite <- !app_assoc. reflexivity.
Qed.

(** The constructor is its body run on a fresh object. *)
Lemma ctor_wp n env (Q : Result OculusCamera -> Prop) :
  wp (OculusCamera_body env)
     (fun r c => Q match r with
                   | Done _ => Done c
                   | Throw m => Throw m
                   | Fault p => Fault p
                   end) (fresh n) ->
  Q (OculusCamera_OculusCamera n env).
Proof.
  unfold wp, OculusCamera_OculusCamera.
  destruct (OculusCamera_body env (fresh n)) as [[[] | m | p] c];
    exact (fun H => H).
Qed.

(** The outcome of the constructor, by what the SDK hands out. *)
Lemma ctor_cases n env :
  match DeviceManager_Create env, new_StereoConfig env with
  | None, _ =>
      OculusCamera_OculusCamera n env
      = Throw ("Oculus: Failed to create Device Manager" +:+ nl)
  | Some _, None =>
      OculusCamera_OculusCamera n env
      = Throw ("Oculus: Failed to create StereoConfig" +:+ nl)
  | Some dm, Some cfg =>
      match obtained_sensor dm with
      | None =>
          OculusCamera_OculusCamera n env
          = Throw ("Oculus: Failed to create sensor" +:+ nl)
      | Some s =>
          exists c, OculusCamera_OculusCamera n env = Done c
            /\ stereoConfig c
               = Some match EnumerateDevices_HMDDevice dm with
                      | Some h => SetHMDInfo (GetDeviceInfo h) cfg
                      | None => cfg
                      end
            /\ sensor c = Some s
            /\ sensorFusion c
               = (fun f => SetPredictionEnabled true (AttachToSensor (Some s) f))
                   <$> new_SensorFusion env
            /\ controlSub c
               = (fun _ => "~/world_control") <$> new_SensorFusion env
            /\ match EnumerateDevices_HMDDevice dm with
               | Some _ =>
                   before call_SetHMDInfo call_GetSensor (trace c)
                   /\ (call_EnumerateDevices_SensorDevice ∉ trace c)
               | None =>
                   (call_EnumerateDevices_SensorDevice ∈ trace c)
                   /\ (call_SetHMDInfo ∉ trace c)
                   /\ (call_GetSensor ∉ trace c)
               end
            /\ (is_Some (new_SensorFusion env)
                <-> (call_SetPredictionEnabled true ∈ trace c))
      end
  end.
Proof.
  apply ctor_wp. destruct env as [[[[[info hs] | ] es] | ] [cfg0 | ] sf0];
    unfold OculusCamera_body, fresh; wp_simpl; wp_run;
    cbn [obtained_sensor EnumerateDevices_HMDDevice
         EnumerateDevices_SensorDevice GetSensor GetDeviceInfo
         fmap option_fmap option_map];
    try reflexivity;
    (eexists; split; [reflexivity | ]); wp_simpl;
    repeat match goal with |- _ /\ _ => split end; try reflexivity;
    try not_in_trace; try in_trace;
    try (exists 9%nat, 10%nat; repeat split; lia);
    (split;
     [ intros [? ?]; first [discriminate | in_trace]
     | intros Hin; first [ by eexists | exfalso; revert Hin; not_in_trace ] ]).
Qed.

End Methods.

(** ** What stays fixed over the life of an adapter *)

Section Lifetime.
Context `{sdk : OVR} `{fr : Frustum} `{cb : CameraBase}.

Lemma kept_refl c : kept c c.
Proof. unfold kept; auto. Qed.

Lemma kept_trans c1 c2 c3 : kept c1 c2 -> kept c2 c3 -> kept c1 c3.
Proof.
  unfold kept. intros (-> & -> & H12) (-> & -> & H23). auto.
Qed.

Ltac kept_done :=
  unfold kept; wp_simpl; repeat split; try reflexivity;
  try (intros H; exact H); try (intros _; eexists; reflexivity).

Lemma Update_kept (c : OculusCamera) : wp Update (fun _ c' => kept c c') c.
Proof. open_camera c. unfold Update. wp_simpl. wp_run. all: kept_done. Qed.

Lemma ResetSensor_kept (c : OculusCamera) :
  wp ResetSensor (fun _ c' => kept c c') c.
Proof. open_camera c. unfold ResetSensor. wp_simpl. wp_run. all: kept_done. Qed.

Lemma OnControl_kept (d : WorldControl) (c : OculusCamera) :
  wp (OnControl d) (fun _ c' => kept c c') c.
Proof.
  unfold OnControl.
  destruct (has_reset d && has_all (reset d) && all (reset d)).
  - apply ResetSensor_kept.
  - apply kept_refl.
Qed.

Lemma Init_kept (s : Sim) : wp Init (fun _ s' => kept (self s) (self s')) s.
Proof. open_sim s. unfold Init. wp_simpl. wp_run. all: kept_done. Qed.

Lemma Oculus_kept (s : Sim) : wp Oculus (fun _ s' => kept (self s) (self s')) s.
Proof. open_sim s. unfold Oculus. wp_simpl. wp_run. all: kept_done. Qed.

Lemma later_kept (c c' : OculusCamera) : later c c' -> kept c c'.
Proof.
  induction 1 as [ | c' _ IH | c' d _ IH | c' _ IH | c' o _ IH | c' o _ IH
                 | c' sf sf' _ IH Hsf | c' b rv _ IH ].
  - apply kept_refl.
  - exact (kept_trans _ _ _ IH (Update_kept c')).
  - exact (kept_trans _ _ _ IH (OnControl_kept d c')).
  - exact (kept_trans _ _ _ IH (ResetSensor_kept c')).
  - exact (kept_trans _ _ _ IH (Init_kept (Build_Sim o c'))).
  - exact (kept_trans _ _ _ IH (Oculus_kept (Build_Sim o c'))).
  - apply (kept_trans _ _ _ IH). open_camera c'. kept_done.
  - apply (kept_trans _ _ _ IH). open_camera c'. kept_done.
Qed.

End Lifetime.

(** ** Construction *)

Section Construction.
Context `{sdk : OVR} `{fr : Frustum} `{cb : CameraBase}.

(** What a completed construction tells. *)
Lemma ctor_done_inv n env c :
  OculusCamera_OculusCamera n env = Done c ->
  exists dm cfg s,
    DeviceManager_Create env = Some dm /\ new_StereoConfig env = Some cfg
    /\ obtained_sensor dm = Some s
    /\ stereoConfig c
       = Some match EnumerateDevices_HMDDevice dm with
              | Some h => SetHMDInfo (GetDeviceInfo h) cfg
              | None => cfg
              end
    /\ sensor c = Some s
    /\ sensorFusion c
       = (fun f => SetPredictionEnabled true (AttachToSensor (Some s) f))
           <$> new_SensorFusion env
    /\ controlSub c = (fun _ => "~/world_control") <$> new_SensorFusion env
    /\ match EnumerateDevices_HMDDevice dm with
       | Some _ =>
           before call_SetHMDInfo call_GetSensor (trace c)
           /\ (call_EnumerateDevices_SensorDevice ∉ trace c)
       | None =>
           (call_EnumerateDevices_SensorDevice ∈ trace c)
           /\ (call_SetHMDInfo ∉ trace c) /\ (call_GetSensor ∉ trace c)
       end
    /\ (is_Some (new_SensorFusion env)
        <-> (call_SetPredictionEnabled true ∈ trace c)).
Proof.
  intros Hc. pose proof (ctor_cases n env) as H.
  destruct (DeviceManager_Create env) as [dm | ]; [ | congruence].
  destruct (new_StereoConfig env) as [cfg | ]; [ | congruence].
  destruct (obtained_sensor dm) as [s | ] eqn:Hs; [ | congruence].
  destruct H as (c0 & Hc0 & H). rewrite Hc in Hc0. injection Hc0 as <-.
  exists dm, cfg, s. repeat split; try tauto; apply H.
Qed.

(** C8: the constructor throws exactly when the device manager cannot be
    created, the StereoConfig cannot be allocated or no sensor can be
    obtained, and it never faults; when it completes, the sensor is the
    one of the head-mounted display if there is one, taken after the
    device info has been stored in the stereo configuration, and a
    directly enumerated sensor device otherwise. *)
Theorem constructor_throws_exactly n env :
  ((exists msg, OculusCamera_OculusCamera n env = Throw msg)
   <-> (DeviceManager_Create env = None \/ new_StereoConfig env = None
        \/ exists dm, DeviceManager_Create env = Some dm
                      /\ obtained_sensor dm = None))
  /\ (forall p, OculusCamera_OculusCamera n env <> Fault p)
  /\ (forall c, OculusCamera_OculusCamera n env = Done c ->
      exists dm cfg,
        DeviceManager_Create env = Some dm /\ new_StereoConfig env = Some cfg
        /\ match EnumerateDevices_HMDDevice dm with
           | Some h =>
               sensor c = GetSensor h
               /\ stereoConfig c = Some (SetHMDInfo (GetDeviceInfo h) cfg)
               /\ before call_SetHMDInfo call_GetSensor (trace c)
               /\ (call_EnumerateDevices_SensorDevice ∉ trace c)
           | None =>
               sensor c = EnumerateDevices_SensorDevice dm
               /\ stereoConfig c = Some cfg
               /\ (call_EnumerateDevices_SensorDevice ∈ trace c)
               /\ (call_SetHMDInfo ∉ trace c)
           end).
Proof.
  split; [ | split].
  - pose proof (ctor_cases n env) as H.
    destruct (DeviceManager_Create env) as [dm | ].
    + destruct (new_StereoConfig env) as [cfg | ].
      * destruct (obtained_sensor dm) as [s | ] eqn:Hs.
        -- destruct H as (c & Hc & _). rewrite Hc. split.
           ++ intros [msg Hm]. discriminate Hm.
           ++ intros [Hd | [Hd | (dm' & Hd & Hn)]]; try discriminate Hd.
              injection Hd as <-. congruence.
        -- rewrite H. split; [ | eauto]. intros _. right. right. eauto.
      * rewrite H. split; eauto.
    + rewrite H. split; eauto.
  - intros p Hp. pose proof (ctor_cases n env) as H.
    destruct (DeviceManager_Create env) as [dm | ]; [ | congruence].
    destruct (new_StereoConfig env) as [cfg | ]; [ | congruence].
    destruct (obtained_sensor dm) as [s | ]; [ | congruence].
    destruct H as (c & Hc & _). congruence.
  - intros c Hc.
    destruct (ctor_done_inv n env c Hc)
      as (dm & cfg & s & Hdm & Hcfg & Hs & Hsc & Hsen & _ & _ & Htr & _).
    exists dm, cfg. split; [exact Hdm | split; [exact Hcfg | ]].
    unfold obtained_sensor in Hs.
    destruct (EnumerateDevices_HMDDevice dm) as [h | ].
    + rewrite Hs. tauto.
    + rewrite Hs. tauto.
Qed.

End Construction.

(** The theorems are instantiated on the sample SDK and base class. *)
#[local] Existing Instance Sample.sdk.
#[local] Existing Instance Sample.frustum.
#[local] Existing Instance Sample.camera_base.

Lemma constructor_throws_exactly_witness :
  exists dm cfg,
    DeviceManager_Create Sample.env = Some dm
    /\ new_StereoConfig Sample.env = Some cfg
    /\ match EnumerateDevices_HMDDevice dm with
       | Some h =>
           sensor Sample.constructed = GetSensor h
           /\ stereoConfig Sample.constructed
              = Some (SetHMDInfo (GetDeviceInfo h) cfg)
           /\ before call_SetHMDInfo call_GetSensor (trace Sample.constructed)
           /\ (call_EnumerateDevices_SensorDevice ∉ trace Sample.constructed)
       | None =>
           sensor Sample.constructed = EnumerateDevices_SensorDevice dm
           /\ stereoConfig Sample.constructed = Some cfg
           /\ (call_EnumerateDevices_SensorDevice ∈ trace Sample.constructed)
           /\ (call_SetHMDInfo ∉ trace Sample.constructed)
       end.
Proof.
  refine (proj2 (proj2 (constructor_throws_exactly
                          (sdk := Sample.sdk) (cb := Sample.camera_base)
                          "user" Sample.env)) Sample.constructed _).
  vm_compute. reflexivity.
Defined.

(** ** Every frame: [Update]; every control message: [OnControl] *)

Section Frames.
Context `{sdk : OVR} `{fr : Frustum} `{cb : CameraBase}.

Lemma valid_opp (x : spec_float) : F32.valid x -> F32.valid (SFopp x).
Proof. destruct x; exact (fun H => H). Qed.

(** The components of [remap q] have the values w, -z, -x, y. *)
Lemma remap_values (q : Quatf) :
  Quatf_valid q ->
  (SF2Q (quat_w (remap q)) == SF2Q (ovr_w q)
   /\ SF2Q (quat_x (remap q)) == - SF2Q (ovr_z q)
   /\ SF2Q (quat_y (remap q)) == - SF2Q (ovr_x q)
   /\ SF2Q (quat_z (remap q)) == SF2Q (ovr_y q))%Q.
Proof.
  intros (Hx & Hy & Hz & Hw). cbn [remap quat_w quat_x quat_y quat_z].
  rewrite !SF2Q_of_float by auto using valid_opp.
  rewrite !SF2Q_opp. repeat split; reflexivity.
Qed.

(** A constructor that got a sensor fusion object leaves it in place. *)
Lemma constructed_sensorFusion n env c c' :
  OculusCamera_OculusCamera n env = Done c ->
  (call_SetPredictionEnabled true ∈ trace c) \/ is_Some (controlSub c) ->
  later c c' ->
  is_Some (sensorFusion c').
Proof.
  intros Hc Hen Hl.
  destruct (ctor_done_inv n env c Hc)
    as (dm & cfg & s & _ & _ & _ & _ & _ & Hsf & Hsub & _ & Hiff).
  apply (later_kept c c' Hl). rewrite Hsf.
  destruct Hen as [Hen | Hen].
  - apply Hiff in Hen as [f ->]. eexists; reflexivity.
  - rewrite Hsub in Hen. destruct (new_SensorFusion env).
    + eexists; reflexivity.
    + destruct Hen as [? Hen]; discriminate Hen.
Qed.

(** C1: for every constructed OculusCamera whose constructor enabled
    prediction on the sensor fusion, each later call of Update() reads the
    predicted orientation (w, x, y, z) of the sensor fusion and sets the
    world rotation of the camera to the quaternion (w, -z, -x, y). *)
Theorem Update_sets_remapped_rotation n env c c' :
  OculusCamera_OculusCamera n env = Done c ->
  (call_SetPredictionEnabled true ∈ trace c) ->
  later c c' ->
  exists sf, sensorFusion c' = Some sf /\
    let q := GetPredictedOrientation sf in
    let quat :=
      {| quat_w := F64.of_float (ovr_w q);
         quat_x := F64.of_float (SFopp (ovr_z q));
         quat_y := F64.of_float (SFopp (ovr_x q));
         quat_z := F64.of_float (ovr_y q) |} in
    fst (Update c') = Done tt
    /\ worldRotation (base (snd (Update c'))) = quat
    /\ trace (snd (Update c'))
       = trace c' ++ [call_Camera_Update; call_GetPredictedOrientation;
                      call_Camera_SetWorldRotation quat]
    /\ (Quatf_valid q ->
        (SF2Q (quat_w quat) == SF2Q (ovr_w q)
         /\ SF2Q (quat_x quat) == - SF2Q (ovr_z q)
         /\ SF2Q (quat_y quat) == - SF2Q (ovr_x q)
         /\ SF2Q (quat_z quat) == SF2Q (ovr_y q))%Q).
Proof.
  intros Hc Hen Hl.
  destruct (constructed_sensorFusion n env c c' Hc (or_introl Hen) Hl)
    as [sf Hsf].
  exists sf. split; [exact Hsf | ]. cbv zeta.
  rewrite (Update_run c' sf Hsf). cbv zeta. open_camera c'.
  repeat split; try reflexivity; apply (remap_values _ H).
Qed.

(** C5, as amended: on every frame Update() sets the orientation of the
    world pose from the motion-sensor data; the position is not taken
    from the sensor, it is what Camera::Update() left. *)
Theorem Update_sets_orientation_only (c : OculusCamera) (sf : SensorFusion) :
  sensorFusion c = Some sf ->
  fst (Update c) = Done tt
  /\ worldRotation (base (snd (Update c)))
     = remap (GetPredictedOrientation sf)
  /\ worldPosition (base (snd (Update c)))
     = worldPosition (Camera_Update (base c)).
Proof.
  intros Hsf. rewrite (Update_run c sf Hsf). cbv zeta. open_camera c.
  repeat split; reflexivity.
Qed.

Lemma asks_reset_all_fields (d : WorldControl) :
  asks_reset_all d
  <-> exists r, wc_reset d = Some r /\ wr_all r = Some true.
Proof.
  unfold asks_reset_all, has_reset, has_all, all, reset.
  destruct (wc_reset d) as [r | ]; cbn.
  - destruct (wr_all r) as [[ | ] | ] eqn:E; cbn; split.
    + intros _. eauto.
    + intros _. repeat split; apply bool_decide_eq_true; eauto.
    + intros (_ & _ & H). discriminate H.
    + intros (r' & Hr & Ha). injection Hr as <-. congruence.
    + intros (_ & _ & H). discriminate H.
    + intros (r' & Hr & Ha). injection Hr as <-. congruence.
  - split.
    + intros (H & _). discriminate H.
    + intros (r' & Hr & _). discriminate Hr.
Qed.

(** C10: for every world-control message delivered to OnControl() the
    sensor fusion is reset if and only if the message has a reset field
    that has an 'all' field that is true; any other message leaves the
    state as it is. *)
Theorem OnControl_resets_iff n env c c' (d : WorldControl) :
  OculusCamera_OculusCamera n env = Done c ->
  is_Some (controlSub c) ->
  later c c' ->
  exists sf, sensorFusion c' = Some sf /\
    fst (OnControl d c') = Done tt
    /\ (exists evs, trace (snd (OnControl d c')) = trace c' ++ evs
                    /\ ((call_Reset ∈ evs) <-> asks_reset_all d))
    /\ (asks_reset_all d ->
        sensorFusion (snd (OnControl d c')) = Some (Reset sf))
    /\ (~ asks_reset_all d -> snd (OnControl d c') = c').
Proof.
  intros Hc Hsub Hl.
  destruct (constructed_sensorFusion n env c c' Hc (or_intror Hsub) Hl)
    as [sf Hsf].
  exists sf. split; [exact Hsf | ].
  unfold OnControl, asks_reset_all.
  destruct (has_reset d); [destruct (has_all (reset d));
                           [destruct (all (reset d)) | ] | ]; cbn [andb].
  - rewrite (ResetSensor_run c' sf Hsf). open_camera c'. cbn.
    split; [reflexivity | split; [ | split]].
    + exists [call_Reset]. split; [reflexivity | ].
      split; [tauto | intros _; in_trace].
    + reflexivity.
    + intros H. tauto.
  - cbn. split; [reflexivity | split; [ | split]].
    + exists []. rewrite app_nil_r. split; [reflexivity | ].
      split; [intros H; apply elem_of_nil in H; tauto | ].
      intros (_ & _ & H); discriminate H.
    + intros (_ & _ & H); discriminate H.
    + reflexivity.
  - cbn. split; [reflexivity | split; [ | split]].
    + exists []. rewrite app_nil_r. split; [reflexivity | ].
      split; [intros H; apply elem_of_nil in H; tauto | ].
      intros (_ & H & _); discriminate H.
    + intros (_ & H & _); discriminate H.
    + reflexivity.
  - cbn. split; [reflexivity | split; [ | split]].
    + exists []. rewrite app_nil_r. split; [reflexivity | ].
      split; [intros H; apply elem_of_nil in H; tauto | ].
      intros (H & _); discriminate H.
    + intros (H & _); discriminate H.
    + reflexivity.
Qed.

End Frames.

Lemma Update_sets_remapped_rotation_witness :
  OculusCamera_OculusCamera "user" Sample.env = Done Sample.constructed
  /\ (call_SetPredictionEnabled true ∈ trace Sample.constructed)
  /\ exists sf, sensorFusion Sample.constructed = Some sf /\
       let q := GetPredictedOrientation sf in
       let quat :=
         {| quat_w := F64.of_float (ovr_w q);
            quat_x := F64.of_float (SFopp (ovr_z q));
            quat_y := F64.of_float (SFopp (ovr_x q));
            quat_z := F64.of_float (ovr_y q) |} in
       fst (Update Sample.constructed) = Done tt
       /\ worldRotation (base (snd (Update Sample.constructed))) = quat
       /\ trace (snd (Update Sample.constructed))
          = trace Sample.constructed
            ++ [call_Camera_Update; call_GetPredictedOrientation;
                call_Camera_SetWorldRotation quat]
       /\ (Quatf_valid q ->
           (SF2Q (quat_w quat) == SF2Q (ovr_w q)
            /\ SF2Q (quat_x quat) == - SF2Q (ovr_z q)
            /\ SF2Q (quat_y quat) == - SF2Q (ovr_x q)
            /\ SF2Q (quat_z quat) == SF2Q (ovr_y q))%Q).
Proof.
  assert (H1 : OculusCamera_OculusCamera "user" Sample.env
               = Done Sample.constructed) by (vm_compute; reflexivity).
  assert (H2 : call_SetPredictionEnabled true ∈ trace Sample.constructed)
    by (vm_compute; in_trace).
  split; [exact H1 | split; [exact H2 | ]].
  exact (Update_sets_remapped_rotation (sdk := Sample.sdk) (fr := Sample.frustum)
           (cb := Sample.camera_base) "user" Sample.env
           Sample.constructed Sample.constructed H1 H2
           (later_now Sample.constructed)).
Defined.

Lemma Update_sets_orientation_only_witness :
  sensorFusion Sample.constructed = Some Sample.sample_fusion
  /\ fst (Update Sample.constructed) = Done tt
  /\ worldRotation (base (snd (Update Sample.constructed)))
     = remap (GetPredictedOrientation Sample.sample_fusion)
  /\ worldPosition (base (snd (Update Sample.constructed)))
     = worldPosition (Camera_Update (base Sample.constructed)).
Proof.
  assert (H : sensorFusion Sample.constructed = Some Sample.sample_fusion)
    by (vm_compute; reflexivity).
  split; [exact H | ].
  exact (Update_sets_orientation_only (sdk := Sample.sdk)
           (cb := Sample.camera_base) Sample.constructed Sample.sample_fusion H).
Defined.

Lemma OnControl_resets_iff_witness :
  OculusCamera_OculusCamera "user" Sample.env = Done Sample.constructed
  /\ is_Some (controlSub Sample.constructed)
  /\ exists sf, sensorFusion Sample.constructed = Some sf /\
       fst (OnControl Sample.reset_all_message Sample.constructed) = Done tt
       /\ (exists evs,
             trace (snd (OnControl Sample.reset_all_message Sample.constructed))
             = trace Sample.constructed ++ evs
             /\ ((call_Reset ∈ evs) <-> asks_reset_all Sample.reset_all_message))
       /\ (asks_reset_all Sample.reset_all_message ->
           sensorFusion (snd (OnControl Sample.reset_all_message Sample.constructed))
           = Some (Reset sf))
       /\ (~ asks_reset_all Sample.reset_all_message ->
           snd (OnControl Sample.reset_all_message Sample.constructed)
           = Sample.constructed).
Proof.
  assert (H1 : OculusCamera_OculusCamera "user" Sample.env
               = Done Sample.constructed) by (vm_compute; reflexivity).
  assert (H2 : is_Some (controlSub Sample.constructed))
    by (vm_compute; eexists; reflexivity).
  split; [exact H1 | split; [exact H2 | ]].
  exact (OnControl_resets_iff (sdk := Sample.sdk) (fr := Sample.frustum)
           (cb := Sample.camera_base) "user" Sample.env
           Sample.constructed Sample.constructed Sample.reset_all_message H1 H2
           (later_now Sample.constructed)).
Defined.

(** ** The position of the pose does not come from the sensor *)

(** Two adapters with the same sensor reading and different positions keep
    their positions through Update(). *)
Lemma Update_position_not_from_sensor :
  sensorFusion Sample.moved = sensorFusion Sample.constructed
  /\ worldPosition (base (snd (Update Sample.constructed))) = Sample.origin
  /\ worldPosition (base (snd (Update Sample.moved)))
     = Build_Vector3 (F64.of_int 1) (F64.of_int 2) (F64.of_int 3)
  /\ ~ pose_from_sensor_data (sdk := Sample.sdk) (cb := Sample.camera_base).
Proof.
  split; [vm_compute; reflexivity | ].
  split; [vm_compute; reflexivity | ].
  split; [vm_compute; reflexivity | ].
  intros [f Hf].
  assert (E1 : sensorFusion Sample.constructed = Some Sample.sample_fusion)
    by (vm_compute; reflexivity).
  assert (E2 : sensorFusion Sample.moved = Some Sample.sample_fusion)
    by (vm_compute; reflexivity).
  pose proof (Hf Sample.constructed _ E1) as H1.
  pose proof (Hf Sample.moved _ E2) as H2.
  vm_compute in H1. vm_compute in H2. rewrite <- H1 in H2. discriminate H2.
Qed.

(** ** [Oculus()]: the stereo set-up *)

Section Stereo.
Context `{sdk : OVR} `{fr : Frustum} `{cb : CameraBase}.

(** A run of [Oculus()] that completes, with a stereo configuration. *)
Lemma Oculus_done (s : Sim) (cfg : StereoConfig) :
  stereoConfig (self s) = Some cfg ->
  wp Oculus
     (fun r s' =>
        r = Done tt ->
        exists camL camR psL,
          camera (base (self s)) = Some camL
          /\ rightCamera (self s) = Some camR
          /\ Ogre.materials (ogre s) !! "Ogre/Compositor/Oculus" = Some psL
          /\ camera (base (self s')) = Some (eye_camera cfg (-1) camL)
          /\ rightCamera (self s') = Some (eye_camera cfg 1 camR)
          /\ Ogre.materials (ogre s') !! "Ogre/Compositor/Oculus"
             = Some (warp_constants cfg
                       (F32.add F32.half
                          (F32.div (GetProjectionCenterOffset cfg) F32.two))
                       psL)
          /\ Ogre.materials (ogre s') !! "Ogre/Compositor/Oculus/Right"
             = Some (warp_constants cfg
                       (F32.sub F32.half
                          (F32.div (GetProjectionCenterOffset cfg) F32.two))
                       psL)) s.
Proof.
  intros Hcfg. open_sim s. simpl in Hcfg. subst.
  unfold Oculus. wp_simpl. wp_run.
  all: try (intros H; discriminate H).
  intros _. eexists _, _, _.
  repeat match goal with |- _ /\ _ => split end; try reflexivity.
  - map_lookup. rewrite Heqo. reflexivity.
  - map_lookup. rewrite Heqo. reflexivity.
Qed.

(** [Oculus()] runs to its end exactly from the states that are ready. *)
Lemma Oculus_completes (s : Sim) :
  fst (Oculus s) = Done tt <-> ready_for_Oculus s.
Proof.
  enough (wp Oculus (fun r _ => r = Done tt <-> ready_for_Oculus s) s)
    as H by exact H.
  unfold ready_for_Oculus. open_sim s. wp_simpl.
  unfold Oculus. wp_simpl. wp_run.
  all: split;
    [ intros Hr; try discriminate Hr
    | intros (R1 & R2 & R3 & R4 & R5 & R6 & R7 & R8 & R9);
      try reflexivity; exfalso; clash ].
  apply bool_decide_eq_false in Heqb. apply eq_None_not_Some in Heqb.
  rewrite lookup_insert_ne in Heqo3 by done.
  repeat split; eauto.
Qed.

(** Whatever happens in [Oculus()] when there is a stereo configuration,
    it is not a null [stereoConfig], and no fallback alternative runs. *)
Lemma Oculus_config_branches (s : Sim) (cfg : StereoConfig) :
  stereoConfig (self s) = Some cfg ->
  wp Oculus
     (fun r s' =>
        r <> Fault p_stereoConfig
        /\ exists evs, trace (self s') = trace (self s) ++ evs
                       /\ Forall (fun e => is_fallback e = false) evs) s.
Proof.
  intros Hcfg. open_sim s. simpl in Hcfg. subst.
  unfold Oculus. wp_simpl. wp_run.
  all: (split; [congruence | ]).
  all: first
         [ exists []; split; [symmetry; apply app_nil_r | constructor]
         | eexists; split;
           [ rewrite <- ?app_assoc; cbn [app]; reflexivity
           | repeat constructor ] ].
Qed.


End Stereo.

Section StereoClaims.
Context `{sdk : OVR} `{fr : Frustum} `{cb : CameraBase}.

Lemma Oculus_done_run (s : Sim) (cfg : StereoConfig) :
  stereoConfig (self s) = Some cfg ->
  fst (Oculus s) = Done tt ->
  exists camL camR psL,
    camera (base (self s)) = Some camL
    /\ rightCamera (self s) = Some camR
    /\ Ogre.materials (ogre s) !! "Ogre/Compositor/Oculus" = Some psL
    /\ camera (base (self (snd (Oculus s)))) = Some (eye_camera cfg (-1) camL)
    /\ rightCamera (self (snd (Oculus s))) = Some (eye_camera cfg 1 camR)
    /\ Ogre.materials (ogre (snd (Oculus s))) !! "Ogre/Compositor/Oculus"
       = Some (warp_constants cfg
                 (F32.add F32.half
                    (F32.div (GetProjectionCenterOffset cfg) F32.two)) psL)
    /\ Ogre.materials (ogre (snd (Oculus s))) !! "Ogre/Compositor/Oculus/Right"
       = Some (warp_constants cfg
                 (F32.sub F32.half
                    (F32.div (GetProjectionCenterOffset cfg) F32.two)) psL).
Proof. intros Hcfg. exact (Oculus_done s cfg Hcfg). Qed.

(** C4: Oculus() computes no distortion coefficients: with a stereo
    configuration, the HmdWarpParam constant is the four DistortionK
    coefficients of the configuration and ChromAbParam is the
    ChromaAbCorrection vector of its HMD info, and the left and the right
    eye material receive the same two values. *)
Theorem warp_parameters_from_config (s : Sim) (cfg : StereoConfig) :
  stereoConfig (self s) = Some cfg ->
  fst (Oculus s) = Done tt ->
  forall m, m = "Ogre/Compositor/Oculus" \/ m = "Ogre/Compositor/Oculus/Right" ->
    exists ps, Ogre.materials (ogre (snd (Oculus s))) !! m = Some ps
      /\ ps !! "HmdWarpParam"
         = Some (Ogre.GpuVector4
                   (Build_Vector4 (GetDistortionK cfg 0) (GetDistortionK cfg 1)
                                  (GetDistortionK cfg 2) (GetDistortionK cfg 3)))
      /\ ps !! "ChromAbParam"
         = Some (Ogre.GpuVector4 (ChromaAbCorrection (GetHMDInfo cfg))).
Proof.
  intros Hcfg Hrun m Hm.
  destruct (Oculus_done_run s cfg Hcfg Hrun)
    as (camL & camR & psL & _ & _ & _ & _ & _ & HL & HR).
  destruct Hm as [-> | ->]; eexists; (split; [eassumption | ]);
    unfold warp_constants; split; map_lookup; reflexivity.
Qed.

(** C6, as amended: the LensCenter constants are the single-precision
    results 0.5f + h and 0.5f - h for the same h = ProjectionCenterOffset
    / 2.0f, left and right; whenever neither addition rounds, the two are
    mirror images about 0.5 and sum to exactly 1. *)
Theorem lens_centers_from_half_offset (s : Sim) (cfg : StereoConfig) :
  stereoConfig (self s) = Some cfg ->
  fst (Oculus s) = Done tt ->
  let h := F32.div (GetProjectionCenterOffset cfg) F32.two in
  let left := F32.add F32.half h in
  let right := F32.sub F32.half h in
  (exists psL psR,
     Ogre.materials (ogre (snd (Oculus s))) !! "Ogre/Compositor/Oculus"
     = Some psL
     /\ Ogre.materials (ogre (snd (Oculus s))) !! "Ogre/Compositor/Oculus/Right"
        = Some psR
     /\ psL !! "LensCenter" = Some (Ogre.GpuReal left)
     /\ psR !! "LensCenter" = Some (Ogre.GpuReal right))
  /\ ((SF2Q left == (1 # 2) + SF2Q h)%Q -> (SF2Q right == (1 # 2) - SF2Q h)%Q ->
      (SF2Q left - (1 # 2) == (1 # 2) - SF2Q right)%Q
      /\ (SF2Q left + SF2Q right == 1)%Q).
Proof.
  intros Hcfg Hrun h left right.
  destruct (Oculus_done_run s cfg Hcfg Hrun)
    as (camL & camR & psL & _ & _ & _ & _ & _ & HL & HR).
  split.
  - eexists _, _. split; [exact HL | split; [exact HR | ]].
    unfold warp_constants; split; map_lookup; reflexivity.
  - intros -> ->. split; ring.
Qed.


End StereoClaims.

Section Placement.
Context `{sdk : OVR} `{fr : Frustum} `{cb : CameraBase}.





(** C9: every OculusCamera that finishes construction has a non-null
    stereoConfig, and keeps it; so, at any later time, Oculus() takes
    none of the fallback alternatives for a missing stereo configuration
    and its dereferences of stereoConfig do not fault. *)
Theorem stereoConfig_never_null n env c :
  OculusCamera_OculusCamera n env = Done c ->
  exists cfg, stereoConfig c = Some cfg /\
    forall c' o, later c c' ->
      stereoConfig c' = Some cfg
      /\ fst (Oculus (Build_Sim o c')) <> Fault p_stereoConfig
      /\ exists evs,
           trace (self (snd (Oculus (Build_Sim o c')))) = trace c' ++ evs
           /\ Forall (fun e => is_fallback e = false) evs.
Proof.
  intros Hc.
  destruct (ctor_done_inv n env c Hc)
    as (dm & cfg & s & _ & _ & _ & Hsc & _).
  eexists. split; [exact Hsc | ].
  intros c' o Hl.
  assert (Hsc' : stereoConfig c' = stereoConfig c)
    by apply (later_kept c c' Hl).
  rewrite Hsc in Hsc'. split; [exact Hsc' | ].
  exact (Oculus_config_branches (Build_Sim o c') _ Hsc').
Qed.

End Placement.

(** ** [Init()]: the two eye cameras *)

Section Initialisation.
Context `{sdk : OVR} `{fr : Frustum} `{cb : CameraBase}.

Lemma Init_done (s : Sim) :
  wp Init
     (fun r s' =>
        r = Done tt ->
        exists l0 node0 l r node,
          camera (snd (Camera_Init (ogre s, base (self s)))) = Some l0
          /\ sceneNode (snd (Camera_Init (ogre s, base (self s)))) = Some node0
          /\ ("UserRight"
                ∉ Ogre.sceneCameras (fst (Camera_Init (ogre s, base (self s)))))
          /\ camera (base (self s')) = Some l
          /\ rightCamera (self s') = Some r
          /\ sceneNode (base (self s')) = Some node
          /\ ("UserRight" ∈ Ogre.sceneCameras (ogre s'))
          /\ l = Ogre.setFarClipDistance g_defaultFarClip
                   (Ogre.setNearClipDistance g_defaultNearClip
                      (Ogre.setFarClipDistance g_defaultFarClip
                         (Ogre.setNearClipDistance g_defaultNearClip
                            (Ogre.setAutoAspectRatio false l0))))
          /\ Ogre.cam_name r = "UserRight"
          /\ Ogre.cam_autoAspectRatio r = false
          /\ Ogre.cam_nearClipDistance r = g_defaultNearClip
          /\ Ogre.cam_farClipDistance r = g_defaultFarClip
          /\ Ogre.node_attached node = Ogre.node_attached node0 ++ ["UserRight"]) s.
Proof.
  open_sim s. unfold Init. wp_simpl. wp_run.
  all: try (intros H; discriminate H).
  all: intros _; eexists _, _, _, _, _.
  all: repeat match goal with |- _ /\ _ => split end; try reflexivity.
  all: try (eapply (proj1 (bool_decide_eq_false _)); eassumption).
  all: apply elem_of_union_l, elem_of_singleton; reflexivity.
Qed.

(** [Init()] runs to its end exactly from the states that are ready. *)
Lemma Init_completes (s : Sim) :
  fst (Init s) = Done tt <-> ready_for_Init s.
Proof.
  enough (wp Init (fun r _ => r = Done tt <-> ready_for_Init s) s)
    as H by exact H.
  unfold ready_for_Init. open_sim s. wp_simpl.
  unfold Init. wp_simpl. wp_run.
  all: split;
    [ intros Hr; try discriminate Hr
    | intros (R1 & R2 & R3); try reflexivity; exfalso; clash ].
  all: apply bool_decide_eq_false in Heqb; repeat split; eauto.
Qed.

(** C7: after Init() has completed the adapter holds two eye cameras, the
    inherited one and a newly created one named "UserRight" attached to
    the scene node of the adapter, to which everything attached before
    stays attached; both have the automatic aspect ratio turned off and
    the near and far clip distances 0.1f and 5000. *)
Theorem Init_two_eye_cameras (s : Sim) :
  fst (Init s) = Done tt ->
  let after := Camera_Init (ogre s, base (self s)) in
  let s' := snd (Init s) in
  exists l r node,
    camera (base (self s')) = Some l
    /\ rightCamera (self s') = Some r
    /\ sceneNode (base (self s')) = Some node
    /\ (exists l0, camera (snd after) = Some l0
                   /\ Ogre.cam_name l = Ogre.cam_name l0)
    /\ Ogre.cam_name r = "UserRight"
    /\ ("UserRight" ∉ Ogre.sceneCameras (fst after))
    /\ ("UserRight" ∈ Ogre.sceneCameras (ogre s'))
    /\ ("UserRight" ∈ Ogre.node_attached node)
    /\ (exists node0, sceneNode (snd after) = Some node0
                      /\ forall x, x ∈ Ogre.node_attached node0 ->
                                   x ∈ Ogre.node_attached node)
    /\ Ogre.cam_autoAspectRatio l = false
    /\ Ogre.cam_autoAspectRatio r = false
    /\ Ogre.cam_nearClipDistance l = g_defaultNearClip
    /\ Ogre.cam_farClipDistance l = g_defaultFarClip
    /\ Ogre.cam_nearClipDistance r = g_defaultNearClip
    /\ Ogre.cam_farClipDistance r = g_defaultFarClip
    /\ g_defaultNearClip = F32.dec 1 10
    /\ (SF2Q g_defaultFarClip == 5000)%Q.
Proof.
  intros Hrun after s'.
  destruct (Init_done s Hrun)
    as (l0 & node0 & l & r & node & Hl0 & Hn0 & Hnew & Hl & Hr & Hn & Hin
        & El & Hname & Haa & Hnear & Hfar & Hatt).
  exists l, r, node.
  split; [exact Hl | split; [exact Hr | split; [exact Hn | ]]].
  split; [exists l0; split; [exact Hl0 | rewrite El; reflexivity] | ].
  split; [exact Hname | split; [exact Hnew | split; [exact Hin | ]]].
  split; [rewrite Hatt; apply elem_of_app; right; apply list_elem_of_here | ].
  split; [exists node0; split; [exact Hn0 | ];
          intros x Hx; rewrite Hatt; apply elem_of_app; left; exact Hx | ].
  rewrite El.
  repeat match goal with |- _ /\ _ => split end; try reflexivity;
    try assumption.
Qed.

End Initialisation.

(** ** The stereo theorems on the sample adapter *)

Lemma warp_parameters_from_config_witness :
  stereoConfig (self Sample.initialised) = Some Sample.config
  /\ fst (Oculus Sample.initialised) = Done tt
  /\ exists ps,
       Ogre.materials (ogre (snd (Oculus Sample.initialised)))
         !! "Ogre/Compositor/Oculus/Right" = Some ps
       /\ ps !! "HmdWarpParam"
          = Some (Ogre.GpuVector4
                    (Build_Vector4
                       (GetDistortionK Sample.config 0)
                       (GetDistortionK Sample.config 1)
                       (GetDistortionK Sample.config 2)
                       (GetDistortionK Sample.config 3)))
       /\ ps !! "ChromAbParam"
          = Some (Ogre.GpuVector4 (ChromaAbCorrection (GetHMDInfo Sample.config))).
Proof.
  assert (H1 : stereoConfig (self Sample.initialised) = Some Sample.config)
    by (vm_compute; reflexivity).
  assert (H2 : fst (Oculus Sample.initialised) = Done tt)
    by (vm_compute; reflexivity).
  split; [exact H1 | split; [exact H2 | ]].
  exact (warp_parameters_from_config Sample.initialised Sample.config H1 H2
           "Ogre/Compositor/Oculus/Right" (or_intror eq_refl)).
Defined.

Lemma lens_centers_from_half_offset_witness :
  let cfg := Sample.set_offset (F32.dec 25 100) Sample.config in
  let s := Sample.staged (Some cfg) in
  stereoConfig (self s) = Some cfg
  /\ fst (Oculus s) = Done tt
  /\ let h := F32.div (GetProjectionCenterOffset cfg) F32.two in
     let left := F32.add F32.half h in
     let right := F32.sub F32.half h in
     (SF2Q left == (1 # 2) + SF2Q h)%Q
     /\ (SF2Q right == (1 # 2) - SF2Q h)%Q
     /\ (SF2Q left - (1 # 2) == (1 # 2) - SF2Q right)%Q
     /\ (SF2Q left + SF2Q right == 1)%Q.
Proof.
  intros cfg s.
  assert (H1 : stereoConfig (self s) = Some cfg) by (vm_compute; reflexivity).
  assert (H2 : fst (Oculus s) = Done tt) by (vm_compute; reflexivity).
  split; [exact H1 | split; [exact H2 | ]].
  intros h left right.
  assert (H3 : (SF2Q left == (1 # 2) + SF2Q h)%Q) by (vm_compute; reflexivity).
  assert (H4 : (SF2Q right == (1 # 2) - SF2Q h)%Q) by (vm_compute; reflexivity).
  split; [exact H3 | split; [exact H4 | ]].
  exact (proj2 (lens_centers_from_half_offset s cfg H1 H2) H3 H4).
Defined.



Lemma stereoConfig_never_null_witness :
  OculusCamera_OculusCamera "user" Sample.env = Done Sample.constructed
  /\ exists cfg, stereoConfig Sample.constructed = Some cfg /\
       forall c' o, later Sample.constructed c' ->
         stereoConfig c' = Some cfg
         /\ fst (Oculus (Build_Sim o c')) <> Fault p_stereoConfig
         /\ exists evs,
              trace (self (snd (Oculus (Build_Sim o c')))) = trace c' ++ evs
              /\ Forall (fun e => is_fallback e = false) evs.
Proof.
  assert (H1 : OculusCamera_OculusCamera "user" Sample.env
               = Done Sample.constructed) by (vm_compute; reflexivity).
  split; [exact H1 | ].
  exact (stereoConfig_never_null "user" Sample.env Sample.constructed H1).
Defined.

Lemma Init_two_eye_cameras_witness :
  fst (Init (Build_Sim Sample.root Sample.constructed)) = Done tt
  /\ exists l r,
       camera (base (self (snd (Init (Build_Sim Sample.root Sample.constructed)))))
       = Some l
       /\ rightCamera (self (snd (Init (Build_Sim Sample.root Sample.constructed))))
          = Some r
       /\ Ogre.cam_name r = "UserRight"
       /\ Ogre.cam_nearClipDistance l = g_defaultNearClip
       /\ Ogre.cam_farClipDistance r = g_defaultFarClip.
Proof.
  assert (H1 : fst (Init (Build_Sim Sample.root Sample.constructed)) = Done tt)
    by (vm_compute; reflexivity).
  split; [exact H1 | ].
  destruct (Init_two_eye_cameras (Build_Sim Sample.root Sample.constructed) H1)
    as (l & r & node & Hl & Hr & _ & _ & Hn & _ & _ & _ & _ & _ & _ & Hnear
        & _ & _ & Hfar & _).
  exists l, r. repeat split; assumption.
Defined.

(** ** Where C2 and C6 fail as they are stated *)


(** With a projection centre offset of 0.2f the two lens centres sum to
    1 + 2^-25; with an offset of 2^30 they are 2^29 and -2^29 and sum to 0,
    in single precision too. *)
Lemma lens_centers_do_not_always_sum_to_one :
  (let s := Sample.staged
              (Some (Sample.set_offset (F32.dec 2 10) Sample.config)) in
   fst (Oculus s) = Done tt
   /\ exists l r,
        lens (snd (Oculus s)) "Ogre/Compositor/Oculus" = Some (Ogre.GpuReal l)
        /\ lens (snd (Oculus s)) "Ogre/Compositor/Oculus/Right"
           = Some (Ogre.GpuReal r)
        /\ (SF2Q l + SF2Q r == 33554433 # 33554432)%Q
        /\ ~ (SF2Q l + SF2Q r == 1)%Q)
  /\ (let s := Sample.staged
                 (Some (Sample.set_offset (S754_finite false 8388608 7)
                                          Sample.config)) in
      fst (Oculus s) = Done tt
      /\ exists l r,
           lens (snd (Oculus s)) "Ogre/Compositor/Oculus" = Some (Ogre.GpuReal l)
           /\ lens (snd (Oculus s)) "Ogre/Compositor/Oculus/Right"
              = Some (Ogre.GpuReal r)
           /\ (SF2Q l + SF2Q r == 0)%Q
           /\ F32.add l r = F32.zero).
Proof.
  cbv zeta. split.
  - split; [vm_compute; reflexivity | ].
    eexists _, _. split; [vm_compute; reflexivity | ].
    split; [vm_compute; reflexivity | ].
    split; [vm_compute; reflexivity | ].
    intros H. vm_compute in H. discriminate H.
  - split; [vm_compute; reflexivity | ].
    eexists _, _. split; [vm_compute; reflexivity | ].
    split; [vm_compute; reflexivity | ].
    split; vm_compute; reflexivity.
Qed.

(** * Further facts

    ** Messages in sequence, and an adapter without sensor fusion *)

Section Sequences.
Context `{sdk : OVR} `{fr : Frustum} `{cb : CameraBase}.

Lemma OnControl_run (d : WorldControl) (c : OculusCamera) (sf : SensorFusion) :
  sensorFusion c = Some sf ->
  OnControl d c
  = if resets d
    then (Done tt, with_sensorFusion (Some (Reset sf))
                     (with_trace (trace c ++ [call_Reset]) c))
    else (Done tt, c).
Proof.
  intros Hsf. unfold OnControl, resets.
  destruct (has_reset d && has_all (reset d) && all (reset d)).
  - exact (ResetSensor_run c sf Hsf).
  - reflexivity.
Qed.

(** X1: the messages of the control topic, handled one after the other,
    reset the sensor fusion once for each message that asks to reset
    everything, and do nothing else. *)
Theorem OnControl_counts_resets (ds : list WorldControl) (c : OculusCamera)
    (sf : SensorFusion) :
  sensorFusion c = Some sf ->
  let n := length (List.filter resets ds) in
  fst (deliver ds c) = Done tt
  /\ sensorFusion (snd (deliver ds c)) = Some (Nat.iter n Reset sf)
  /\ trace (snd (deliver ds c)) = trace c ++ replicate n call_Reset
  /\ snd (deliver ds c)
     = with_sensorFusion (sensorFusion (snd (deliver ds c)))
         (with_trace (trace (snd (deliver ds c))) c).
Proof.
  revert c sf. induction ds as [ | d ds IH]; intros c sf Hsf n.
  - subst n. cbn. rewrite app_nil_r. open_camera c. cbn in Hsf. subst.
    repeat split; reflexivity.
  - cbn [deliver]. unfold mbind, M_bind. rewrite (OnControl_run d c sf Hsf).
    subst n. cbn [List.filter]. destruct (resets d).
    + cbn [length].
      specialize (IH (with_sensorFusion (Some (Reset sf))
                        (with_trace (trace c ++ [call_Reset]) c)) (Reset sf)).
      open_camera c. cbn in Hsf. subst.
      specialize (IH eq_refl). cbv zeta in IH.
      destruct IH as (H1 & H2 & H3 & H4).
      cbn [trace with_trace with_sensorFusion] in *.
      split; [exact H1 | ]. split; [rewrite H2, Nat.iter_succ_r; reflexivity | ].
      split; [rewrite H3, <- app_assoc; reflexivity | ].
      rewrite H4 at 1. reflexivity.
    + exact (IH c sf Hsf).
Qed.

(** X2: without a sensor fusion, Update() stops on the null pointer after
    the base class has updated, and sets no rotation; ResetSensor() and a
    message that asks to reset everything stop on it with nothing
    changed; any other message is ignored. *)
Theorem methods_without_sensor_fusion (c : OculusCamera) :
  sensorFusion c = None ->
  Update c
  = (Fault p_sensorFusion,
     with_base (Camera_Update (base c))
       (with_trace (trace c ++ [call_Camera_Update]) c))
  /\ ResetSensor c = (Fault p_sensorFusion, c)
  /\ forall d, OnControl d c
               = if resets d then (Fault p_sensorFusion, c) else (Done tt, c).
Proof.
  intros Hsf. open_camera c. cbn in Hsf. subst. split; [reflexivity | ].
  split; [reflexivity | ]. intros d. unfold OnControl, resets.
  destruct (has_reset d && has_all (reset d) && all (reset d)); reflexivity.
Qed.

End Sequences.

(** ** The construction, event by event *)

Section ConstructionEvents.
Context `{sdk : OVR} `{fr : Frustum} `{cb : CameraBase}.

(** A completed construction: its events, the cached offset and the base
    class. *)
Lemma ctor_done_trace n env c :
  OculusCamera_OculusCamera n env = Done c ->
  exists dm cfg,
    DeviceManager_Create env = Some dm /\ new_StereoConfig env = Some cfg
    /\ centerOffset c = GetProjectionCenterOffset cfg
    /\ base c = Camera_SetRenderRate (F64.of_int 30) (Camera_Camera n)
    /\ deviceManager c = Some dm
    /\ hmd c = EnumerateDevices_HMDDevice dm
    /\ rightCamera c = None /\ rightViewport c = None
    /\ compositors c = (None, None)
    /\ trace c
       = construction (bool_decide (is_Some (EnumerateDevices_HMDDevice dm)))
           (bool_decide (is_Some (new_SensorFusion env))).
Proof.
  revert c. apply ctor_wp.
  destruct env as [[[[[info hs] | ] es] | ] [cfg0 | ] sf0];
    unfold OculusCamera_body, fresh; wp_simpl; wp_run;
    intros c Hc; try discriminate Hc; injection Hc as <-;
    eexists _, _; wp_simpl;
    repeat match goal with |- _ /\ _ => split end; reflexivity.
Qed.


(** X4: the message of the exception tells which of the three checks
    failed, and the checks are made in the order device manager, stereo
    configuration, sensor. *)
Theorem constructor_failure_messages n env :
  (DeviceManager_Create env = None ->
   OculusCamera_OculusCamera n env
   = Throw ("Oculus: Failed to create Device Manager" +:+ nl))
  /\ (forall dm, DeviceManager_Create env = Some dm ->
      new_StereoConfig env = None ->
      OculusCamera_OculusCamera n env
      = Throw ("Oculus: Failed to create StereoConfig" +:+ nl))
  /\ (forall dm cfg, DeviceManager_Create env = Some dm ->
      new_StereoConfig env = Some cfg ->
      obtained_sensor dm = None ->
      OculusCamera_OculusCamera n env
      = Throw ("Oculus: Failed to create sensor" +:+ nl)).
Proof.
  pose proof (ctor_cases n env) as H.
  split; [ | split].
  - intros Hd. rewrite Hd in H. exact H.
  - intros dm Hd Hc. rewrite Hd, Hc in H. exact H.
  - intros dm cfg Hd Hc Hs. rewrite Hd, Hc, Hs in H. exact H.
Qed.

(** X5: when no sensor fusion can be allocated the constructor does not
    throw: it logs the failure and returns an adapter without sensor
    fusion and without a subscription, on which the first Update() stops
    on the null pointer. *)
Theorem constructor_without_sensor_fusion n env dm cfg s :
  DeviceManager_Create env = Some dm ->
  new_StereoConfig env = Some cfg ->
  obtained_sensor dm = Some s ->
  new_SensorFusion env = None ->
  exists c, OculusCamera_OculusCamera n env = Done c
    /\ sensorFusion c = None /\ controlSub c = None /\ sensor c = Some s
    /\ last (trace c)
       = Some (gzlog ("Oculus: Failed to create SensorFusion" +:+ nl))
    /\ (call_AttachToSensor ∉ trace c)
    /\ (call_SetPredictionEnabled true ∉ trace c)
    /\ (call_Subscribe "~/world_control" ∉ trace c)
    /\ fst (Update c) = Fault p_sensorFusion.
Proof.
  intros Hd Hc Hs Hf. pose proof (ctor_cases n env) as H.
  rewrite Hd, Hc, Hs, Hf in H. destruct H as (c & Hdone & _ & Hsen & Hsf & Hsub & _).
  exists c. split; [exact Hdone | ].
  destruct (ctor_done_trace n env c Hdone)
    as (dm' & _ & Hd' & _ & _ & _ & _ & _ & _ & _ & _ & Htr).
  rewrite Hf in Htr. rewrite Hd in Hd'. injection Hd' as <-.
  cbn in Hsf, Hsub.
  split; [exact Hsf | split; [exact Hsub | split; [exact Hsen | ]]].
  rewrite Htr.
  split; [destruct (bool_decide (is_Some (EnumerateDevices_HMDDevice dm)));
          reflexivity | ].
  split; [destruct (bool_decide (is_Some (EnumerateDevices_HMDDevice dm)));
          not_in_trace | ].
  split; [destruct (bool_decide (is_Some (EnumerateDevices_HMDDevice dm)));
          not_in_trace | ].
  split; [destruct (bool_decide (is_Some (EnumerateDevices_HMDDevice dm)));
          not_in_trace | ].
  open_camera c. cbn in Hsf. subst. reflexivity.
Qed.

(** X6: the cached centre offset is read from the stereo configuration as
    it is allocated, before the device info of a head-mounted display is
    stored in it, and it is the offset of that first configuration. *)
Theorem centerOffset_read_before_HMDInfo n env c :
  OculusCamera_OculusCamera n env = Done c ->
  exists dm cfg,
    DeviceManager_Create env = Some dm /\ new_StereoConfig env = Some cfg
    /\ centerOffset c = GetProjectionCenterOffset cfg
    /\ forall h, EnumerateDevices_HMDDevice dm = Some h ->
         stereoConfig c = Some (SetHMDInfo (GetDeviceInfo h) cfg)
         /\ before call_GetProjectionCenterOffset call_SetHMDInfo (trace c).
Proof.
  intros Hc.
  destruct (ctor_done_trace n env c Hc)
    as (dm & cfg & Hdm & Hcfg & Hoff & _ & _ & _ & _ & _ & _ & Htr).
  exists dm, cfg. split; [exact Hdm | split; [exact Hcfg | split; [exact Hoff | ]]].
  intros h Hh.
  destruct (ctor_done_inv n env c Hc)
    as (dm' & cfg' & s & Hdm' & Hcfg' & _ & Hsc & _).
  rewrite Hdm in Hdm'. injection Hdm' as <-.
  rewrite Hcfg in Hcfg'. injection Hcfg' as <-.
  rewrite Hh in Hsc. split; [exact Hsc | ].
  rewrite Htr, Hh. exists 6%nat, 9%nat. repeat split. lia.
Qed.

End ConstructionEvents.

(** ** What no method changes *)

Section Handles.
Context `{sdk : OVR} `{fr : Frustum} `{cb : CameraBase}.

Lemma devices_kept_refl c : devices_kept c c.
Proof.
  unfold devices_kept. repeat split. exists []. symmetry. apply app_nil_r.
Qed.

Lemma devices_kept_trans c1 c2 c3 :
  devices_kept c1 c2 -> devices_kept c2 c3 -> devices_kept c1 c3.
Proof.
  unfold devices_kept.
  intros (-> & -> & -> & -> & e1 & H1) (-> & -> & -> & -> & e2 & H2).
  repeat split. exists (e1 ++ e2). rewrite H2, H1, app_assoc. reflexivity.
Qed.

Ltac devices_done :=
  unfold devices_kept; wp_simpl; repeat split;
  first [ exists []; symmetry; apply app_nil_r
        | eexists; rewrite <- ?app_assoc; cbn [app]; reflexivity ].

Lemma Update_devices (c : OculusCamera) :
  wp Update (fun _ c' => devices_kept c c') c.
Proof. open_camera c. unfold Update. wp_simpl. wp_run. all: devices_done. Qed.

Lemma ResetSensor_devices (c : OculusCamera) :
  wp ResetSensor (fun _ c' => devices_kept c c') c.
Proof.
  open_camera c. unfold ResetSensor. wp_simpl. wp_run. all: devices_done.
Qed.

Lemma OnControl_devices (d : WorldControl) (c : OculusCamera) :
  wp (OnControl d) (fun _ c' => devices_kept c c') c.
Proof.
  unfold OnControl.
  destruct (has_reset d && has_all (reset d) && all (reset d)).
  - apply ResetSensor_devices.
  - apply devices_kept_refl.
Qed.

Lemma Init_devices (s : Sim) :
  wp Init (fun _ s' => devices_kept (self s) (self s')) s.
Proof. open_sim s. unfold Init. wp_simpl. wp_run. all: devices_done. Qed.

Lemma Oculus_devices (s : Sim) :
  wp Oculus (fun _ s' => devices_kept (self s) (self s')) s.
Proof. open_sim s. unfold Oculus. wp_simpl. wp_run. all: devices_done. Qed.

Lemma later_devices (c c' : OculusCamera) : later c c' -> devices_kept c c'.
Proof.
  induction 1 as [ | c' _ IH | c' d _ IH | c' _ IH | c' o _ IH | c' o _ IH
                 | c' sf sf' _ IH Hsf | c' b rv _ IH ].
  - apply devices_kept_refl.
  - exact (devices_kept_trans _ _ _ IH (Update_devices c')).
  - exact (devices_kept_trans _ _ _ IH (OnControl_devices d c')).
  - exact (devices_kept_trans _ _ _ IH (ResetSensor_devices c')).
  - exact (devices_kept_trans _ _ _ IH (Init_devices (Build_Sim o c'))).
  - exact (devices_kept_trans _ _ _ IH (Oculus_devices (Build_Sim o c'))).
  - apply (devices_kept_trans _ _ _ IH). open_camera c'. devices_done.
  - apply (devices_kept_trans _ _ _ IH). open_camera c'. devices_done.
Qed.

(** X7: over the whole life of an adapter, whatever methods run and
    whether they complete or not, the device manager, the head-mounted
    display, the sensor, the stereo configuration, the cached offset and
    the subscription stay the ones the constructor obtained, and the
    record of events only grows. *)
Theorem device_handles_fixed n env c c' :
  OculusCamera_OculusCamera n env = Done c ->
  later c c' ->
  exists dm cfg,
    DeviceManager_Create env = Some dm /\ new_StereoConfig env = Some cfg
    /\ deviceManager c' = Some dm
    /\ hmd c' = EnumerateDevices_HMDDevice dm
    /\ sensor c' = obtained_sensor dm
    /\ centerOffset c' = GetProjectionCenterOffset cfg
    /\ stereoConfig c' = stereoConfig c
    /\ controlSub c' = controlSub c
    /\ exists evs, trace c' = trace c ++ evs.
Proof.
  intros Hc Hl.
  destruct (ctor_done_trace n env c Hc)
    as (dm & cfg & Hdm & Hcfg & Hoff & _ & Hd & Hh & _).
  destruct (ctor_done_inv n env c Hc)
    as (dm' & _ & s & Hdm' & _ & Hs & _ & Hsen & _).
  rewrite Hdm in Hdm'. injection Hdm' as <-.
  destruct (later_devices c c' Hl) as (K1 & K2 & K3 & K4 & K5).
  destruct (later_kept c c' Hl) as (K6 & K7 & _).
  exists dm, cfg. rewrite K1, K2, K3, K4, Hs.
  repeat split; assumption.
Qed.

End Handles.

(** ** [Init()] and [Oculus()]: what else they do, and how they fail *)

Section Stages.
Context `{sdk : OVR} `{fr : Frustum} `{cb : CameraBase}.

(** The base class after a run of [Init()] that completes. *)
Lemma Init_done_base (s : Sim) :
  wp Init
     (fun r s' =>
        r = Done tt ->
        trace (self s')
        = trace (self s)
          ++ [call_Camera_Init; call_Camera_SetHFOV (GZ_DTOR 60);
              call_Camera_SetClipDist g_defaultNearClip g_defaultFarClip]
        /\ hfov (base (self s')) = GZ_DTOR 60
        /\ clipNear (base (self s')) = g_defaultNearClip
        /\ clipFar (base (self s')) = g_defaultFarClip
        /\ Ogre.renderPathType (ogre s')
           = Ogre.renderPathType (fst (Camera_Init (ogre s, base (self s))))) s.
Proof.
  open_sim s. unfold Init. wp_simpl. wp_run.
  all: try (intros H; discriminate H).
  all: intros _; rewrite <- ?app_assoc; repeat split; reflexivity.
Qed.

Lemma GZ_DTOR_60 :
  (10471975511965976 # 10000000000000000 <= SF2Q (GZ_DTOR 60)
   /\ SF2Q (GZ_DTOR 60) <= 10471975511965979 # 10000000000000000)%Q.
Proof. split; apply Qle_bool_imp_le; vm_compute; reflexivity. Qed.

(** X8: whichever render path the engine uses, a run of Init() that
    completes calls, on the base class, Init(), SetHFOV with 60 degrees in
    radians and SetClipDist(0.1f, 5000), in this order and nothing else,
    and leaves these values as field of view and clip distances. *)
Theorem Init_view_any_render_path (s : Sim) (path : Ogre.RenderPathType) :
  Ogre.renderPathType (fst (Camera_Init (ogre s, base (self s)))) = path ->
  fst (Init s) = Done tt ->
  trace (self (snd (Init s)))
  = trace (self s)
    ++ [call_Camera_Init; call_Camera_SetHFOV (GZ_DTOR 60);
        call_Camera_SetClipDist g_defaultNearClip g_defaultFarClip]
  /\ hfov (base (self (snd (Init s)))) = GZ_DTOR 60
  /\ clipNear (base (self (snd (Init s)))) = g_defaultNearClip
  /\ clipFar (base (self (snd (Init s)))) = g_defaultFarClip
  /\ Ogre.renderPathType (ogre (snd (Init s))) = path
  /\ (10471975511965976 # 10000000000000000 <= SF2Q (GZ_DTOR 60)
      /\ SF2Q (GZ_DTOR 60) <= 10471975511965979 # 10000000000000000)%Q.
Proof.
  intros Hp Hrun.
  destruct (Init_done_base s Hrun) as (H1 & H2 & H3 & H4 & H5).
  rewrite H5, Hp. repeat split; try assumption; apply GZ_DTOR_60.
Qed.

(** [Init()] in a scene that has a camera "UserRight" already. *)
Lemma Init_duplicate (s : Sim) :
  "UserRight" ∈ Ogre.sceneCameras (fst (Camera_Init (ogre s, base (self s)))) ->
  wp Init
     (fun r s' =>
        (exists msg, r = Throw msg)
        /\ rightCamera (self s') = rightCamera (self s)
        /\ ogre s' = fst (Camera_Init (ogre s, base (self s)))
        /\ base (self s')
           = Camera_SetHFOV (GZ_DTOR 60)
               (snd (Camera_Init (ogre s, base (self s))))) s.
Proof.
  intros Hin. open_sim s. cbn [ogre self base] in Hin.
  unfold Init. wp_simpl. wp_run.
  all: cbn [fst snd Ogre.sceneCameras] in Hin.
  all: try (apply bool_decide_eq_false in Heqb; contradiction).
  all: repeat split; eauto.
Qed.

(** X9: Init() cannot be run twice: when the base class keeps the cameras
    of the scene, the second run finds the camera "UserRight" of the
    first, the engine refuses the name and the exception leaves Init()
    with the right camera of the first run still in place. *)
Theorem Init_not_repeatable (s : Sim) :
  fst (Init s) = Done tt ->
  Ogre.sceneCameras (ogre (snd (Init s)))
  ⊆ Ogre.sceneCameras
      (fst (Camera_Init (ogre (snd (Init s)), base (self (snd (Init s)))))) ->
  exists msg,
    fst (Init (snd (Init s))) = Throw msg
    /\ rightCamera (self (snd (Init (snd (Init s)))))
       = rightCamera (self (snd (Init s)))
    /\ is_Some (rightCamera (self (snd (Init s)))).
Proof.
  intros Hrun Hkeep.
  destruct (Init_done s Hrun)
    as (l0 & node0 & l & r & node & _ & _ & _ & _ & Hr & _ & Hin & _).
  destruct (Init_duplicate (snd (Init s)) (Hkeep _ Hin))
    as ([msg Hm] & Hrc & _).
  exists msg. split; [exact Hm | split; [exact Hrc | ]].
  rewrite Hr. eexists; reflexivity.
Qed.

(** A run of [Oculus()] that completes: the compositors, the compositor
    definitions, the record of events, and what is left alone. *)
Lemma Oculus_done_engine (s : Sim) (cfg : StereoConfig) :
  stereoConfig (self s) = Some cfg ->
  wp Oculus
     (fun r s' =>
        r = Done tt ->
        exists vl vr,
          viewport (base (self s)) = Some vl
          /\ rightViewport (self s) = Some vr
          /\ compositors (self s')
             = (Some (Ogre.Build_CompositorInstance "OculusLeft" vl true),
                Some (Ogre.Build_CompositorInstance "OculusRight" vr true))
          /\ Ogre.compositorDefs (ogre s')
             = <["OculusRight" :=
                   Ogre.Build_Compositor "Ogre/Compositor/Oculus/Right"]>
                 (Ogre.compositorDefs (ogre s))
          /\ trace (self s')
             = trace (self s)
               ++ [took warp_from_config; took chrom_from_config;
                   took (eye_from_config 0); took (eye_from_config 1)]
          /\ (forall m, m <> "Ogre/Compositor/Oculus" ->
                        m <> "Ogre/Compositor/Oculus/Right" ->
                        Ogre.materials (ogre s') !! m
                        = Ogre.materials (ogre s) !! m)
          /\ Ogre.sceneCameras (ogre s') = Ogre.sceneCameras (ogre s)
          /\ viewport (base (self s')) = viewport (base (self s))
          /\ rightViewport (self s') = rightViewport (self s)
          /\ sceneNode (base (self s')) = sceneNode (base (self s))) s.
Proof.
  intros Hcfg. open_sim s. simpl in Hcfg. subst.
  unfold Oculus. wp_simpl. wp_run.
  all: try (intros H; discriminate H).
  intros _. eexists _, _.
  repeat match goal with |- _ /\ _ => split end; try reflexivity.
  - rewrite <- !app_assoc. reflexivity.
  - intros m H1 H2. map_lookup. reflexivity.
Qed.

(** X10: after Oculus() the two warp materials carry the same constants,
    the lens centre apart: the right material is a copy of the left one,
    made before any constant is set, and every later constant but
    LensCenter is set on both; no other material is touched. *)
Theorem Oculus_materials_differ_in_lens_only (s : Sim) (cfg : StereoConfig) :
  stereoConfig (self s) = Some cfg ->
  fst (Oculus s) = Done tt ->
  exists psL psR,
    Ogre.materials (ogre (snd (Oculus s))) !! "Ogre/Compositor/Oculus"
    = Some psL
    /\ Ogre.materials (ogre (snd (Oculus s))) !! "Ogre/Compositor/Oculus/Right"
       = Some psR
    /\ (forall k, k <> "LensCenter" -> psL !! k = psR !! k)
    /\ (forall k, k <> "LensCenter" -> k <> "ChromAbParam" ->
                  k <> "HmdWarpParam" ->
                  psR !! k
                  = Ogre.materials (ogre s) !! "Ogre/Compositor/Oculus"
                    ≫= fun ps => ps !! k)
    /\ (forall m, m <> "Ogre/Compositor/Oculus" ->
                  m <> "Ogre/Compositor/Oculus/Right" ->
                  Ogre.materials (ogre (snd (Oculus s))) !! m
                  = Ogre.materials (ogre s) !! m).
Proof.
  intros Hcfg Hrun.
  destruct (Oculus_done s cfg Hcfg Hrun)
    as (camL & camR & ps & _ & _ & Hps & _ & _ & HL & HR).
  destruct (Oculus_done_engine s cfg Hcfg Hrun)
    as (vl & vr & _ & _ & _ & _ & _ & Hm & _).
  eexists _, _. split; [exact HL | split; [exact HR | ]].
  split; [ | split; [ | exact Hm]].
  - intros k Hk. unfold warp_constants.
    rewrite !(lookup_insert_ne _ "LensCenter") by done. reflexivity.
  - intros k H1 H2 H3. unfold warp_constants. rewrite Hps. map_lookup.
    reflexivity.
Qed.

(** X11: a run of Oculus() that completes leaves one enabled compositor
    instance per eye, "OculusLeft" on the viewport of the inherited camera
    and "OculusRight" on the right viewport, has pointed the compositor
    "OculusRight" to the right material and left every other compositor
    as it was; it has taken no fallback, and created no camera. *)
Theorem Oculus_compositors_enabled (s : Sim) (cfg : StereoConfig) :
  stereoConfig (self s) = Some cfg ->
  fst (Oculus s) = Done tt ->
  exists vl vr,
    viewport (base (self s)) = Some vl
    /\ rightViewport (self s) = Some vr
    /\ compositors (self (snd (Oculus s)))
       = (Some {| Ogre.ci_compositor := "OculusLeft";
                  Ogre.ci_viewport := vl; Ogre.ci_enabled := true |},
          Some {| Ogre.ci_compositor := "OculusRight";
                  Ogre.ci_viewport := vr; Ogre.ci_enabled := true |})
    /\ Ogre.compositorDefs (ogre (snd (Oculus s))) !! "OculusRight"
       = Some {| Ogre.comp_material := "Ogre/Compositor/Oculus/Right" |}
    /\ (forall n, n <> "OculusRight" ->
                  Ogre.compositorDefs (ogre (snd (Oculus s))) !! n
                  = Ogre.compositorDefs (ogre s) !! n)
    /\ trace (self (snd (Oculus s)))
       = trace (self s)
         ++ [took warp_from_config; took chrom_from_config;
             took (eye_from_config 0); took (eye_from_config 1)]
    /\ Ogre.sceneCameras (ogre (snd (Oculus s))) = Ogre.sceneCameras (ogre s).
Proof.
  intros Hcfg Hrun.
  destruct (Oculus_done_engine s cfg Hcfg Hrun)
    as (vl & vr & Hvl & Hvr & Hcs & Hdefs & Htr & _ & Hsc & _).
  exists vl, vr. rewrite Hdefs.
  repeat match goal with |- _ /\ _ => split end; try assumption.
  - apply lookup_insert_eq.
  - intros n Hn. apply lookup_insert_ne. congruence.
Qed.

(** [Oculus()] on an engine that has the right material already. *)
Lemma Oculus_right_exists (s : Sim) :
  is_Some (Ogre.materials (ogre s) !! "Ogre/Compositor/Oculus") ->
  is_Some (Ogre.materials (ogre s) !! "Ogre/Compositor/Oculus/Right") ->
  wp Oculus (fun r s' => (exists msg, r = Throw msg) /\ s' = s) s.
Proof.
  intros HL HR. open_sim s. cbn [ogre Ogre.materials] in HL, HR.
  unfold Oculus. wp_simpl. wp_run.
  all: try (apply bool_decide_eq_false in Heqb; contradiction).
  all: try (destruct HL as [? HL]; congruence).
  split; eauto.
Qed.

(** X12: Oculus() cannot be run twice: the first run leaves the material
    "Ogre/Compositor/Oculus/Right" behind, the engine refuses to clone
    under a name that is taken, and the second run ends in that exception
    before it has changed anything. *)
Theorem Oculus_not_repeatable (s : Sim) :
  fst (Oculus s) = Done tt ->
  exists msg,
    fst (Oculus (snd (Oculus s))) = Throw msg
    /\ snd (Oculus (snd (Oculus s))) = snd (Oculus s).
Proof.
  intros Hrun.
  destruct (proj1 (Oculus_completes s) Hrun) as ([cfg Hcfg] & _).
  destruct (Oculus_done s cfg Hcfg Hrun)
    as (camL & camR & ps & _ & _ & _ & _ & _ & HL & HR).
  assert (H1 : is_Some (Ogre.materials (ogre (snd (Oculus s)))
                          !! "Ogre/Compositor/Oculus")) by eauto.
  assert (H2 : is_Some (Ogre.materials (ogre (snd (Oculus s)))
                          !! "Ogre/Compositor/Oculus/Right")) by eauto.
  destruct (Oculus_right_exists (snd (Oculus s)) H1 H2) as ([msg Hm] & Hs).
  exists msg. split; assumption.
Qed.

(** [Oculus()] without the material "Ogre/Compositor/Oculus". *)
Lemma Oculus_no_material (s : Sim) :
  Ogre.materials (ogre s) !! "Ogre/Compositor/Oculus" = None ->
  Oculus s = (Fault p_matLeft, s).
Proof.
  intros H. open_sim s. cbn [ogre Ogre.materials] in H.
  match goal with
  | |- Oculus ?s = _ =>
      enough (wp Oculus (fun r s' => (r, s') = (Fault p_matLeft, s)) s) as E
  end.
  { unfold wp in E. rewrite <- E. apply surjective_pairing. }
  unfold Oculus. wp_simpl. wp_run.
  all: congruence.
Qed.

(** X13: without the material "Ogre/Compositor/Oculus" the handle that
    getByName returns is null, and Oculus() stops on it at once, with
    nothing changed. *)
Theorem Oculus_without_material (s : Sim) :
  Ogre.materials (ogre s) !! "Ogre/Compositor/Oculus" = None ->
  fst (Oculus s) = Fault p_matLeft /\ snd (Oculus s) = s.
Proof. intros H. rewrite (Oculus_no_material s H). split; reflexivity. Qed.

(** [Oculus()] without the compositor "OculusRight". *)
Lemma Oculus_no_right_compositor (s : Sim) (cfg : StereoConfig)
    (ps : gmap string Ogre.GpuConstant) :
  stereoConfig (self s) = Some cfg ->
  Ogre.materials (ogre s) !! "Ogre/Compositor/Oculus" = Some ps ->
  Ogre.materials (ogre s) !! "Ogre/Compositor/Oculus/Right" = None ->
  Ogre.compositorDefs (ogre s) !! "OculusRight" = None ->
  wp Oculus
     (fun r s' =>
        r = Fault p_comp
        /\ self s'
           = with_trace (trace (self s)
                         ++ [took warp_from_config; took chrom_from_config])
               (self s)
        /\ Ogre.compositorDefs (ogre s') = Ogre.compositorDefs (ogre s)
        /\ Ogre.materials (ogre s') !! "Ogre/Compositor/Oculus"
           = Some (warp_constants cfg
                     (F32.add F32.half
                        (F32.div (GetProjectionCenterOffset cfg) F32.two)) ps)
        /\ Ogre.materials (ogre s') !! "Ogre/Compositor/Oculus/Right"
           = Some (warp_constants cfg
                     (F32.sub F32.half
                        (F32.div (GetProjectionCenterOffset cfg) F32.two)) ps)) s.
Proof.
  intros Hcfg HL HR HC. open_sim s.
  cbn [ogre self Ogre.materials Ogre.compositorDefs stereoConfig]
    in Hcfg, HL, HR, HC. subst.
  unfold Oculus. wp_simpl. wp_run.
  all: try congruence.
  all: try (apply bool_decide_eq_true in Heqb; destruct Heqb; congruence).
  repeat match goal with |- _ /\ _ => split end; try reflexivity.
  - rewrite <- !app_assoc. reflexivity.
  - map_lookup.
    match goal with H : _ !! _ = Some _ |- _ => rewrite H end.
    injection HL as <-. reflexivity.
  - map_lookup.
    match goal with H : _ !! _ = Some _ |- _ => rewrite H end.
    injection HL as <-. reflexivity.
Qed.

(** [Oculus()] without the compositor "OculusLeft". *)
Lemma Oculus_no_left_compositor (s : Sim) (cfg : StereoConfig)
    (ps : gmap string Ogre.GpuConstant) (camL : Ogre.Camera) :
  stereoConfig (self s) = Some cfg ->
  Ogre.materials (ogre s) !! "Ogre/Compositor/Oculus" = Some ps ->
  Ogre.materials (ogre s) !! "Ogre/Compositor/Oculus/Right" = None ->
  is_Some (Ogre.compositorDefs (ogre s) !! "OculusRight") ->
  Ogre.compositorDefs (ogre s) !! "OculusLeft" = None ->
  camera (base (self s)) = Some camL ->
  wp Oculus
     (fun r s' =>
        r = Fault (p_compositors 0)
        /\ trace (self s')
           = trace (self s)
             ++ [took warp_from_config; took chrom_from_config;
                 took (eye_from_config 0);
                 gzerr ("Invalid compositor" +:+ nl)]
        /\ camera (base (self s')) = Some (eye_camera cfg (-1) camL)
        /\ rightCamera (self s') = rightCamera (self s)
        /\ compositors (self s') = (None, snd (compositors (self s)))) s.
Proof.
  intros Hcfg HL HR [cd HC] HC' Hcam. open_sim s.
  cbn [ogre self base camera Ogre.materials Ogre.compositorDefs stereoConfig]
    in Hcfg, HL, HR, HC, HC', Hcam. subst.
  unfold Oculus. wp_simpl. wp_run.
  all: try congruence.
  all: try (apply bool_decide_eq_true in Heqb; destruct Heqb; congruence).
  all: try solve [exfalso; clash].
  repeat match goal with |- _ /\ _ => split end;
    rewrite <- ?app_assoc; reflexivity.
Qed.

(** X14: a compositor that is not registered stops Oculus() on a null
    pointer, with the work before it already done.  Without "OculusRight"
    it stops before the loop: the constants of both materials are set,
    no camera is touched.  Without "OculusLeft" it stops in the first
    turn of the loop, after the message "Invalid compositor": the left
    camera is configured, the right one is not. *)
Theorem Oculus_without_compositor (s : Sim) (cfg : StereoConfig)
    (ps : gmap string Ogre.GpuConstant) :
  stereoConfig (self s) = Some cfg ->
  Ogre.materials (ogre s) !! "Ogre/Compositor/Oculus" = Some ps ->
  Ogre.materials (ogre s) !! "Ogre/Compositor/Oculus/Right" = None ->
  (Ogre.compositorDefs (ogre s) !! "OculusRight" = None ->
   fst (Oculus s) = Fault p_comp
   /\ self (snd (Oculus s))
      = with_trace (trace (self s)
                    ++ [took warp_from_config; took chrom_from_config])
          (self s)
   /\ lens (snd (Oculus s)) "Ogre/Compositor/Oculus"
      = Some (Ogre.GpuReal
                (F32.add F32.half
                   (F32.div (GetProjectionCenterOffset cfg) F32.two)))
   /\ lens (snd (Oculus s)) "Ogre/Compositor/Oculus/Right"
      = Some (Ogre.GpuReal
                (F32.sub F32.half
                   (F32.div (GetProjectionCenterOffset cfg) F32.two))))
  /\ (forall camL,
        is_Some (Ogre.compositorDefs (ogre s) !! "OculusRight") ->
        Ogre.compositorDefs (ogre s) !! "OculusLeft" = None ->
        camera (base (self s)) = Some camL ->
        fst (Oculus s) = Fault (p_compositors 0)
        /\ last (trace (self (snd (Oculus s))))
           = Some (gzerr ("Invalid compositor" +:+ nl))
        /\ camera (base (self (snd (Oculus s))))
           = Some (eye_camera cfg (-1) camL)
        /\ rightCamera (self (snd (Oculus s))) = rightCamera (self s)
        /\ compositors (self (snd (Oculus s)))
           = (None, snd (compositors (self s)))).
Proof.
  intros Hcfg HL HR. split.
  - intros HC.
    destruct (Oculus_no_right_compositor s cfg ps Hcfg HL HR HC)
      as (H1 & H2 & _ & H4 & H5).
    split; [exact H1 | split; [exact H2 | ]].
    unfold lens. rewrite H4, H5. unfold warp_constants. cbn [mbind option_bind].
    split; apply lookup_insert_eq.
  - intros camL HC HC' Hcam.
    destruct (Oculus_no_left_compositor s cfg ps camL Hcfg HL HR HC HC' Hcam)
      as (H1 & H2 & H3 & H4 & H5).
    split; [exact H1 | ]. split; [ | split; [exact H3 | split; assumption]].
    rewrite H2, last_app. reflexivity.
Qed.

End Stages.

(** ** The window: [Resize] and [SetRenderTarget] *)

(** Name the parts of a world. *)
Ltac open_world w :=
  let s := fresh "s" in let tg := fresh "tg" in let fb := fresh "fb" in
  let ini := fresh "ini" in let bg := fresh "bg" in let vis := fresh "vis" in
  let ans := fresh "ans" in let sts := fresh "sts" in let ast := fresh "ast" in
  let pat := fresh "pat" in
  destruct w as [s tg fb ini bg vis ans sts ast pat]; open_sim s.

(** Run the statements of a method on a world whose parts are named. *)
Ltac world_simpl :=
  cbv beta iota zeta delta
      [sim renderTarget saveFrameBuffer initialized backgroundColor visuals
       animations animationStates animState prevAnimTime
       with_sim with_renderTarget with_saveFrameBuffer with_initialized
       with_animations with_animationStates with_animState with_prevAnimTime
       base_of set_base with_rightViewport
       mbind M_bind mret M_ret modify read get deref gzthrow emit
       on_target on_sim on_self when is_null
       self ogre base rightCamera rightViewport trace
       with_base with_trace viewport sceneNode
       hasAnimation destroyAnimation createAnimation createAnimationState
       on_animation on_animState
       Render.addViewport Render.viewports fst snd].

Section Window.
Context `{sdk : OVR} `{fr : Frustum} `{cb : CameraBase}.
Context `{ml : MathLib} `{cv : CameraViews}.


Lemma halves_cover (v : Render.ViewportState) :
  covers (left_half v) 0 (1 # 2) /\ covers (right_half v) (1 # 2) 1.
Proof. split; repeat split; vm_compute; reflexivity. Qed.








(** [SetRenderTarget] up to its call of [Oculus()]. *)
Lemma SetRenderTarget_run (_target : Render.Target) (w : World)
    (v : Ogre.Viewport) :
  Render.viewports (fst (Camera_SetRenderTarget _target (base_of w))) !! 1
  = None ->
  viewport (snd (Camera_SetRenderTarget _target (base_of w))) = Some v ->
  SetRenderTarget _target w = on_sim Oculus (before_Oculus _target w v).
Proof.
  unfold before_Oculus, SetRenderTarget. open_world w.
  set (O := on_sim Oculus). world_simpl.
  destruct (Camera_SetRenderTarget _ _) as [[t1] b1]. open_base b1.
  world_simpl. intros Hz Hv. subst.
  rewrite bool_decide_eq_false_2 by (rewrite Hz; apply is_Some_None).
  reflexivity.
Qed.

Lemma SetRenderTarget_split (_target : Render.Target) (w : World)
    (v : Ogre.Viewport) :
  Render.viewports (fst (Camera_SetRenderTarget _target (base_of w))) !! 1
  = None ->
  viewport (snd (Camera_SetRenderTarget _target (base_of w))) = Some v ->
  SetRenderTarget _target w
  = (fst (Oculus (sim (before_Oculus _target w v))),
     with_sim (snd (Oculus (sim (before_Oculus _target w v))))
       (before_Oculus _target w v)).
Proof.
  intros Hz Hv. rewrite (SetRenderTarget_run _target w v Hz Hv).
  unfold on_sim. destruct (Oculus _). reflexivity.
Qed.

(** The world before [Oculus()], part by part. *)
Lemma before_Oculus_parts (_target : Render.Target) (w : World)
    (v : Ogre.Viewport) :
  viewport (snd (Camera_SetRenderTarget _target (base_of w))) = Some v ->
  let n := default "" (Ogre.cam_name <$> rightCamera (self (sim w))) in
  let bO := before_Oculus _target w v in
  initialized bO = true
  /\ ogre (sim bO) = ogre (sim w)
  /\ rightCamera (self (sim bO)) = rightCamera (self (sim w))
  /\ rightViewport (self (sim bO)) = Some (Ogre.Build_Viewport n)
  /\ viewport (base (self (sim bO))) = Some v
  /\ stereoConfig (self (sim bO)) = stereoConfig (self (sim w))
  /\ saveFrameBuffer bO = saveFrameBuffer w.
Proof.
  unfold before_Oculus. open_world w. world_simpl.
  destruct (Camera_SetRenderTarget _ _) as [[t1] b1]. open_base b1.
  world_simpl. intros Hv. subst. repeat split; reflexivity.
Qed.




(** [SetRenderTarget] on a target whose Z-order 1 is taken, and with a
    base class that leaves no viewport. *)
Lemma SetRenderTarget_taken (_target : Render.Target) (w : World) :
  is_Some (Render.viewports
             (fst (Camera_SetRenderTarget _target (base_of w))) !! 1) ->
  exists msg,
    SetRenderTarget _target w
    = (Throw msg,
       with_renderTarget (fst (Camera_SetRenderTarget _target (base_of w)))
         (set_base (snd (Camera_SetRenderTarget _target (base_of w))) w)).
Proof.
  unfold SetRenderTarget. open_world w.
  set (O := on_sim Oculus). world_simpl.
  destruct (Camera_SetRenderTarget _ _) as [[t1] b1]. world_simpl.
  intros Hz. rewrite bool_decide_eq_true_2 by exact Hz.
  eexists. reflexivity.
Qed.

Lemma SetRenderTarget_no_viewport (_target : Render.Target) (w : World) :
  Render.viewports (fst (Camera_SetRenderTarget _target (base_of w))) !! 1
  = None ->
  viewport (snd (Camera_SetRenderTarget _target (base_of w))) = None ->
  fst (SetRenderTarget _target w) = Fault p_viewport
  /\ initialized (snd (SetRenderTarget _target w)) = initialized w
  /\ is_Some (rightViewport (self (sim (snd (SetRenderTarget _target w)))))
  /\ is_Some (Render.viewports
                (renderTarget (snd (SetRenderTarget _target w))) !! 1)
  /\ ogre (sim (snd (SetRenderTarget _target w))) = ogre (sim w).
Proof.
  unfold SetRenderTarget. open_world w.
  set (O := on_sim Oculus). world_simpl.
  destruct (Camera_SetRenderTarget _ _) as [[t1] b1]. open_base b1.
  world_simpl. intros Hz Hv. subst.
  rewrite bool_decide_eq_false_2 by (rewrite Hz; apply is_Some_None).
  world_simpl. unfold Render.on_viewport. world_simpl.
  repeat split; try (eexists; reflexivity).
  rewrite !lookup_fmap, lookup_insert_eq. eexists; reflexivity.
Qed.

(** X18: how SetRenderTarget() fails.  On a target whose Z-order 1 is
    taken the engine refuses the right viewport: the exception leaves the
    camera not initialized and the engine untouched.  When the base class
    has left no viewport it stops on the null pointer, the right viewport
    created and the camera still not marked.  From there on the camera is
    marked initialized before Oculus() runs, and stays so when Oculus()
    fails, as it does without its material. *)
Theorem SetRenderTarget_failures (_target : Render.Target) (w : World) :
  let tb := Camera_SetRenderTarget _target (base_of w) in
  let w' := snd (SetRenderTarget _target w) in
  (is_Some (Render.viewports (fst tb) !! 1) ->
   (exists msg, fst (SetRenderTarget _target w) = Throw msg)
   /\ initialized w' = initialized w
   /\ rightViewport (self (sim w')) = rightViewport (self (sim w))
   /\ ogre (sim w') = ogre (sim w)
   /\ renderTarget w' = fst tb)
  /\ (Render.viewports (fst tb) !! 1 = None -> viewport (snd tb) = None ->
      fst (SetRenderTarget _target w) = Fault p_viewport
      /\ initialized w' = initialized w
      /\ is_Some (rightViewport (self (sim w')))
      /\ is_Some (Render.viewports (renderTarget w') !! 1)
      /\ ogre (sim w') = ogre (sim w))
  /\ (forall v, Render.viewports (fst tb) !! 1 = None ->
        viewport (snd tb) = Some v ->
        initialized w' = true
        /\ (Ogre.materials (ogre (sim w)) !! "Ogre/Compositor/Oculus" = None ->
            fst (SetRenderTarget _target w) = Fault p_matLeft)).
Proof.
  cbv zeta. split; [ | split].
  - intros Hz. destruct (SetRenderTarget_taken _target w Hz) as [msg ->].
    cbn [fst snd]. split; [eauto | ].
    open_world w. world_simpl.
    destruct (Camera_SetRenderTarget _ _) as [[t1] b1]. world_simpl.
    repeat split; reflexivity.
  - exact (SetRenderTarget_no_viewport _target w).
  - intros v Hz Hv. rewrite (SetRenderTarget_split _target w v Hz Hv).
    cbn [fst snd].
    destruct (before_Oculus_parts _target w v Hv) as (Hini & Ho & _).
    split.
    + destruct (before_Oculus _target w v); exact Hini.
    + intros Hm. rewrite Oculus_no_material by (rewrite Ho; exact Hm).
      reflexivity.
Qed.


End Window.

(** ** Following a visual, and the members that do nothing *)

(** The members of a world, without running anything. *)
Ltac world_open :=
  cbv beta iota zeta delta
      [sim renderTarget saveFrameBuffer initialized backgroundColor visuals
       animations animationStates animState prevAnimTime
       with_sim with_renderTarget with_saveFrameBuffer with_initialized
       with_animations with_animationStates with_animState with_prevAnimTime
       base_of set_base with_rightViewport].

(** One statement of a method on a world forward. *)
Ltac world_step :=
  first
    [ lazymatch goal with
      | |- wp (hasAnimation _) _ _ => unfold hasAnimation
      | |- wp (destroyAnimation _) _ _ => unfold destroyAnimation
      | |- wp (createAnimation _ _) _ _ => unfold createAnimation
      | |- wp (createAnimationState _) _ _ => unfold createAnimationState
      | |- wp (on_animation _ _) _ _ => unfold on_animation
      | |- wp (on_animState _) _ _ => unfold on_animState
      | |- wp (when ?b _) _ _ => destruct b eqn:?
      end
    | wp_step ];
  world_open; wp_simpl.

Section Following.
Context `{sdk : OVR} `{fr : Frustum} `{cb : CameraBase}.
Context `{ml : MathLib} `{cv : CameraViews}.

(** Loose ends of a run: tests on tables whose answer is known. *)
Ltac settle :=
  repeat match goal with
         | H : bool_decide _ = true |- _ => apply bool_decide_eq_true in H
         | H : bool_decide _ = false |- _ => apply bool_decide_eq_false in H
         | H : context [delete ?k _ !! ?k] |- _ => rewrite lookup_delete_eq in H
         | H : context [alter _ ?k _ !! ?k] |- _ => rewrite lookup_alter_eq in H
         | H : context [<[?k:=_]> _ !! ?k] |- _ => rewrite lookup_insert_eq in H
         | H : is_Some None |- _ => destruct H as [? H]; discriminate H
         | H : ~ is_Some (Some _) |- _ => exfalso; apply H; eexists; reflexivity
         | H : ~ is_Some ?o |- _ => apply eq_None_not_Some in H
         | H : fmap _ _ = None |- _ => discriminate H
         | H : Some _ = None |- _ => discriminate H
         | H : None = Some _ |- _ => discriminate H
         end.

(** A run of [MoveToVisual] on a visual. *)
Lemma MoveToVisual_run (w : World) (v : Visual) (wall : Z)
    (node : Ogre.SceneNode) :
  sceneNode (base_of w) = Some node ->
  (animations w !! "cameratrack" = None ->
   animationStates w !! "cameratrack" = None) ->
  wp (MoveToVisual (Some v) wall)
     (fun r w' =>
        r = Done tt
        /\ sim w' = sim w /\ renderTarget w' = renderTarget w
        /\ animState w' = Some "cameratrack"
        /\ prevAnimTime w' = wall
        /\ animationStates w' !! "cameratrack"
           = Some {| Anim.st_timePosition := F32.of_int 0;
                     Anim.st_length := F32.of_double (F64.dec 5 10);
                     Anim.st_enabled := true; Anim.st_loop := false |}
        /\ (forall n, n <> "cameratrack" ->
                      animations w' !! n = animations w !! n
                      /\ animationStates w' !! n = animationStates w !! n)
        /\ exists a e yawAngle pitchAngle,
             let yaw := Quaternion_angle_axis yawAngle
                          (Build_Vector3 (F32.of_int 0) (F32.of_int 0)
                                         (F32.of_int 1)) in
             let pitch := Quaternion_angle_axis pitchAngle
                            (Build_Vector3 (F32.of_int 0) (F32.of_int 1)
                                           (F32.of_int 0)) in
             animations w' !! "cameratrack" = Some a
             /\ Anim.an_length a = F32.of_double (F64.dec 5 10)
             /\ Anim.an_mode a = Anim.IM_SPLINE
             /\ Anim.an_tracks a !! 0
                = Some {| Anim.nt_node := Some node;
                          Anim.nt_keys :=
                            [ {| Anim.kf_time := F32.of_int 0;
                                 Anim.kf_translate :=
                                   to_Ogre
                                     (Vector3_Correct
                                        (pose_pos (Camera_GetWorldPose
                                                     (base_of w))));
                                 Anim.kf_rotation := getOrientation node |};
                              {| Anim.kf_time := F32.of_double (F64.dec 5 10);
                                 Anim.kf_translate := e;
                                 Anim.kf_rotation := yaw |} ] |}
             /\ Anim.an_tracks a !! 1
                = Some {| Anim.nt_node := Some node;
                          Anim.nt_keys :=
                            [ {| Anim.kf_time := F32.of_int 0;
                                 Anim.kf_translate :=
                                   Build_Vector3 F32.zero F32.zero F32.zero;
                                 Anim.kf_rotation := getOrientation node |};
                              {| Anim.kf_time := F32.of_double (F64.dec 5 10);
                                 Anim.kf_translate :=
                                   Build_Vector3 F32.zero F32.zero F32.zero;
                                 Anim.kf_rotation := pitch |} ] |}
             /\ forall h, h <> 0 -> h <> 1 -> Anim.an_tracks a !! h = None) w.
Proof.
  intros Hn Hst. open_world w. revert Hn Hst. world_open. wp_simpl.
  intros -> Hst. unfold MoveToVisual. repeat world_step.
  all: settle.
  all: try (specialize (Hst ltac:(assumption))).
  all: try congruence.
  all: cbn [fmap option_fmap option_map] in *.
  all: match goal with H : Some _ = Some _ |- _ => injection H as <- end.
  all: split; [reflexivity | ].
  all: split; [reflexivity | ].
  all: split; [reflexivity | ].
  all: split; [reflexivity | ].
  all: split; [reflexivity | ].
  all: split; [map_lookup; reflexivity | ].
  all: split;
    [ intros k Hk; map_lookup; rewrite ?lookup_delete_ne by done; split;
      reflexivity | ].
  all: eexists _, _, _, _; cbv zeta.
  all: split; [map_lookup; reflexivity | ].
  all: split; [reflexivity | ].
  all: split; [reflexivity | ].
  all: cbn [Anim.an_tracks Anim.on_key Anim.createNodeKeyFrame
            Anim.createNodeTrack Anim.setInterpolationMode].
  all: split; [map_lookup; cbn; reflexivity | ].
  all: split; [map_lookup; cbn; reflexivity | ].
  all: intros k H0 H1; map_lookup; reflexivity.
Qed.


(** X20: MoveToVisual() by name looks the visual up in the scene: for a
    name the scene does not know it writes "MoveTo Unknown visual[name]"
    to the error log and does nothing else, for a known one it is
    MoveToVisual() of that visual; and MoveToVisual() of a null visual
    does nothing. *)
Theorem MoveToVisual_unknown_visual (w : World) (_name : string) (wall : Z) :
  (visuals w !! _name = None ->
   MoveToVisual_name _name wall w
   = (Done tt,
      with_sim
        (Build_Sim (ogre (sim w))
           (with_trace
              (trace (self (sim w))
               ++ [gzerr ("MoveTo Unknown visual[" +:+ _name +:+ "]" +:+ nl)])
              (self (sim w)))) w))
  /\ (forall v, visuals w !! _name = Some v ->
        MoveToVisual_name _name wall w = MoveToVisual (Some v) wall w)
  /\ MoveToVisual None wall w = (Done tt, w).
Proof.
  split; [ | split].
  - intros H. unfold MoveToVisual_name. open_world w. world_simpl.
    revert H. world_simpl. intros ->. reflexivity.
  - intros v H. unfold MoveToVisual_name.
    unfold mbind, M_bind, read. rewrite H. reflexivity.
  - reflexivity.
Qed.

(** [MoveToVisual] on a visual, without a scene node. *)
Lemma MoveToVisual_no_node (w : World) (v : Visual) (wall : Z) :
  sceneNode (base_of w) = None ->
  wp (MoveToVisual (Some v) wall)
     (fun r w' =>
        r = Fault p_sceneNode
        /\ sim w' = sim w
        /\ animState w' = animState w
        /\ prevAnimTime w' = prevAnimTime w
        /\ (forall n, n <> "cameratrack" ->
                      animations w' !! n = animations w !! n
                      /\ animationStates w' !! n = animationStates w !! n)
        /\ exists a, animations w' !! "cameratrack" = Some a
             /\ Anim.an_tracks a !! 0
                = Some {| Anim.nt_node := None;
                          Anim.nt_keys :=
                            [ {| Anim.kf_time := F32.of_int 0;
                                 Anim.kf_translate :=
                                   to_Ogre
                                     (Vector3_Correct
                                        (pose_pos (Camera_GetWorldPose
                                                     (base_of w))));
                                 Anim.kf_rotation :=
                                   Build_Quaternion F32.one F32.zero F32.zero
                                                    F32.zero |} ] |}
             /\ Anim.an_tracks a !! 1
                = Some {| Anim.nt_node := None; Anim.nt_keys := [] |}) w.
Proof.
  intros Hn. open_world w. revert Hn. world_open. wp_simpl.
  intros ->. unfold MoveToVisual. repeat world_step.
  all: settle.
  all: try congruence.
  all: split; [reflexivity | ].
  all: split; [reflexivity | ].
  all: split; [reflexivity | ].
  all: split; [reflexivity | ].
  all: split;
    [ intros k Hk; map_lookup; rewrite ?lookup_delete_ne by done; split;
      reflexivity | ].
  all: eexists.
  all: split; [map_lookup; reflexivity | ].
  all: cbn [Anim.an_tracks Anim.on_key Anim.createNodeKeyFrame
            Anim.createNodeTrack Anim.setInterpolationMode].
  all: split; map_lookup; cbn; reflexivity.
Qed.

(** X21: without a scene node MoveToVisual() of a visual stops on the null
    pointer when it asks the node for its orientation: by then it has
    replaced the animation "cameratrack" by one with two tracks on no
    node and a single key frame; the members of the camera animation and
    every other animation and state are as before. *)
Theorem MoveToVisual_without_scene_node (w : World) (v : Visual) (wall : Z) :
  sceneNode (base_of w) = None ->
  let w' := snd (MoveToVisual (Some v) wall w) in
  fst (MoveToVisual (Some v) wall w) = Fault p_sceneNode
  /\ sim w' = sim w
  /\ animState w' = animState w
  /\ prevAnimTime w' = prevAnimTime w
  /\ (forall n, n <> "cameratrack" ->
                animations w' !! n = animations w !! n
                /\ animationStates w' !! n = animationStates w !! n)
  /\ exists a k,
       animations w' !! "cameratrack" = Some a
       /\ Anim.an_tracks a !! 0
          = Some {| Anim.nt_node := None; Anim.nt_keys := [k] |}
       /\ Anim.an_tracks a !! 1
          = Some {| Anim.nt_node := None; Anim.nt_keys := [] |}
       /\ Anim.kf_translate k
          = to_Ogre (Vector3_Correct
                       (pose_pos (Camera_GetWorldPose (base_of w)))).
Proof.
  intros Hn w'. subst w'.
  destruct (MoveToVisual_no_node w v wall Hn)
    as (Hr & Hs & Has & Hp & Hother & a & Ha & Ht0 & Ht1).
  repeat match goal with |- _ /\ _ => split end; try assumption.
  eexists _, _. split; [exact Ha | ]. split; [exact Ht0 | ].
  split; [exact Ht1 | reflexivity].
Qed.

(** X22: MoveToVisual() of a visual always ends with one animation
    "cameratrack" in the scene, replacing the one of an earlier call: half
    a second long, spline interpolated, with two tracks on the scene node
    of the camera, each with a key frame at 0 and one at 0.5.  The first
    track starts at the corrected position of the camera with the
    orientation of the node and ends turned about the z axis; the second
    starts with the same orientation and ends turned about the y axis.
    Its state is enabled, does not loop and stands at 0; the wall time is
    kept; nothing else in the scene changes, and the call can be
    repeated. *)
Theorem MoveToVisual_animation (w : World) (v : Visual) (wall : Z)
    (node : Ogre.SceneNode) :
  sceneNode (base_of w) = Some node ->
  (animations w !! "cameratrack" = None ->
   animationStates w !! "cameratrack" = None) ->
  let w' := snd (MoveToVisual (Some v) wall w) in
  fst (MoveToVisual (Some v) wall w) = Done tt
  /\ sim w' = sim w /\ renderTarget w' = renderTarget w
  /\ animState w' = Some "cameratrack"
  /\ prevAnimTime w' = wall
  /\ (exists st, animationStates w' !! "cameratrack" = Some st
                 /\ Anim.st_enabled st = true /\ Anim.st_loop st = false
                 /\ (SF2Q (Anim.st_timePosition st) == 0)%Q
                 /\ (SF2Q (Anim.st_length st) == 1 # 2)%Q)
  /\ (forall n, n <> "cameratrack" ->
                animations w' !! n = animations w !! n
                /\ animationStates w' !! n = animationStates w !! n)
  /\ (exists a e yawAngle pitchAngle k0 k1 k2 k3,
        animations w' !! "cameratrack" = Some a
        /\ (SF2Q (Anim.an_length a) == 1 # 2)%Q
        /\ Anim.an_mode a = Anim.IM_SPLINE
        /\ Anim.an_tracks a !! 0
           = Some {| Anim.nt_node := Some node; Anim.nt_keys := [k0; k1] |}
        /\ Anim.an_tracks a !! 1
           = Some {| Anim.nt_node := Some node; Anim.nt_keys := [k2; k3] |}
        /\ (forall h, h <> 0 -> h <> 1 -> Anim.an_tracks a !! h = None)
        /\ k0 = {| Anim.kf_time := F32.of_int 0;
                   Anim.kf_translate :=
                     to_Ogre (Vector3_Correct
                                (pose_pos (Camera_GetWorldPose (base_of w))));
                   Anim.kf_rotation := getOrientation node |}
        /\ k1 = {| Anim.kf_time := F32.of_double (F64.dec 5 10);
                   Anim.kf_translate := e;
                   Anim.kf_rotation :=
                     Quaternion_angle_axis yawAngle
                       (Build_Vector3 (F32.of_int 0) (F32.of_int 0)
                                      (F32.of_int 1)) |}
        /\ k2 = {| Anim.kf_time := F32.of_int 0;
                   Anim.kf_translate := Build_Vector3 F32.zero F32.zero F32.zero;
                   Anim.kf_rotation := getOrientation node |}
        /\ k3 = {| Anim.kf_time := F32.of_double (F64.dec 5 10);
                   Anim.kf_translate := Build_Vector3 F32.zero F32.zero F32.zero;
                   Anim.kf_rotation :=
                     Quaternion_angle_axis pitchAngle
                       (Build_Vector3 (F32.of_int 0) (F32.of_int 1)
                                      (F32.of_int 0)) |}
        /\ (SF2Q (Anim.kf_time k1) == 1 # 2)%Q
        /\ (SF2Q (Anim.kf_time k3) == 1 # 2)%Q)
  /\ (forall v2 wall2, fst (MoveToVisual (Some v2) wall2 w') = Done tt).
Proof.
  intros Hn Hst w'. subst w'.
  destruct (MoveToVisual_run w v wall node Hn Hst)
    as (Hr & Hs & Ht & Has & Hp & Hst' & Hother & a & e & ya & pa & Ha & Hlen
        & Hmode & Ht0 & Ht1 & Hth).
  split; [exact Hr | split; [exact Hs | split; [exact Ht | ]]].
  split; [exact Has | split; [exact Hp | ]].
  split.
  { eexists. split; [exact Hst' | ]. repeat split; vm_compute; reflexivity. }
  split; [exact Hother | ].
  split.
  { exists a, e, ya, pa. eexists _, _, _, _.
    split; [exact Ha | ]. split; [rewrite Hlen; vm_compute; reflexivity | ].
    split; [exact Hmode | ]. split; [exact Ht0 | ]. split; [exact Ht1 | ].
    split; [exact Hth | ].
    repeat split; vm_compute; reflexivity. }
  intros v2 wall2.
  assert (Hn' : sceneNode (base_of (snd (MoveToVisual (Some v) wall w)))
                = Some node) by (unfold base_of in *; rewrite Hs; exact Hn).
  assert (Hst2 : animations (snd (MoveToVisual (Some v) wall w))
                   !! "cameratrack" = None ->
                 animationStates (snd (MoveToVisual (Some v) wall w))
                   !! "cameratrack" = None) by (rewrite Ha; discriminate).
  exact (proj1 (MoveToVisual_run _ v2 wall2 node Hn' Hst2)).
Qed.



End Following.

(** ** The further facts on the sample adapter, window and scene *)

#[local] Existing Instance Stage.math.
#[local] Existing Instance Stage.camera_views.

Lemma OnControl_counts_resets_witness :
  sensorFusion Sample.constructed = Some Sample.sample_fusion
  /\ fst (deliver [Sample.reset_all_message; Stage.pause_message;
                   Sample.reset_all_message] Sample.constructed) = Done tt.
Proof.
  assert (H : sensorFusion Sample.constructed = Some Sample.sample_fusion)
    by (vm_compute; reflexivity).
  split; [exact H | ].
  destruct (OnControl_counts_resets
              [Sample.reset_all_message; Stage.pause_message;
               Sample.reset_all_message]
              Sample.constructed Sample.sample_fusion H) as (Hd & _).
  exact Hd.
Defined.

Lemma methods_without_sensor_fusion_witness :
  sensorFusion (fresh "user") = None
  /\ ResetSensor (fresh "user") = (Fault p_sensorFusion, fresh "user").
Proof.
  assert (H : sensorFusion (fresh "user") = None) by reflexivity.
  split; [exact H | ].
  destruct (methods_without_sensor_fusion (fresh "user") H) as (_ & Hr & _).
  exact Hr.
Defined.


Lemma constructor_failure_messages_witness :
  DeviceManager_Create Stage.no_manager = None
  /\ OculusCamera_OculusCamera "user" Stage.no_manager
     = Throw ("Oculus: Failed to create Device Manager" +:+ nl)
  /\ DeviceManager_Create Stage.no_config = Some Stage.manager
  /\ new_StereoConfig Stage.no_config = None
  /\ OculusCamera_OculusCamera "user" Stage.no_config
     = Throw ("Oculus: Failed to create StereoConfig" +:+ nl).
Proof.
  assert (H1 : DeviceManager_Create Stage.no_manager = None) by reflexivity.
  assert (H2 : DeviceManager_Create Stage.no_config = Some Stage.manager)
    by reflexivity.
  assert (H3 : new_StereoConfig Stage.no_config = None) by reflexivity.
  split; [exact H1 | ].
  split; [exact (proj1 (constructor_failure_messages "user" Stage.no_manager)
                   H1) | ].
  split; [exact H2 | split; [exact H3 | ]].
  exact (proj1 (proj2 (constructor_failure_messages "user" Stage.no_config))
           Stage.manager H2 H3).
Defined.

Lemma constructor_without_sensor_fusion_witness :
  DeviceManager_Create Stage.no_fusion = Some Stage.manager
  /\ new_StereoConfig Stage.no_fusion = Some Sample.config
  /\ obtained_sensor Stage.manager = Some tt
  /\ new_SensorFusion Stage.no_fusion = None
  /\ exists c, OculusCamera_OculusCamera "user" Stage.no_fusion = Done c
               /\ sensorFusion c = None.
Proof.
  assert (H1 : DeviceManager_Create Stage.no_fusion = Some Stage.manager)
    by reflexivity.
  assert (H2 : new_StereoConfig Stage.no_fusion = Some Sample.config)
    by reflexivity.
  assert (H3 : obtained_sensor Stage.manager = Some tt) by reflexivity.
  assert (H4 : new_SensorFusion Stage.no_fusion = None) by reflexivity.
  split; [exact H1 | split; [exact H2 | split; [exact H3 | split; [exact H4 | ]]]].
  destruct (constructor_without_sensor_fusion "user" Stage.no_fusion
              Stage.manager Sample.config tt H1 H2 H3 H4)
    as (c & Hc & Hsf & _).
  exists c. split; assumption.
Defined.

Lemma centerOffset_read_before_HMDInfo_witness :
  OculusCamera_OculusCamera "user" Sample.env = Done Sample.constructed
  /\ exists cfg, new_StereoConfig Sample.env = Some cfg
                 /\ centerOffset Sample.constructed
                    = GetProjectionCenterOffset cfg.
Proof.
  assert (H : OculusCamera_OculusCamera "user" Sample.env
              = Done Sample.constructed) by (vm_compute; reflexivity).
  split; [exact H | ].
  destruct (centerOffset_read_before_HMDInfo "user" Sample.env
              Sample.constructed H) as (dm & cfg & _ & Hcfg & Hoff & _).
  exists cfg. split; assumption.
Defined.

Lemma device_handles_fixed_witness :
  OculusCamera_OculusCamera "user" Sample.env = Done Sample.constructed
  /\ later Sample.constructed (snd (Update Sample.constructed))
  /\ controlSub (snd (Update Sample.constructed))
     = controlSub Sample.constructed.
Proof.
  assert (H : OculusCamera_OculusCamera "user" Sample.env
              = Done Sample.constructed) by (vm_compute; reflexivity).
  assert (L : later Sample.constructed (snd (Update Sample.constructed)))
    by exact (later_Update _ _ (later_now _)).
  split; [exact H | split; [exact L | ]].
  destruct (device_handles_fixed "user" Sample.env Sample.constructed _ H L)
    as (dm & cfg & _ & _ & _ & _ & _ & _ & _ & Hsub & _).
  exact Hsub.
Defined.

Lemma Init_view_any_render_path_witness :
  Ogre.renderPathType
    (fst (Camera_Init (ogre (Build_Sim Sample.root Sample.constructed),
                       base (self (Build_Sim Sample.root Sample.constructed)))))
  = Ogre.FORWARD
  /\ fst (Init (Build_Sim Sample.root Sample.constructed)) = Done tt
  /\ hfov (base (self (snd (Init (Build_Sim Sample.root Sample.constructed)))))
     = GZ_DTOR 60.
Proof.
  assert (H1 : Ogre.renderPathType
                 (fst (Camera_Init
                         (ogre (Build_Sim Sample.root Sample.constructed),
                          base (self (Build_Sim Sample.root
                                        Sample.constructed)))))
               = Ogre.FORWARD) by (vm_compute; reflexivity).
  assert (H2 : fst (Init (Build_Sim Sample.root Sample.constructed)) = Done tt)
    by (vm_compute; reflexivity).
  split; [exact H1 | split; [exact H2 | ]].
  destruct (Init_view_any_render_path
              (Build_Sim Sample.root Sample.constructed) Ogre.FORWARD H1 H2)
    as (_ & Hf & _).
  exact Hf.
Defined.

Lemma Init_not_repeatable_witness :
  fst (Init (Build_Sim Sample.root Sample.constructed)) = Done tt
  /\ exists msg,
       fst (Init (snd (Init (Build_Sim Sample.root Sample.constructed))))
       = Throw msg.
Proof.
  assert (H1 : fst (Init (Build_Sim Sample.root Sample.constructed)) = Done tt)
    by (vm_compute; reflexivity).
  assert (H2 : Ogre.sceneCameras
                 (ogre (snd (Init (Build_Sim Sample.root Sample.constructed))))
               ⊆ Ogre.sceneCameras
                   (fst (Camera_Init
                           (ogre (snd (Init (Build_Sim Sample.root
                                               Sample.constructed))),
                            base (self (snd (Init (Build_Sim Sample.root
                                                     Sample.constructed))))))))
    by (apply (reflexive_eq (R := (⊆))); vm_compute; reflexivity).
  split; [exact H1 | ].
  destruct (Init_not_repeatable (Build_Sim Sample.root Sample.constructed)
              H1 H2) as (msg & Hm & _).
  exists msg. exact Hm.
Defined.

Lemma Oculus_materials_differ_in_lens_only_witness :
  stereoConfig (self Sample.initialised) = Some Sample.config
  /\ fst (Oculus Sample.initialised) = Done tt
  /\ exists psL psR,
       Ogre.materials (ogre (snd (Oculus Sample.initialised)))
         !! "Ogre/Compositor/Oculus" = Some psL
       /\ Ogre.materials (ogre (snd (Oculus Sample.initialised)))
            !! "Ogre/Compositor/Oculus/Right" = Some psR
       /\ psL !! "HmdWarpParam" = psR !! "HmdWarpParam".
Proof.
  assert (H1 : stereoConfig (self Sample.initialised) = Some Sample.config)
    by (vm_compute; reflexivity).
  assert (H2 : fst (Oculus Sample.initialised) = Done tt)
    by (vm_compute; reflexivity).
  split; [exact H1 | split; [exact H2 | ]].
  destruct (Oculus_materials_differ_in_lens_only Sample.initialised
              Sample.config H1 H2) as (psL & psR & HL & HR & Hk & _).
  exists psL, psR. split; [exact HL | split; [exact HR | ]].
  apply Hk. discriminate.
Defined.

Lemma Oculus_compositors_enabled_witness :
  stereoConfig (self Sample.initialised) = Some Sample.config
  /\ fst (Oculus Sample.initialised) = Done tt
  /\ Ogre.compositorDefs (ogre (snd (Oculus Sample.initialised)))
       !! "OculusRight"
     = Some {| Ogre.comp_material := "Ogre/Compositor/Oculus/Right" |}.
Proof.
  assert (H1 : stereoConfig (self Sample.initialised) = Some Sample.config)
    by (vm_compute; reflexivity).
  assert (H2 : fst (Oculus Sample.initialised) = Done tt)
    by (vm_compute; reflexivity).
  split; [exact H1 | split; [exact H2 | ]].
  destruct (Oculus_compositors_enabled Sample.initialised Sample.config H1 H2)
    as (vl & vr & _ & _ & _ & Hd & _).
  exact Hd.
Defined.

Lemma Oculus_not_repeatable_witness :
  fst (Oculus Sample.initialised) = Done tt
  /\ exists msg, fst (Oculus (snd (Oculus Sample.initialised))) = Throw msg.
Proof.
  assert (H : fst (Oculus Sample.initialised) = Done tt)
    by (vm_compute; reflexivity).
  split; [exact H | ].
  destruct (Oculus_not_repeatable Sample.initialised H) as (msg & Hm & _).
  exists msg. exact Hm.
Defined.

Lemma Oculus_without_material_witness :
  Ogre.materials (ogre (Build_Sim Stage.bare Sample.constructed))
    !! "Ogre/Compositor/Oculus" = None
  /\ fst (Oculus (Build_Sim Stage.bare Sample.constructed)) = Fault p_matLeft.
Proof.
  assert (H : Ogre.materials (ogre (Build_Sim Stage.bare Sample.constructed))
                !! "Ogre/Compositor/Oculus" = None)
    by (vm_compute; reflexivity).
  split; [exact H | ].
  exact (proj1 (Oculus_without_material
                  (Build_Sim Stage.bare Sample.constructed) H)).
Defined.

Lemma Oculus_without_compositor_witness :
  (let s := Stage.without "OculusRight" Sample.initialised in
   stereoConfig (self s) = Some Sample.config
   /\ Ogre.materials (ogre s) !! "Ogre/Compositor/Oculus" = Some ∅
   /\ Ogre.materials (ogre s) !! "Ogre/Compositor/Oculus/Right" = None
   /\ Ogre.compositorDefs (ogre s) !! "OculusRight" = None
   /\ fst (Oculus s) = Fault p_comp)
  /\ (let s := Stage.without "OculusLeft" Sample.initialised in
      is_Some (Ogre.compositorDefs (ogre s) !! "OculusRight")
      /\ Ogre.compositorDefs (ogre s) !! "OculusLeft" = None
      /\ fst (Oculus s) = Fault (p_compositors 0)).
Proof.
  cbv zeta. split.
  - assert (H1 : stereoConfig
                   (self (Stage.without "OculusRight" Sample.initialised))
                 = Some Sample.config) by (vm_compute; reflexivity).
    assert (H2 : Ogre.materials
                   (ogre (Stage.without "OculusRight" Sample.initialised))
                   !! "Ogre/Compositor/Oculus" = Some ∅)
      by (vm_compute; reflexivity).
    assert (H3 : Ogre.materials
                   (ogre (Stage.without "OculusRight" Sample.initialised))
                   !! "Ogre/Compositor/Oculus/Right" = None)
      by (vm_compute; reflexivity).
    assert (H4 : Ogre.compositorDefs
                   (ogre (Stage.without "OculusRight" Sample.initialised))
                   !! "OculusRight" = None) by (vm_compute; reflexivity).
    split; [exact H1 | split; [exact H2 | split; [exact H3 | ]]].
    split; [exact H4 | ].
    exact (proj1 (proj1 (Oculus_without_compositor _ _ _ H1 H2 H3) H4)).
  - assert (H1 : stereoConfig
                   (self (Stage.without "OculusLeft" Sample.initialised))
                 = Some Sample.config) by (vm_compute; reflexivity).
    assert (H2 : Ogre.materials
                   (ogre (Stage.without "OculusLeft" Sample.initialised))
                   !! "Ogre/Compositor/Oculus" = Some ∅)
      by (vm_compute; reflexivity).
    assert (H3 : Ogre.materials
                   (ogre (Stage.without "OculusLeft" Sample.initialised))
                   !! "Ogre/Compositor/Oculus/Right" = None)
      by (vm_compute; reflexivity).
    assert (H4 : is_Some
                   (Ogre.compositorDefs
                      (ogre (Stage.without "OculusLeft" Sample.initialised))
                      !! "OculusRight"))
      by (vm_compute; eexists; reflexivity).
    assert (H5 : Ogre.compositorDefs
                   (ogre (Stage.without "OculusLeft" Sample.initialised))
                   !! "OculusLeft" = None) by (vm_compute; reflexivity).
    assert (H6 : exists camL,
               camera (base (self (Stage.without "OculusLeft"
                                     Sample.initialised))) = Some camL)
      by (vm_compute; eexists; reflexivity).
    destruct H6 as [camL H6].
    split; [exact H4 | split; [exact H5 | ]].
    exact (proj1 (proj2 (Oculus_without_compositor _ _ _ H1 H2 H3)
                    camL H4 H5 H6)).
Defined.




Lemma SetRenderTarget_failures_witness :
  is_Some (Render.viewports
             (fst (Camera_SetRenderTarget Stage.taken (base_of Stage.ready)))
             !! 1)
  /\ (exists msg, fst (SetRenderTarget Stage.taken Stage.ready) = Throw msg)
  /\ initialized (snd (SetRenderTarget Stage.taken Stage.ready))
     = initialized Stage.ready.
Proof.
  assert (H : is_Some
                (Render.viewports
                   (fst (Camera_SetRenderTarget Stage.taken
                           (base_of Stage.ready))) !! 1))
    by (vm_compute; eexists; reflexivity).
  split; [exact H | ].
  destruct (proj1 (SetRenderTarget_failures Stage.taken Stage.ready) H)
    as (Hm & Hi & _).
  split; [exact Hm | exact Hi].
Defined.


Lemma MoveToVisual_unknown_visual_witness :
  visuals Stage.shown !! "ghost" = None
  /\ fst (MoveToVisual_name "ghost" 7 Stage.shown) = Done tt
  /\ visuals Stage.shown !! "box" = Some Stage.box
  /\ MoveToVisual_name "box" 7 Stage.shown
     = MoveToVisual (Some Stage.box) 7 Stage.shown.
Proof.
  assert (H1 : visuals Stage.shown !! "ghost" = None)
    by (vm_compute; reflexivity).
  assert (H2 : visuals Stage.shown !! "box" = Some Stage.box)
    by (vm_compute; reflexivity).
  split; [exact H1 | ].
  split.
  { rewrite (proj1 (MoveToVisual_unknown_visual Stage.shown "ghost" 7) H1).
    reflexivity. }
  split; [exact H2 | ].
  exact (proj1 (proj2 (MoveToVisual_unknown_visual Stage.shown "box" 7))
           Stage.box H2).
Defined.

Lemma MoveToVisual_animation_witness :
  sceneNode (base_of Stage.shown) = Some (Ogre.Build_SceneNode ["user"; "UserRight"])
  /\ (animations Stage.shown !! "cameratrack" = None ->
      animationStates Stage.shown !! "cameratrack" = None)
  /\ fst (MoveToVisual (Some Stage.box) 7 Stage.shown) = Done tt
  /\ prevAnimTime (snd (MoveToVisual (Some Stage.box) 7 Stage.shown)) = 7.
Proof.
  assert (H1 : sceneNode (base_of Stage.shown)
               = Some (Ogre.Build_SceneNode ["user"; "UserRight"]))
    by (vm_compute; reflexivity).
  assert (H2 : animations Stage.shown !! "cameratrack" = None ->
               animationStates Stage.shown !! "cameratrack" = None)
    by (intros _; vm_compute; reflexivity).
  split; [exact H1 | split; [exact H2 | ]].
  destruct (MoveToVisual_animation Stage.shown Stage.box 7 _ H1 H2)
    as (Hd & _ & _ & _ & Hp & _).
  split; [exact Hd | exact Hp].
Defined.

Lemma MoveToVisual_without_scene_node_witness :
  sceneNode (base_of Stage.built) = None
  /\ fst (MoveToVisual (Some Stage.box) 7 Stage.built) = Fault p_sceneNode.
Proof.
  assert (H : sceneNode (base_of Stage.built) = None)
    by (vm_compute; reflexivity).
  split; [exact H | ].
  destruct (MoveToVisual_without_scene_node Stage.built Stage.box 7 H)
    as (Hd & _).
  exact Hd.
Defined.

